(** * Colour store, broadcaster and command router of the highlighter extension

    A shallow embedding of [background.js] (the background coordinator) and of
    the colour write path of the options page ([addColor] and [deleteColor] of
    the colour-picker script), followed by the properties of the colour
    collection, of the broadcast and of the highlight storage clean-up.

    Conventions of the embedding.
    - JavaScript strings are [string]; [toLowerCase] and [toUpperCase] fold
      the ASCII letters, as JavaScript does on a string of ASCII characters
      (all a hex colour contains).  JavaScript folds the letters beyond ASCII
      as well: a property that rests on two values being different, letter
      case apart, is stated for ASCII strings ([asciiOnly]).
    - JavaScript numbers that hold counts and positions are [Z].
    - [browserAPI.storage.local] is a finite map from keys to stored values,
      together with the log of the write calls made on it.
    - An [await]ed call that may reject is a computation that may throw; the
      [try]/[catch] blocks of the source are [try_catch].
    - A message handler runs to completion before the next one starts. *)

From Stdlib Require Import ZArith String Ascii List Lia Bool DecimalString.
From Stdlib Require HexadecimalString DecimalZ DecimalPos.
From stdpp Require Import gmap strings list fin_maps.

Local Open Scope Z_scope.

(** ** Strings *)

Definition toLowerAscii (a : ascii) : ascii :=
  let n := N_of_ascii a in
  if ((65 <=? n) && (n <=? 90))%N then ascii_of_N (n + 32) else a.

Definition toUpperAscii (a : ascii) : ascii :=
  let n := N_of_ascii a in
  if ((97 <=? n) && (n <=? 122))%N then ascii_of_N (n - 32) else a.

Fixpoint mapString (f : ascii -> ascii) (s : string) : string :=
  match s with
  | EmptyString => EmptyString
  | String a r => String (f a) (mapString f r)
  end.

(** [String.prototype.toLowerCase] and [toUpperCase], on the ASCII letters. *)
Definition toLowerCase (s : string) : string := mapString toLowerAscii s.
Definition toUpperCase (s : string) : string := mapString toUpperAscii s.

(** Rendering of a number inside a template literal. *)
Definition numberToString (z : Z) : string := NilZero.string_of_int (Z.to_int z).

Fixpoint dropString (n : nat) (s : string) : string :=
  match n, s with
  | O, _ => s
  | S n', String _ r => dropString n' r
  | S _, EmptyString => EmptyString
  end.

(** [s.replace(pat, rep)] with a string pattern: the first occurrence only. *)
Fixpoint replace (pat rep s : string) : string :=
  if String.prefix pat s then rep +:+ dropString (String.length pat) s
  else match s with
       | EmptyString => EmptyString
       | String a r => String a (replace pat rep r)
       end.

Definition isDigit (a : ascii) : bool :=
  let n := N_of_ascii a in ((48 <=? n) && (n <=? 57))%N.

Fixpoint parseDigits (s : string) (acc : option Z) : option Z :=
  match s with
  | EmptyString => acc
  | String a r =>
      if isDigit a
      then parseDigits r (Some (10 * default 0 acc + (Z.of_N (N_of_ascii a) - 48)))
      else acc
  end.

(** [parseInt] on an unsigned decimal prefix; [None] stands for [NaN]. *)
Definition parseInt (s : string) : option Z := parseDigits s None.

(** Truthiness of a string that may be absent ([undefined]). *)
Definition truthy (s : option string) : bool :=
  match s with
  | Some EmptyString | None => false
  | Some _ => true
  end.

(** ** Data model *)

(** A colour record.  A record without [colorNumber] is represented with
    [colorNumber = 0]: the source tests it with [!c.colorNumber] only. *)
Record ColorRecord := mkColor {
  id : string;
  nameKey : string;
  colorNumber : Z;
  color : string
}.

(** A highlight group is opaque to the background script but for [groupId]. *)
Record HighlightGroup := mkGroup {
  groupId : string;
  groupBody : string
}.

(** [lastUpdated] holds the instant whose ISO rendering the source stores. *)
Record PageMeta := mkMeta {
  title : string;
  lastUpdated : Z
}.

Inductive StoredValue :=
| SColors (cs : list ColorRecord)
| SHighlights (hs : list HighlightGroup)
| SMeta (m : PageMeta).

Inductive StorageCall :=
| CallSet (key : string) (v : StoredValue)
| CallRemove (keys : list string).

Record Tab := mkTab {
  tabId : Z;
  tabUrl : string;
  tabTitle : string;
  tabActive : bool;
  hasListener : bool
}.

(** Messages pushed to the pages. *)
Inductive PageMessage :=
| Highlight (c : string) (text : option string)
| ColorsUpdated (cs : list ColorRecord)
| RefreshHighlights (hs : list HighlightGroup).

(** One call of [tabs.sendMessage]: the recipient, the payload and whether a
    listener received it. *)
Record Delivery := mkDelivery {
  recipient : Z;
  payload : PageMessage;
  delivered : bool
}.

Record World := mkWorld {
  storage : gmap string StoredValue;
  storageLog : list StorageCall;
  currentColors : list ColorRecord;
  menuIds : list string;
  tabs : list Tab;
  deliveries : list Delivery
}.

Definition MAX_CUSTOM_COLORS : Z := 20.

Definition LEGACY_COMMAND_NAMES : list string :=
  ["highlight_yellow"; "highlight_green"; "highlight_blue";
   "highlight_pink"; "highlight_orange"].

Definition with_storage (s : gmap string StoredValue) (c : StorageCall) (w : World) : World :=
  mkWorld s (storageLog w ++ [c]) (currentColors w) (menuIds w) (tabs w) (deliveries w).

Definition with_currentColors (cs : list ColorRecord) (w : World) : World :=
  mkWorld (storage w) (storageLog w) cs (menuIds w) (tabs w) (deliveries w).

Definition with_menuIds (ms : list string) (w : World) : World :=
  mkWorld (storage w) (storageLog w) (currentColors w) ms (tabs w) (deliveries w).

Definition with_deliveries (ds : list Delivery) (w : World) : World :=
  mkWorld (storage w) (storageLog w) (currentColors w) (menuIds w) (tabs w) ds.

(** ** Computations: state and exceptions *)

Inductive Outcome (A : Type) :=
| Ok (a : A)
| Throw (message : string).
Arguments Ok {A} a.
Arguments Throw {A} message.

Definition M (A : Type) : Type := World -> Outcome A * World.

Definition ret {A} (a : A) : M A := fun w => (Ok a, w).

Definition bind {A B} (m : M A) (k : A -> M B) : M B :=
  fun w => match m w with
           | (Ok a, w') => k a w'
           | (Throw e, w') => (Throw e, w')
           end.

Definition throw {A} (e : string) : M A := fun w => (Throw e, w).

(** [try { body } catch (error) { handler }]. *)
Definition try_catch {A} (body : M A) (handler : string -> M A) : M A :=
  fun w => match body w with
           | (Ok a, w') => (Ok a, w')
           | (Throw e, w') => handler e w'
           end.

Declare Scope js_scope.
Delimit Scope js_scope with js.
Notation "x <- m ;; k" := (bind m (fun x => k))
  (at level 100, m at next level, right associativity) : js_scope.
Notation "m ;;; k" := (bind m (fun _ => k))
  (at level 100, right associativity) : js_scope.
Local Open Scope js_scope.

(** [for (const x of xs) { body }]. *)
Fixpoint for_of {A} (xs : list A) (body : A -> M unit) : M unit :=
  match xs with
  | [] => ret tt
  | x :: rest => body x ;;; for_of rest body
  end.

(** ** Platform calls *)

(** Reads of [storage.local], with the [|| []] default of the source.  A key
    that holds a value of another kind is outside the data model; the read is
    made to throw there. *)
Definition storedColors (s : gmap string StoredValue) : option (list ColorRecord) :=
  match s !! "customColors" with
  | None => Some []
  | Some (SColors cs) => Some cs
  | Some _ => None
  end.

Definition storedHighlights (url : string) (s : gmap string StoredValue)
  : option (list HighlightGroup) :=
  match s !! url with
  | None => Some []
  | Some (SHighlights hs) => Some hs
  | Some _ => None
  end.

Definition storage_get_customColors : M (list ColorRecord) :=
  fun w => match storedColors (storage w) with
           | Some cs => (Ok cs, w)
           | None => (Throw "customColors is not a colour collection", w)
           end.

Definition storage_get_highlights (url : string) : M (list HighlightGroup) :=
  fun w => match storedHighlights url (storage w) with
           | Some hs => (Ok hs, w)
           | None => (Throw "stored value is not a highlight list", w)
           end.

(** [storage.local.set({ [key]: v })]. *)
Definition storage_set (key : string) (v : StoredValue) : M unit :=
  fun w => (Ok tt, with_storage (<[key := v]> (storage w)) (CallSet key v) w).

(** [storage.local.remove(keys)]. *)
Definition storage_remove (keys : list string) : M unit :=
  fun w => (Ok tt, with_storage (foldr delete (storage w) keys) (CallRemove keys) w).

Definition get_currentColors : M (list ColorRecord) :=
  fun w => (Ok (currentColors w), w).

Definition set_currentColors (cs : list ColorRecord) : M unit :=
  fun w => (Ok tt, with_currentColors cs w).

(** [tabs.query({})], [tabs.query({ active: true, currentWindow: true })] and
    [tabs.query({ url })]; one window, and a URL pattern matches itself. *)
Definition tabs_query_all : M (list Tab) := fun w => (Ok (tabs w), w).

Definition tabs_query_active : M (list Tab) :=
  fun w => (Ok (filter (fun t => tabActive t = true) (tabs w)), w).

Definition tabs_query_url (url : string) : M (list Tab) :=
  fun w => (Ok (filter (fun t => tabUrl t = url) (tabs w)), w).

(** [tabs.sendMessage(tab.id, msg)]: rejects when the page has no listener. *)
Definition tabs_sendMessage (t : Tab) (msg : PageMessage) : M unit :=
  fun w =>
    let w' := with_deliveries (deliveries w ++ [mkDelivery (tabId t) msg (hasListener t)]) w in
    if hasListener t then (Ok tt, w')
    else (Throw "Could not establish connection. Receiving end does not exist.", w').

Definition contextMenus_removeAll : M unit :=
  fun w => (Ok tt, with_menuIds [] w).

(** [contextMenus.create]: rejects on an id that exists already. *)
Definition contextMenus_create (menuId : string) : M unit :=
  fun w => if bool_decide (menuId ∈ menuIds w)
           then (Throw "duplicate id", w)
           else (Ok tt, with_menuIds (menuIds w ++ [menuId]) w).

(** ** Requests and responses of the message channel *)

(** The requests of the listener, by [action]; an absent [color] or [colorId]
    is [None].  The two requests that range over all highlighted pages
    ([getAllHighlightedPages], [deleteAllHighlightedPages]) are left out. *)
Inductive Message :=
| GetDebugMode
| GetColors
| GetHighlights (url : string)
| ClearCustomColors
| DeleteColor (colorId : option string)
| AddColor (newColorValue : option string)
| CustomColorsUpdated
| SaveHighlights (url : string) (highlights : list HighlightGroup)
| DeleteHighlight (url : string) (group : string) (notifyRefresh : bool)
| ClearAllHighlights (url : string) (notifyRefresh : bool).

(** The object handed to [sendResponse]; an absent field is [None]. *)
Record Response := mkResponse {
  success : option bool;
  error : option string;
  colors : option (list ColorRecord);
  noCustomColors : option bool;
  highlights : option (list HighlightGroup);
  debugMode : option bool
}.

Definition respond (ok : bool) : Response :=
  mkResponse (Some ok) None None None None None.

Definition respondError (ok : bool) (e : string) : Response :=
  mkResponse (Some ok) (Some e) None None None None.

Definition respondColors (ok : bool) (cs : list ColorRecord) : Response :=
  mkResponse (Some ok) None (Some cs) None None None.

Definition respondHighlights (ok : bool) (hs : list HighlightGroup) : Response :=
  mkResponse (Some ok) None None None (Some hs) None.

Definition setColorNumber (n : Z) (c : ColorRecord) : ColorRecord :=
  mkColor (id c) (nameKey c) n (color c).

(** [cs.forEach((c, index) => { c.colorNumber = index + 1; })]. *)
Definition renumber (cs : list ColorRecord) : list ColorRecord :=
  imap (fun index c => setColorNumber (Z.of_nat index + 1) c) cs.

(** [cs.some(c => c.color.toLowerCase() === v.toLowerCase())]. *)
Definition colorExists (v : string) (cs : list ColorRecord) : bool :=
  existsb (fun c => String.eqb (toLowerCase (color c)) (toLowerCase v)) cs.

(** ** The background script *)

Module Background.

(** [loadCustomColors]: numbers the records that have no number, persists
    the collection when one was numbered, and replaces the mirror. *)
Definition loadCustomColors : M unit :=
  try_catch
    (customColors <- storage_get_customColors ;;
     let needsUpdate := existsb (fun c => colorNumber c =? 0) customColors in
     let customColors' :=
       imap (fun index c =>
               if colorNumber c =? 0 then setColorNumber (Z.of_nat index + 1) c else c)
            customColors in
     (if needsUpdate then storage_set "customColors" (SColors customColors') else ret tt) ;;;
     set_currentColors customColors')
    (fun _ => ret tt).

(** [createOrUpdateContextMenus], restricted to the menu ids: the titles, the
    shortcut annotations and [storedShortcuts] are read by no handler below. *)
Definition createOrUpdateContextMenus : M unit :=
  contextMenus_removeAll ;;;
  try_catch (contextMenus_create "highlight-text") (fun _ => ret tt) ;;;
  cs <- get_currentColors ;;
  for_of cs (fun c =>
    try_catch (contextMenus_create ("highlight-" +:+ id c)) (fun _ => ret tt)).

(** The broadcast loop that follows every change of the collection. *)
Definition broadcastColors : M unit :=
  ts <- tabs_query_all ;;
  for_of ts (fun tab =>
    try_catch
      (cs <- get_currentColors ;;
       tabs_sendMessage tab (ColorsUpdated cs))
      (fun _ => ret tt)).

Definition notifyTabHighlightsRefresh (hs : list HighlightGroup) (url : string) : M unit :=
  ts <- tabs_query_url url ;;
  try_catch
    (match head ts with
     | Some t => tabs_sendMessage t (RefreshHighlights hs)
     | None => throw "Cannot read properties of undefined (reading 'id')"
     end)
    (fun _ => ret tt).

Definition cleanupEmptyHighlightData (url : string) : M unit :=
  if truthy (Some url)
  then try_catch (storage_remove [url; url +:+ "_meta"]) (fun _ => ret tt)
  else ret tt.

(** The colour a shortcut command stands for: [null] is [None]. *)
Definition targetColor (command : string) (cs : list ColorRecord) : option string :=
  if String.eqb command "highlight_yellow" then
    if 1 <=? Z.of_nat (length cs) then color <$> cs !! 0%nat else None
  else if String.eqb command "highlight_green" then
    if 2 <=? Z.of_nat (length cs) then color <$> cs !! 1%nat else None
  else if String.eqb command "highlight_blue" then
    if 3 <=? Z.of_nat (length cs) then color <$> cs !! 2%nat else None
  else if String.eqb command "highlight_pink" then
    if 4 <=? Z.of_nat (length cs) then color <$> cs !! 3%nat else None
  else if String.eqb command "highlight_orange" then
    if 5 <=? Z.of_nat (length cs) then color <$> cs !! 4%nat else None
  else if String.eqb command "highlight_custom_1"
       || String.eqb command "highlight_custom_2"
       || String.eqb command "highlight_custom_3"
       || String.eqb command "highlight_custom_4"
       || String.eqb command "highlight_custom_5" then
    match parseInt (replace "highlight_custom_" "" command) with
    | Some slotNum =>
        let colorIndex := 5 + slotNum - 1 in
        if colorIndex <? Z.of_nat (length cs)
        then color <$> cs !! Z.to_nat colorIndex
        else None
    | None => None
    end
  else None.

(** The listener of [commands.onCommand]. *)
Definition onCommand (command : string) : M unit :=
  ts <- tabs_query_active ;;
  match head ts with
  | Some activeTab =>
      cs <- get_currentColors ;;
      let target := targetColor command cs in
      if truthy target
      then try_catch
             (tabs_sendMessage activeTab (Highlight (default "" target) None))
             (fun _ => ret tt)
      else ret tt
  | None => ret tt
  end.

(** The listener of [contextMenus.onClicked]. *)
Definition onClicked (menuItemId : string) (selectionText : option string) (tab : Tab)
  : M unit :=
  if String.prefix "highlight-" menuItemId && negb (String.eqb menuItemId "highlight-text")
  then
    let colorId := replace "highlight-" "" menuItemId in
    cs <- get_currentColors ;;
    match list_find (fun c => id c = colorId) cs with
    | Some (_, c) =>
        try_catch (tabs_sendMessage tab (Highlight (color c) selectionText))
                  (fun _ => ret tt)
    | None => ret tt
    end
  else ret tt.

(** The body of the [runtime.onMessage] listener, inside its [try]. *)
Definition handle (now : Z) (message : Message) : M Response :=
  match message with
  | GetDebugMode =>
      ret (mkResponse None None None None None (Some false))
  | GetColors =>
      cs <- get_currentColors ;;
      ret (mkResponse None None (Some cs) None None None)
  | GetHighlights url =>
      hs <- storage_get_highlights url ;;
      ret (mkResponse None None None None (Some hs) None)
  | ClearCustomColors =>
      customColors <- storage_get_customColors ;;
      if Z.of_nat (length customColors) =? 0
      then ret (mkResponse (Some true) None None (Some true) None None)
      else
        storage_set "customColors" (SColors []) ;;;
        set_currentColors [] ;;;
        createOrUpdateContextMenus ;;;
        broadcastColors ;;;
        ret (respond true)
  | DeleteColor colorId =>
      if truthy colorId then
        customColors <- storage_get_customColors ;;
        match list_find (fun c => id c = default "" colorId) customColors with
        | None => ret (respondError false "Color not found")
        | Some (colorIndex, _) =>
            let customColors' := renumber (delete colorIndex customColors) in
            storage_set "customColors" (SColors customColors') ;;;
            set_currentColors customColors' ;;;
            createOrUpdateContextMenus ;;;
            broadcastColors ;;;
            cs <- get_currentColors ;;
            ret (respondColors true cs)
        end
      else ret (respondError false "Color ID is required")
  | AddColor newColorValue =>
      if truthy newColorValue then
        let v := default "" newColorValue in
        customColors <- storage_get_customColors ;;
        if MAX_CUSTOM_COLORS <=? Z.of_nat (length customColors) then
          cs <- get_currentColors ;;
          ret (mkResponse (Some false) (Some "Maximum color limit reached")
                          (Some cs) None None None)
        else
          (if negb (colorExists v customColors) then
             let newColorObj :=
               mkColor ("custom_" +:+ numberToString now) "customColor"
                       (Z.of_nat (length customColors) + 1) v in
             cs <- get_currentColors ;;
             set_currentColors (cs ++ [newColorObj]) ;;;
             storage_set "customColors" (SColors (customColors ++ [newColorObj])) ;;;
             createOrUpdateContextMenus ;;;
             broadcastColors
           else ret tt) ;;;
          cs <- get_currentColors ;;
          ret (respondColors true cs)
      else ret (respond false)
  | CustomColorsUpdated =>
      loadCustomColors ;;;
      createOrUpdateContextMenus ;;;
      broadcastColors ;;;
      ret (respond true)
  | SaveHighlights url hs =>
      ts <- tabs_query_active ;;
      if 0 <? Z.of_nat (length hs) then
        storage_set url (SHighlights hs) ;;;
        (* the stored metadata is read back here; both of its fields are
           overwritten below *)
        match head ts with
        | Some currentTab =>
            storage_set (url +:+ "_meta") (SMeta (mkMeta (tabTitle currentTab) now)) ;;;
            ret (respond true)
        | None => throw "Cannot read properties of undefined (reading 'title')"
        end
      else
        cleanupEmptyHighlightData url ;;;
        ret (respond true)
  | DeleteHighlight url group notifyRefresh =>
      hs <- storage_get_highlights url ;;
      let updatedHighlights := filter (fun g => groupId g <> group) hs in
      if 0 <? Z.of_nat (length updatedHighlights) then
        storage_set url (SHighlights updatedHighlights) ;;;
        (if notifyRefresh then notifyTabHighlightsRefresh updatedHighlights url else ret tt) ;;;
        ret (respondHighlights true updatedHighlights)
      else
        cleanupEmptyHighlightData url ;;;
        (if notifyRefresh then notifyTabHighlightsRefresh [] url else ret tt) ;;;
        ret (respondHighlights true [])
  | ClearAllHighlights url notifyRefresh =>
      cleanupEmptyHighlightData url ;;;
      (if notifyRefresh then notifyTabHighlightsRefresh [] url else ret tt) ;;;
      ret (respond true)
  end.

(** The listener of [runtime.onMessage]: an exception of the body becomes a
    failure response that carries its message. *)
Definition onMessage (now : Z) (message : Message) (w : World) : Response * World :=
  match handle now message w with
  | (Ok r, w') => (r, w')
  | (Throw e, w') => (respondError false e, w')
  end.

End Background.

(** ** The colour write path of the options page *)

Module ColorPicker.

(** [addColor(colorValue)]: the [alert]s and the redisplay leave the world
    unchanged; the [customColorsUpdated] notice is handled by the background
    script as a message of its own. *)
Definition addColor (now : Z) (colorValue : string) : M unit :=
  try_catch
    (customColors <- storage_get_customColors ;;
     if MAX_CUSTOM_COLORS <=? Z.of_nat (length customColors) then ret tt
     else if colorExists colorValue customColors then ret tt
     else
       let newColor :=
         mkColor ("custom_" +:+ numberToString now) "customColor"
                 (Z.of_nat (length customColors) + 1) (toUpperCase colorValue) in
       storage_set "customColors" (SColors (customColors ++ [newColor])))
    (fun _ => ret tt).

(** [deleteColor(colorId)]. *)
Definition deleteColor (colorId : string) : M unit :=
  try_catch
    (customColors <- storage_get_customColors ;;
     let customColors' := renumber (filter (fun c => id c <> colorId) customColors) in
     storage_set "customColors" (SColors customColors'))
    (fun _ => ret tt).

End ColorPicker.

(** ** Keyboard shortcuts of the background script *)

(** An entry of [commands.getAll()]; an unbound command has the empty
    [shortcut]. *)
Record Command := mkCommand {
  commandName : string;
  commandShortcut : string
}.

Module Shortcuts.

(** [getCurrentShortcuts], on the answer of [commands.getAll()]. *)
Definition getCurrentShortcuts (commands : list Command) : gmap string string :=
  foldl (fun shortcuts command =>
           if String.prefix "highlight_" (commandName command)
              && truthy (Some (commandShortcut command))
           then <[commandName command := " (" +:+ commandShortcut command +:+ ")"]> shortcuts
           else shortcuts)
        ∅ commands.

(** The two comparison loops of the [tabs.onActivated] listener: the value
    of [hasChanged] after them. *)
Definition hasChanged (storedShortcuts currentShortcuts : gmap string string) : bool :=
  existsb (fun entry => negb (bool_decide (storedShortcuts !! entry.1 = Some entry.2)))
          (map_to_list currentShortcuts)
  || existsb (fun entry => negb (truthy (currentShortcuts !! entry.1)))
             (map_to_list storedShortcuts).

(** The listener of [tabs.onActivated]; the result is [storedShortcuts]
    after it, which [createOrUpdateContextMenus] overwrites with the current
    bindings. *)
Definition onActivated (commands : list Command) (storedShortcuts : gmap string string)
  : M (gmap string string) :=
  let currentShortcuts := getCurrentShortcuts commands in
  if hasChanged storedShortcuts currentShortcuts
  then Background.createOrUpdateContextMenus ;;; ret (getCurrentShortcuts commands)
  else ret storedShortcuts.

(** The command whose shortcut [createOrUpdateContextMenus] shows in the
    title of the menu entry at index [i]. *)
Definition commandNameAt (i : nat) : string :=
  if (i <? 5)%nat then default "" (LEGACY_COMMAND_NAMES !! i)
  else if (i <? 10)%nat then "highlight_custom_" +:+ numberToString (Z.of_nat i - 4)
  else "".

End Shortcuts.

(** ** Requests over all highlighted pages *)

Module Pages.

Definition isArray (v : StoredValue) : bool :=
  match v with
  | SColors _ | SHighlights _ => true
  | SMeta _ => false
  end.

Definition arrayLength (v : StoredValue) : nat :=
  match v with
  | SColors cs => length cs
  | SHighlights hs => length hs
  | SMeta _ => 0
  end.

(** [key.endsWith(suffix)]. *)
Definition endsWith (key suffix : string) : bool :=
  (String.length suffix <=? String.length key)%nat
  && String.eqb (dropString (String.length key - String.length suffix) key) suffix.

(** The test both requests apply to an entry of the storage. *)
Definition isHighlightedPage (key : string) (v : StoredValue) : bool :=
  negb (String.eqb key "customColors")
  && isArray v && (0 <? arrayLength v)%nat && negb (endsWith key "_meta").

(** The keys that pass the test, in the order the storage lists them (the
    source fixes no order). *)
Definition highlightedPageKeys (s : gmap string StoredValue) : list string :=
  (filter (fun entry => isHighlightedPage entry.1 entry.2 = true) (map_to_list s)).*1.

(** The [deleteAllHighlightedPages] request; the result is [deletedCount]. *)
Definition deleteAllHighlightedPages : M Z :=
  fun w =>
    let keysToDelete :=
      flat_map (fun key => [key; key +:+ "_meta"]) (highlightedPageKeys (storage w)) in
    ((if 0 <? Z.of_nat (length keysToDelete) then storage_remove keysToDelete else ret tt) ;;;
     ret (Z.of_nat (length keysToDelete) / 2)) w.

End Pages.

(** ** Hex rendering of the colour picker *)

Module PickerHex.

(** [x.toString(16)] on an integer. *)
Definition toString16 (x : Z) : string :=
  HexadecimalString.NilZero.string_of_int (Z.to_hex_int x).

Definition pad2 (x : Z) : string :=
  let hex := toString16 x in
  if (String.length hex =? 1)%nat then "0" +:+ hex else hex.

(** [rgbToHex(r, g, b)]. *)
Definition rgbToHex (r g b : Z) : string :=
  "#" +:+ toUpperCase (String.concat "" (pad2 <$> [r; g; b])).

End PickerHex.

(** * Vocabulary of the properties *)

(** ** What the post-mutation hooks leave behind *)

Definition addMenu (ms : list string) (c : ColorRecord) : list string :=
  if bool_decide ("highlight-" +:+ id c ∈ ms) then ms else ms ++ ["highlight-" +:+ id c].

(** The menu ids after a rebuild from the collection [cs]. *)
Definition menuTree (cs : list ColorRecord) : list string :=
  foldl addMenu ["highlight-text"] cs.

(** The [tabs.sendMessage] calls of one broadcast of [cs] to the tabs [ts]. *)
Definition broadcastLog (cs : list ColorRecord) (ts : list Tab) : list Delivery :=
  (fun t => mkDelivery (tabId t) (ColorsUpdated cs) (hasListener t)) <$> ts.

(** The record [addColor] builds at instant [now] for the stored collection
    [cs] and the requested value [v]. *)
Definition newColorObj (now : Z) (cs : list ColorRecord) (v : string) : ColorRecord :=
  mkColor ("custom_" +:+ numberToString now) "customColor" (Z.of_nat (length cs) + 1) v.

(** The world after a write of the collection [stored], with mirror [mirror],
    followed by the menu rebuild and the broadcast. *)
Definition committed (stored mirror : list ColorRecord) (w : World) : World :=
  mkWorld (<["customColors" := SColors stored]> (storage w))
          (storageLog w ++ [CallSet "customColors" (SColors stored)])
          mirror
          (menuTree mirror)
          (tabs w)
          (deliveries w ++ broadcastLog mirror (tabs w)).

(** ** Numbering *)

(** Positional numbering: the [colorNumber]s read [1, 2, ..., N] in order. *)
Definition positions (n : nat) : list Z := (fun i => Z.of_nat i + 1) <$> seq 0 n.

Definition dense (cs : list ColorRecord) : Prop :=
  colorNumber <$> cs = positions (length cs).

(** The [colorNumber]s of [cs], as a collection of values, are exactly
    [1, ..., N] for [N] the size of [cs]: no duplicate and no gap. *)
Definition exactlyOneToN (cs : list ColorRecord) : Prop :=
  NoDup (colorNumber <$> cs) /\
  forall z, z ∈ colorNumber <$> cs <-> 1 <= z <= Z.of_nat (length cs).

(** The persisted collection and the mirror agree, are numbered by position
    and hold at most [MAX_CUSTOM_COLORS] records. *)
Definition colorsInv (w : World) : Prop :=
  exists cs, storedColors (storage w) = Some cs /\
             currentColors w = cs /\
             dense cs /\
             Z.of_nat (length cs) <= MAX_CUSTOM_COLORS.

(** ** Runs *)

(** A run of the message listener over a sequence of timed requests, and the
    worlds it goes through. *)
Fixpoint trace (requests : list (Z * Message)) (w : World) : list World :=
  match requests with
  | [] => []
  | (now, m) :: rest =>
      let w' := snd (Background.onMessage now m w) in
      w' :: trace rest w'
  end.

Definition isColorMutation (m : Message) : bool :=
  match m with
  | AddColor _ | DeleteColor _ => true
  | _ => false
  end.

(** ** Shortcut slots *)

(** The position a shortcut command stands for: the five legacy names stand
    for positions 0 to 4, [highlight_custom_N] for position [4 + N]. *)
Inductive resolvesTo : string -> nat -> Prop :=
| legacy_slot (i : nat) (name : string) :
    LEGACY_COMMAND_NAMES !! i = Some name -> resolvesTo name i
| custom_slot (n : nat) :
    (1 <= n <= 5)%nat ->
    resolvesTo ("highlight_custom_" +:+ numberToString (Z.of_nat n)) (4 + n).

(** ** Highlight storage *)

(** The keys [url] and [url_meta] leave the storage in one [remove] call. *)
Definition keysRemoved (url : string) (w w' : World) : Prop :=
  storage w' = delete url (delete (url +:+ "_meta") (storage w)) /\
  storageLog w' = storageLog w ++ [CallRemove [url; url +:+ "_meta"]] /\
  storage w' !! url = None /\
  storage w' !! (url +:+ "_meta") = None.

(** The requests that can empty the highlight collection of [url]. *)
Inductive highlightRemoval (url : string) : Message -> Prop :=
| removal_save : highlightRemoval url (SaveHighlights url [])
| removal_delete (group : string) (notifyRefresh : bool) :
    highlightRemoval url (DeleteHighlight url group notifyRefresh)
| removal_clear (notifyRefresh : bool) :
    highlightRemoval url (ClearAllHighlights url notifyRefresh).

(** Between [w] and [w'] the stored highlight collection of [url] goes from
    non-empty to empty (or absent). *)
Definition emptiesCollection (url : string) (w w' : World) : Prop :=
  (exists hs, storedHighlights url (storage w) = Some hs /\ hs <> []) /\
  storedHighlights url (storage w') = Some [].

(** The requests after which no highlight is left for [url], read off the
    request and the storage of [w] as the handler finds it: [saveHighlights]
    with an empty list, [deleteHighlight] of a group when the stored list
    holds no other group, [clearAllHighlights]. *)
Inductive emptiesHighlights (url : string) (w : World) : Message -> Prop :=
| empties_save : emptiesHighlights url w (SaveHighlights url [])
| empties_delete (group : string) (notifyRefresh : bool) (hs : list HighlightGroup) :
    storedHighlights url (storage w) = Some hs ->
    filter (fun g => groupId g <> group) hs = [] ->
    emptiesHighlights url w (DeleteHighlight url group notifyRefresh)
| empties_clear (notifyRefresh : bool) :
    emptiesHighlights url w (ClearAllHighlights url notifyRefresh).

(** ** Worlds that differ in their listeners *)

(** Two tabs, two [sendMessage] calls, two worlds that differ at most in
    which pages have a listener. *)
Definition sameTab (t1 t2 : Tab) : Prop :=
  tabId t1 = tabId t2 /\ tabUrl t1 = tabUrl t2 /\
  tabTitle t1 = tabTitle t2 /\ tabActive t1 = tabActive t2.

Definition sameCall (d1 d2 : Delivery) : Prop :=
  recipient d1 = recipient d2 /\ payload d1 = payload d2.

Definition sameButListeners (w1 w2 : World) : Prop :=
  storage w1 = storage w2 /\
  storageLog w1 = storageLog w2 /\
  currentColors w1 = currentColors w2 /\
  menuIds w1 = menuIds w2 /\
  Forall2 sameTab (tabs w1) (tabs w2) /\
  Forall2 sameCall (deliveries w1) (deliveries w2).

Definition sameOutcome {A} (RA : A -> A -> Prop) (o1 o2 : Outcome A) : Prop :=
  match o1, o2 with
  | Ok a1, Ok a2 => RA a1 a2
  | Throw e1, Throw e2 => e1 = e2
  | _, _ => False
  end.

(** Two computations agree when, from worlds that differ at most in the
    listeners, they end alike in worlds that differ at most in the listeners
    and in the outcome of the deliveries. *)
Definition agree {A} (RA : A -> A -> Prop) (m1 m2 : M A) : Prop :=
  forall w1 w2, sameButListeners w1 w2 ->
    sameOutcome RA (m1 w1).1 (m2 w2).1 /\ sameButListeners (m1 w1).2 (m2 w2).2.

(** ** Sample data *)

Definition red : ColorRecord := mkColor "custom_100" "customColor" 1 "#FF0000".
Definition green : ColorRecord := mkColor "custom_101" "customColor" 2 "#00FF00".
Definition blue : ColorRecord := mkColor "custom_102" "customColor" 3 "#0000FF".

Definition page1 : Tab := mkTab 1 "https://example.org/a" "A" true true.
Definition page2 : Tab := mkTab 2 "https://example.org/b" "B" false false.
Definition page3 : Tab := mkTab 3 "https://example.org/c" "C" false true.
Definition threePages : list Tab := [page1; page2; page3].

(** The same three pages, each with a listener. *)
Definition allListening : list Tab :=
  [page1; mkTab 2 "https://example.org/b" "B" false true; page3].

(** A world whose storage and mirror hold the collection [cs]. *)
Definition worldOf (cs : list ColorRecord) (ts : list Tab) : World :=
  mkWorld {["customColors" := SColors cs]} [] cs (menuTree cs) ts [].

(** Twenty records with pairwise distinct ids and colours. *)
Definition fullPalette : list ColorRecord :=
  (fun i => mkColor ("custom_" +:+ numberToString (Z.of_nat i)) "customColor"
                    (Z.of_nat i + 1) ("#0000" +:+ numberToString (Z.of_nat i + 10)))
    <$> seq 0 20.

(** Two additions, a duplicate in lower case and the deletion of the first
    record. *)
Definition sampleRun : list (Z * Message) :=
  [(100, AddColor (Some "#FF0000"));
   (101, AddColor (Some "#00FF00"));
   (102, AddColor (Some "#ff0000"));
   (103, DeleteColor (Some "custom_100"))].

Definition samplePage : string := "https://example.org/a".

(** A world with one highlighted page and one colour. *)
Definition pageWorld : World :=
  mkWorld {[ samplePage := SHighlights [mkGroup "g1" "first"];
             samplePage +:+ "_meta" := SMeta (mkMeta "A" 5);
             "customColors" := SColors [red] ]}
          [] [red] (menuTree [red]) threePages [].

(** ** Further vocabulary *)

(** The colours of [cs] are pairwise distinct, letter case apart. *)
Definition distinctColors (cs : list ColorRecord) : Prop :=
  NoDup ((fun c => toLowerCase (color c)) <$> cs).

(** The id [addColor] gives to a record made at instant [now]. *)
Definition idAt (now : Z) : string := "custom_" +:+ numberToString now.

(** The collection [loadCustomColors] builds from the stored [cs]: a record
    without number gets the number of its position. *)
Definition numberMissing (cs : list ColorRecord) : list ColorRecord :=
  imap (fun index c =>
          if colorNumber c =? 0 then setColorNumber (Z.of_nat index + 1) c else c) cs.

(** A stored collection whose first record has no number, with an empty
    mirror. *)
Definition legacyWorld : World :=
  mkWorld {["customColors" := SColors [mkColor "a" "customColor" 0 "#111111"; green]]}
          [] [] [] threePages [].

(** The stored collection is numbered by position, holds at most
    [MAX_CUSTOM_COLORS] records and no colour twice, letter case apart. *)
Definition storedInv (cs : list ColorRecord) : Prop :=
  dense cs /\ Z.of_nat (length cs) <= MAX_CUSTOM_COLORS /\ distinctColors cs.

(** The two writes of the options page. *)
Inductive PickerWrite :=
| PickAdd (now : Z) (colorValue : string)
| PickDelete (colorId : string).

Definition pickerWrite (op : PickerWrite) : M unit :=
  match op with
  | PickAdd now colorValue => ColorPicker.addColor now colorValue
  | PickDelete colorId => ColorPicker.deleteColor colorId
  end.

(** The ten command names the shortcut listener knows. *)
Definition shortcutCommands : list string :=
  LEGACY_COMMAND_NAMES ++
  ["highlight_custom_1"; "highlight_custom_2"; "highlight_custom_3";
   "highlight_custom_4"; "highlight_custom_5"].

(** The id of the menu entry of a record. *)
Definition menuIdOf (c : ColorRecord) : string := "highlight-" +:+ id c.

(** One step of [getCurrentShortcuts]. *)
Definition recordShortcut (shortcuts : gmap string string) (command : Command)
  : gmap string string :=
  if String.prefix "highlight_" (commandName command)
     && truthy (Some (commandShortcut command))
  then <[commandName command := " (" +:+ commandShortcut command +:+ ")"]> shortcuts
  else shortcuts.

(** Sample bindings. *)
Definition sampleCommands : list Command :=
  [mkCommand "highlight_yellow" "Ctrl+Shift+1";
   mkCommand "highlight_green" "";
   mkCommand "_execute_action" "Alt+M";
   mkCommand "highlight_custom_1" "Alt+6"].

(** The [sendMessage] call of [notifyTabHighlightsRefresh]: one call to the
    first tab that shows [url], none when no tab does. *)
Definition refreshLog (hs : list HighlightGroup) (url : string) (ts : list Tab)
  : list Delivery :=
  match head (filter (fun t => tabUrl t = url) ts) with
  | Some t => [mkDelivery (tabId t) (RefreshHighlights hs) (hasListener t)]
  | None => []
  end.

(** A world with two highlighted pages, one page key without highlights and
    one colour. *)
Definition twoPagesWorld : World :=
  mkWorld {[ "https://example.org/a" := SHighlights [mkGroup "g1" "first"];
             "https://example.org/a_meta" := SMeta (mkMeta "A" 5);
             "https://example.org/b" := SHighlights [mkGroup "g2" "x"; mkGroup "g3" "y"];
             "https://example.org/b_meta" := SMeta (mkMeta "B" 6);
             "https://example.org/c" := SHighlights [];
             "customColors" := SColors [red] ]}
          [] [red] (menuTree [red]) threePages [].

(** The two characters [rgbToHex] writes for one channel. *)
Definition channelHex (x : Z) : string := toUpperCase (PickerHex.pad2 x).

Definition isUpperHexDigit (a : ascii) : bool :=
  let n := N_of_ascii a in
  (((48 <=? n) && (n <=? 57)) || ((65 <=? n) && (n <=? 70)))%N.

Fixpoint allChars (p : ascii -> bool) (s : string) : bool :=
  match s with
  | EmptyString => true
  | String a r => p a && allChars p r
  end.

(** A string of ASCII characters.  On such strings [toLowerCase] is the
    function of JavaScript, and so is the comparison of [colorExists]. *)
Definition isAsciiChar (a : ascii) : bool := (N_of_ascii a <? 128)%N.

Definition asciiOnly (s : string) : Prop := allChars isAsciiChar s = true.

(** The storage keys a request may write. *)
Definition keysOf (m : Message) : list string :=
  match m with
  | AddColor _ | DeleteColor _ | ClearCustomColors | CustomColorsUpdated => ["customColors"]
  | SaveHighlights url _ | DeleteHighlight url _ _ | ClearAllHighlights url _ =>
      [url; url +:+ "_meta"]
  | GetDebugMode | GetColors | GetHighlights _ => []
  end.

(** The storage keys [deleteAllHighlightedPages] may write, on the storage
    [s]: the keys of the highlighted pages and their [_meta] keys. *)
Definition pageKeysOf (s : gmap string StoredValue) : list string :=
  flat_map (fun key => [key; key +:+ "_meta"]) (Pages.highlightedPageKeys s).

(** The requests that leave the collection of colours alone. *)
Definition isColorRequest (m : Message) : bool :=
  match m with
  | AddColor _ | DeleteColor _ | ClearCustomColors | CustomColorsUpdated => true
  | _ => false
  end.

(** A computation writes the storage under the keys [ks] at most. *)
Definition writesWithin {A} (ks : list string) (m : M A) : Prop :=
  forall w k, k ∉ ks -> storage (m w).2 !! k = storage w !! k.

(** A computation leaves the mirror and the menu as they are. *)
Definition keepsMirror {A} (m : M A) : Prop :=
  forall w, currentColors (m w).2 = currentColors w /\ menuIds (m w).2 = menuIds w.

(** * Properties *)

(** ** Lemmas on the hooks *)

Lemma with_menuIds_same w : with_menuIds (menuIds w) w = w.
Proof. by destruct w. Qed.

Lemma with_deliveries_same w : with_deliveries (deliveries w) w = w.
Proof. by destruct w. Qed.

Lemma createMenus_loop (cs : list ColorRecord) (w : World) :
  for_of cs (fun c =>
    try_catch (contextMenus_create ("highlight-" +:+ id c)) (fun _ => ret tt)) w
  = (Ok tt, with_menuIds (foldl addMenu (menuIds w) cs) w).
Proof.
  revert w. induction cs as [|c cs IH]; intros w; simpl.
  - unfold ret. by rewrite with_menuIds_same.
  - unfold bind, try_catch, contextMenus_create, addMenu.
    destruct (bool_decide _); simpl.
    + rewrite IH. done.
    + rewrite IH. by destruct w.
Qed.

Lemma createOrUpdateContextMenus_run (w : World) :
  Background.createOrUpdateContextMenus w
  = (Ok tt, with_menuIds (menuTree (currentColors w)) w).
Proof.
  unfold Background.createOrUpdateContextMenus, bind, contextMenus_removeAll,
    try_catch, contextMenus_create, get_currentColors.
  simpl. rewrite createMenus_loop. by destruct w.
Qed.

Lemma broadcast_loop (ts : list Tab) (w : World) :
  for_of ts (fun tab =>
    try_catch (cs <- get_currentColors ;; tabs_sendMessage tab (ColorsUpdated cs))
              (fun _ => ret tt)) w
  = (Ok tt, with_deliveries (deliveries w ++ broadcastLog (currentColors w) ts) w).
Proof.
  revert w. induction ts as [|t ts IH]; intros w; simpl.
  - unfold ret. by rewrite app_nil_r, with_deliveries_same.
  - unfold bind, try_catch, get_currentColors, tabs_sendMessage, ret.
    destruct (hasListener t) eqn:Hl; rewrite IH; destruct w; simpl;
      unfold with_deliveries; simpl; by rewrite <- app_assoc.
Qed.

Lemma broadcastColors_run (w : World) :
  Background.broadcastColors w
  = (Ok tt, with_deliveries (deliveries w ++ broadcastLog (currentColors w) (tabs w)) w).
Proof.
  unfold Background.broadcastColors, bind, tabs_query_all. apply broadcast_loop.
Qed.

(** ** The colour handlers, case by case *)

Lemma truthy_Some (v : string) : v <> "" -> truthy (Some v) = true.
Proof. by destruct v. Qed.

Lemma colorExists_true (v : string) (cs : list ColorRecord) :
  colorExists v cs = true <->
  exists c, c ∈ cs /\ toLowerCase (color c) = toLowerCase v.
Proof.
  unfold colorExists. rewrite existsb_exists. split.
  - intros (c & Hin & Heq). exists c. split.
    + by apply list_elem_of_In.
    + by apply String.eqb_eq.
  - intros (c & Hin & Heq). exists c. split.
    + by apply list_elem_of_In.
    + by apply String.eqb_eq.
Qed.

Lemma addColor_falsy (now : Z) (v : option string) (w : World) :
  truthy v = false ->
  Background.onMessage now (AddColor v) w = (respond false, w).
Proof.
  intros Hv. unfold Background.onMessage, Background.handle. by rewrite Hv.
Qed.

Lemma addColor_at_capacity (now : Z) (v : string) (w : World) (cs : list ColorRecord) :
  v <> "" ->
  storedColors (storage w) = Some cs ->
  MAX_CUSTOM_COLORS <= Z.of_nat (length cs) ->
  Background.onMessage now (AddColor (Some v)) w
  = (mkResponse (Some false) (Some "Maximum color limit reached")
                (Some (currentColors w)) None None None, w).
Proof.
  intros Hv Hcs Hmax.
  unfold Background.onMessage, Background.handle.
  rewrite (truthy_Some v Hv).
  unfold bind, storage_get_customColors. rewrite Hcs.
  by rewrite (proj2 (Z.leb_le _ _) Hmax).
Qed.

Lemma addColor_existing (now : Z) (v : string) (w : World) (cs : list ColorRecord) :
  v <> "" ->
  storedColors (storage w) = Some cs ->
  Z.of_nat (length cs) < MAX_CUSTOM_COLORS ->
  colorExists v cs = true ->
  Background.onMessage now (AddColor (Some v)) w
  = (respondColors true (currentColors w), w).
Proof.
  intros Hv Hcs Hmax Hex.
  unfold Background.onMessage, Background.handle.
  rewrite (truthy_Some v Hv).
  unfold bind, storage_get_customColors. rewrite Hcs.
  rewrite (proj2 (Z.leb_gt _ _) Hmax). simpl. by rewrite Hex.
Qed.

Lemma addColor_fresh (now : Z) (v : string) (w : World) (cs : list ColorRecord) :
  v <> "" ->
  storedColors (storage w) = Some cs ->
  Z.of_nat (length cs) < MAX_CUSTOM_COLORS ->
  colorExists v cs = false ->
  Background.onMessage now (AddColor (Some v)) w
  = (respondColors true (currentColors w ++ [newColorObj now cs v]),
     committed (cs ++ [newColorObj now cs v])
               (currentColors w ++ [newColorObj now cs v]) w).
Proof.
  intros Hv Hcs Hmax Hex.
  unfold Background.onMessage, Background.handle.
  rewrite (truthy_Some v Hv).
  unfold bind at 1. unfold storage_get_customColors. rewrite Hcs.
  rewrite (proj2 (Z.leb_gt _ _) Hmax). simpl. rewrite Hex. simpl.
  unfold bind, get_currentColors, set_currentColors, storage_set.
  rewrite createOrUpdateContextMenus_run, broadcastColors_run.
  by destruct w.
Qed.

Lemma deleteColor_missing_id (now : Z) (colorId : option string) (w : World) :
  truthy colorId = false ->
  Background.onMessage now (DeleteColor colorId) w
  = (respondError false "Color ID is required", w).
Proof.
  intros Hv. unfold Background.onMessage, Background.handle. by rewrite Hv.
Qed.

Lemma deleteColor_not_found (now : Z) (colorId : string) (w : World)
    (cs : list ColorRecord) :
  colorId <> "" ->
  storedColors (storage w) = Some cs ->
  list_find (fun c => id c = colorId) cs = None ->
  Background.onMessage now (DeleteColor (Some colorId)) w
  = (respondError false "Color not found", w).
Proof.
  intros Hv Hcs Hfind.
  unfold Background.onMessage, Background.handle.
  rewrite (truthy_Some _ Hv).
  unfold bind, storage_get_customColors. rewrite Hcs. simpl. by rewrite Hfind.
Qed.

Lemma deleteColor_found (now : Z) (colorId : string) (w : World)
    (cs : list ColorRecord) (colorIndex : nat) (c : ColorRecord) :
  colorId <> "" ->
  storedColors (storage w) = Some cs ->
  list_find (fun c => id c = colorId) cs = Some (colorIndex, c) ->
  Background.onMessage now (DeleteColor (Some colorId)) w
  = (respondColors true (renumber (delete colorIndex cs)),
     committed (renumber (delete colorIndex cs)) (renumber (delete colorIndex cs)) w).
Proof.
  intros Hv Hcs Hfind.
  unfold Background.onMessage, Background.handle.
  rewrite (truthy_Some _ Hv).
  unfold bind at 1. unfold storage_get_customColors. rewrite Hcs. simpl.
  rewrite Hfind.
  unfold bind, get_currentColors, set_currentColors, storage_set.
  rewrite createOrUpdateContextMenus_run, broadcastColors_run.
  by destruct w.
Qed.

Lemma clearCustomColors_empty (now : Z) (w : World) :
  storedColors (storage w) = Some [] ->
  Background.onMessage now ClearCustomColors w
  = (mkResponse (Some true) None None (Some true) None None, w).
Proof.
  intros Hcs. unfold Background.onMessage, Background.handle.
  unfold bind, storage_get_customColors. by rewrite Hcs.
Qed.

Lemma clearCustomColors_nonempty (now : Z) (w : World) (cs : list ColorRecord) :
  storedColors (storage w) = Some cs ->
  cs <> [] ->
  Background.onMessage now ClearCustomColors w = (respond true, committed [] [] w).
Proof.
  intros Hcs Hne. unfold Background.onMessage, Background.handle.
  unfold bind at 1. unfold storage_get_customColors. rewrite Hcs.
  destruct cs as [|c cs]; [done|]. simpl.
  unfold bind, get_currentColors, set_currentColors, storage_set.
  rewrite createOrUpdateContextMenus_run, broadcastColors_run.
  by destruct w.
Qed.

Lemma storedColors_committed (stored mirror : list ColorRecord) (w : World) :
  storedColors (storage (committed stored mirror w)) = Some stored.
Proof. unfold storedColors, committed. simpl. by rewrite lookup_insert_eq. Qed.

(** ** Positional numbering *)

Lemma positions_lookup (n i : nat) :
  (i < n)%nat -> positions n !! i = Some (Z.of_nat i + 1).
Proof.
  intros Hi. unfold positions. rewrite list_lookup_fmap, lookup_seq_lt by done.
  done.
Qed.

Lemma dense_lookup (cs : list ColorRecord) :
  dense cs <-> forall i c, cs !! i = Some c -> colorNumber c = Z.of_nat i + 1.
Proof.
  unfold dense. split.
  - intros Heq i c Hc.
    assert (Hlt : (i < length cs)%nat) by (eapply lookup_lt_Some; eauto).
    assert (H1 : (colorNumber <$> cs) !! i = Some (colorNumber c))
      by (by rewrite list_lookup_fmap, Hc).
    rewrite Heq, positions_lookup in H1 by done. congruence.
  - intros Hall. apply list_eq. intros i.
    rewrite list_lookup_fmap.
    destruct (cs !! i) as [c|] eqn:Hc; simpl.
    + rewrite positions_lookup by (eapply lookup_lt_Some; eauto).
      by rewrite (Hall i c Hc).
    + symmetry. apply lookup_ge_None. unfold positions.
      rewrite length_fmap, length_seq. by apply lookup_ge_None.
Qed.

Lemma renumber_lookup (cs : list ColorRecord) (i : nat) :
  renumber cs !! i = setColorNumber (Z.of_nat i + 1) <$> cs !! i.
Proof. unfold renumber. by rewrite list_lookup_imap. Qed.

Lemma renumber_length (cs : list ColorRecord) : length (renumber cs) = length cs.
Proof. unfold renumber. apply length_imap. Qed.

Lemma renumber_dense (cs : list ColorRecord) : dense (renumber cs).
Proof.
  apply dense_lookup. intros i c. rewrite renumber_lookup.
  destruct (cs !! i); simpl; [|done]. by intros [= <-].
Qed.

Lemma dense_nil : dense [].
Proof. done. Qed.

Lemma dense_snoc (now : Z) (v : string) (cs : list ColorRecord) :
  dense cs -> dense (cs ++ [newColorObj now cs v]).
Proof.
  rewrite !dense_lookup. intros Hcs i c Hc.
  apply lookup_app_Some in Hc as [Hc | [Hge Hc]].
  - by apply Hcs.
  - apply list_lookup_singleton_Some in Hc as [Hi <-]. simpl.
    f_equal. lia.
Qed.

Lemma setColorNumber_same (c : ColorRecord) : setColorNumber (colorNumber c) c = c.
Proof. by destruct c. Qed.

(** With pairwise distinct ids, [findIndex] on the id of the record at index
    [i] answers [i]. *)
Lemma find_by_id (cs : list ColorRecord) (i : nat) (r : ColorRecord) :
  NoDup (id <$> cs) ->
  cs !! i = Some r ->
  list_find (fun c => id c = id r) cs = Some (i, r).
Proof.
  intros Hnd Hr. apply list_find_Some. repeat split; [done..|].
  intros j y Hy Hlt Heq.
  assert (j = i); [|lia].
  eapply (NoDup_lookup (id <$> cs)); [done| |].
  - by rewrite list_lookup_fmap, Hy.
  - rewrite list_lookup_fmap, Hr. simpl. by rewrite Heq.
Qed.

(** ** The invariant of the colour collection *)

Lemma truthy_true (v : option string) :
  truthy v = true -> exists s, v = Some s /\ s <> "".
Proof. destruct v as [[|a s]|]; try done. intros _. by eexists. Qed.

Lemma colorsInv_step (now : Z) (m : Message) (w : World) :
  isColorMutation m = true ->
  colorsInv w ->
  colorsInv (snd (Background.onMessage now m w)).
Proof.
  intros Hm (cs & Hst & Hmir & Hd & Hmax).
  destruct m; try done.
  - (* deleteColor *)
    destruct (truthy colorId) eqn:Ht.
    + apply truthy_true in Ht as (s & -> & Hs).
      destruct (list_find (fun c => id c = s) cs) as [[i c]|] eqn:Hfind.
      * rewrite (deleteColor_found now s w cs i c) by done. simpl.
        exists (renumber (delete i cs)). rewrite storedColors_committed.
        split_and!; [done|done|apply renumber_dense|].
        rewrite renumber_length.
        pose proof (length_delete cs i) as Hlen.
        apply list_find_Some in Hfind as (Hi & _).
        rewrite Hlen by eauto. lia.
      * rewrite (deleteColor_not_found now s w cs) by done. simpl.
        by exists cs.
    + rewrite deleteColor_missing_id by done. simpl. by exists cs.
  - (* addColor *)
    destruct (truthy newColorValue) eqn:Ht.
    + apply truthy_true in Ht as (s & -> & Hs).
      destruct (decide (MAX_CUSTOM_COLORS <= Z.of_nat (length cs))) as [Hfull|Hroom].
      * rewrite (addColor_at_capacity now s w cs) by done. simpl. by exists cs.
      * destruct (colorExists s cs) eqn:Hex.
        -- rewrite (addColor_existing now s w cs) by (done || lia). simpl.
           by exists cs.
        -- rewrite (addColor_fresh now s w cs) by (done || lia). simpl.
           exists (cs ++ [newColorObj now cs s]). rewrite storedColors_committed.
           split_and!; [done|by rewrite Hmir|by apply dense_snoc|].
           rewrite length_app. simpl. unfold MAX_CUSTOM_COLORS in *. lia.
    + rewrite addColor_falsy by done. simpl. by exists cs.
Qed.

Lemma colorsInv_trace (requests : list (Z * Message)) (w : World) :
  Forall (fun rq => isColorMutation rq.2 = true) requests ->
  colorsInv w ->
  Forall colorsInv (trace requests w).
Proof.
  revert w. induction requests as [|[now m] rest IH]; intros w Hall Hw; simpl.
  - constructor.
  - inversion Hall as [|? ? Hm Hrest]; subst. simpl in Hm.
    pose proof (colorsInv_step now m w Hm Hw) as Hstep.
    constructor; [done|]. by apply IH.
Qed.

(** ** Adding a colour *)

(** C1, as stated, fails: a request for [#ff0000] on a collection that holds
    [#FF0000] is answered with [success: true] and no [error]. *)
Lemma addColor_duplicate_counterexample :
  (exists c, c ∈ [red; green] /\ toLowerCase (color c) = toLowerCase "#ff0000") /\
  storedColors (storage (worldOf [red; green] threePages)) = Some [red; green] /\
  fst (Background.onMessage 102 (AddColor (Some "#ff0000")) (worldOf [red; green] threePages))
  = respondColors true [red; green] /\
  ~ (success (fst (Background.onMessage 102 (AddColor (Some "#ff0000"))
                     (worldOf [red; green] threePages))) = Some false).
Proof.
  split_and!.
  - exists red. split; [apply list_elem_of_here | reflexivity].
  - reflexivity.
  - vm_compute. reflexivity.
  - vm_compute. discriminate.
Qed.

(** C1 (amended): below the maximum size, an [addColor] request whose
    non-empty value matches the colour of a stored record, letter case apart,
    is answered with [success: true], no [error] and the mirror as [colors];
    the storage, the log of its writes and the mirror are unchanged. *)
Theorem addColor_duplicate_ignored (now : Z) (v : string) (w : World)
    (cs : list ColorRecord) :
  v <> "" ->
  storedColors (storage w) = Some cs ->
  Z.of_nat (length cs) < MAX_CUSTOM_COLORS ->
  (exists c, c ∈ cs /\ toLowerCase (color c) = toLowerCase v) ->
  Background.onMessage now (AddColor (Some v)) w
  = (mkResponse (Some true) None (Some (currentColors w)) None None None, w).
Proof.
  intros Hv Hcs Hmax Hdup.
  apply (addColor_existing now v w cs Hv Hcs Hmax).
  by apply colorExists_true.
Qed.

Lemma addColor_duplicate_ignored_witness :
  "#ff0000" <> "" /\
  storedColors (storage (worldOf [red; green] threePages)) = Some [red; green] /\
  Z.of_nat (length [red; green]) < MAX_CUSTOM_COLORS /\
  (exists c, c ∈ [red; green] /\ toLowerCase (color c) = toLowerCase "#ff0000") /\
  Background.onMessage 102 (AddColor (Some "#ff0000")) (worldOf [red; green] threePages)
  = (mkResponse (Some true) None (Some (currentColors (worldOf [red; green] threePages)))
                None None None,
     worldOf [red; green] threePages).
Proof.
  assert (H1 : "#ff0000" <> "") by discriminate.
  assert (H2 : storedColors (storage (worldOf [red; green] threePages))
               = Some [red; green]) by reflexivity.
  assert (H3 : Z.of_nat (length [red; green]) < MAX_CUSTOM_COLORS) by reflexivity.
  assert (H4 : exists c, c ∈ [red; green] /\ toLowerCase (color c) = toLowerCase "#ff0000").
  { exists red. split; [apply list_elem_of_here | reflexivity]. }
  split_and!; [exact H1 | exact H2 | exact H3 | exact H4 |].
  exact (addColor_duplicate_ignored 102 "#ff0000" (worldOf [red; green] threePages)
           [red; green] H1 H2 H3 H4).
Defined.

(** C2, as stated, fails: on a full collection a request without a colour
    value is answered with [success: false] and no [error]. *)
Lemma addColor_full_counterexample :
  length fullPalette = 20%nat /\
  storedColors (storage (worldOf fullPalette threePages)) = Some fullPalette /\
  fst (Background.onMessage 0 (AddColor (Some "")) (worldOf fullPalette threePages))
  = mkResponse (Some false) None None None None None /\
  ~ is_Some (error (fst (Background.onMessage 0 (AddColor (Some ""))
                           (worldOf fullPalette threePages)))).
Proof.
  split_and!; [reflexivity | reflexivity | reflexivity |].
  intros [e He]. vm_compute in He. discriminate.
Qed.

(** C2 (amended): on a collection of size 20, every [addColor] request with a
    non-empty colour value is answered with [success: false] and the error
    [Maximum color limit reached]; the storage, the log of its writes and
    the mirror are unchanged. *)
Theorem addColor_full_rejected (now : Z) (v : string) (w : World)
    (cs : list ColorRecord) :
  v <> "" ->
  storedColors (storage w) = Some cs ->
  length cs = 20%nat ->
  Background.onMessage now (AddColor (Some v)) w
  = (mkResponse (Some false) (Some "Maximum color limit reached")
                (Some (currentColors w)) None None None, w).
Proof.
  intros Hv Hcs Hlen.
  apply (addColor_at_capacity now v w cs Hv Hcs).
  unfold MAX_CUSTOM_COLORS. lia.
Qed.

Lemma addColor_full_rejected_witness :
  "#ABCDEF" <> "" /\
  storedColors (storage (worldOf fullPalette threePages)) = Some fullPalette /\
  length fullPalette = 20%nat /\
  Background.onMessage 0 (AddColor (Some "#ABCDEF")) (worldOf fullPalette threePages)
  = (mkResponse (Some false) (Some "Maximum color limit reached")
                (Some (currentColors (worldOf fullPalette threePages))) None None None,
     worldOf fullPalette threePages).
Proof.
  assert (H1 : "#ABCDEF" <> "") by discriminate.
  assert (H2 : storedColors (storage (worldOf fullPalette threePages)) = Some fullPalette)
    by reflexivity.
  assert (H3 : length fullPalette = 20%nat) by reflexivity.
  split_and!; [exact H1 | exact H2 | exact H3 |].
  exact (addColor_full_rejected 0 "#ABCDEF" (worldOf fullPalette threePages) fullPalette
           H1 H2 H3).
Defined.

(** C10: an [addColor] request whose [color] is absent or empty is answered
    with [success: false] and no [error]; the world, and with it the storage
    and the mirror, is unchanged. *)
Theorem addColor_without_value (now : Z) (w : World) :
  Background.onMessage now (AddColor None) w
  = (mkResponse (Some false) None None None None None, w) /\
  Background.onMessage now (AddColor (Some "")) w
  = (mkResponse (Some false) None None None None None, w).
Proof. split; by apply addColor_falsy. Qed.

(** ** Clearing the collection *)

(** C8: on an empty persisted collection, [clearCustomColors] is answered
    with [success: true] and [noCustomColors: true], and the world is
    unchanged: no call is added to the log of storage writes. *)
Theorem clearCustomColors_noop (now : Z) (w : World) :
  storedColors (storage w) = Some [] ->
  Background.onMessage now ClearCustomColors w
  = (mkResponse (Some true) None None (Some true) None None, w) /\
  storageLog (snd (Background.onMessage now ClearCustomColors w)) = storageLog w /\
  storage (snd (Background.onMessage now ClearCustomColors w)) = storage w.
Proof.
  intros Hcs. rewrite (clearCustomColors_empty now w Hcs). done.
Qed.

Lemma clearCustomColors_noop_witness :
  storedColors (storage (worldOf [] threePages)) = Some [] /\
  Background.onMessage 7 ClearCustomColors (worldOf [] threePages)
  = (mkResponse (Some true) None None (Some true) None None, worldOf [] threePages) /\
  storageLog (snd (Background.onMessage 7 ClearCustomColors (worldOf [] threePages)))
  = storageLog (worldOf [] threePages) /\
  storage (snd (Background.onMessage 7 ClearCustomColors (worldOf [] threePages)))
  = storage (worldOf [] threePages).
Proof.
  assert (H1 : storedColors (storage (worldOf [] threePages)) = Some []) by reflexivity.
  split; [exact H1|].
  exact (clearCustomColors_noop 7 (worldOf [] threePages) H1).
Defined.

(** ** Numbering along a run *)

Lemma positions_NoDup (n : nat) : NoDup (positions n).
Proof.
  unfold positions. apply NoDup_fmap_2; [|apply NoDup_seq].
  intros i j Hij. lia.
Qed.

Lemma positions_elem_of (n : nat) (z : Z) :
  z ∈ positions n <-> 1 <= z <= Z.of_nat n.
Proof.
  unfold positions. rewrite list_elem_of_fmap. split.
  - intros (i & -> & Hi). apply elem_of_seq in Hi. lia.
  - intros Hz. exists (Z.to_nat (z - 1)). split; [lia|].
    apply elem_of_seq. lia.
Qed.

Lemma dense_exactlyOneToN (cs : list ColorRecord) : dense cs -> exactlyOneToN cs.
Proof.
  unfold dense, exactlyOneToN. intros ->. split.
  - apply positions_NoDup.
  - intros z. apply positions_elem_of.
Qed.

(** C3: along every run of [addColor] and [deleteColor] requests that starts
    with an empty persisted collection and an empty mirror, after each
    request the persisted collection [cs] (which the mirror equals) holds at
    most 20 records, its [colorNumber]s read [1, 2, ..., N] in order, and so
    are exactly the values [1..N] without duplicate or gap. *)
Theorem colorNumbers_dense_along_run (requests : list (Z * Message)) (w0 : World) :
  storedColors (storage w0) = Some [] ->
  currentColors w0 = [] ->
  Forall (fun rq => isColorMutation rq.2 = true) requests ->
  Forall (fun w => exists cs,
            storedColors (storage w) = Some cs /\
            currentColors w = cs /\
            Z.of_nat (length cs) <= MAX_CUSTOM_COLORS /\
            colorNumber <$> cs = positions (length cs) /\
            exactlyOneToN cs)
         (trace requests w0).
Proof.
  intros Hst Hmir Hreq.
  assert (Hinv : colorsInv w0).
  { exists []. split_and!; [done|done|apply dense_nil|done]. }
  pose proof (colorsInv_trace requests w0 Hreq Hinv) as Htr.
  eapply Forall_impl; [exact Htr|].
  intros w (cs & H1 & H2 & H3 & H4). exists cs.
  split_and!; [done|done|done|exact H3|by apply dense_exactlyOneToN].
Qed.

Lemma colorNumbers_dense_along_run_witness :
  storedColors (storage (worldOf [] threePages)) = Some [] /\
  currentColors (worldOf [] threePages) = [] /\
  Forall (fun rq => isColorMutation rq.2 = true) sampleRun /\
  Forall (fun w => exists cs,
            storedColors (storage w) = Some cs /\
            currentColors w = cs /\
            Z.of_nat (length cs) <= MAX_CUSTOM_COLORS /\
            colorNumber <$> cs = positions (length cs) /\
            exactlyOneToN cs)
         (trace sampleRun (worldOf [] threePages)).
Proof.
  assert (H1 : storedColors (storage (worldOf [] threePages)) = Some [])
    by reflexivity.
  assert (H2 : currentColors (worldOf [] threePages) = []) by reflexivity.
  assert (H3 : Forall (fun rq => isColorMutation rq.2 = true) sampleRun)
    by (repeat constructor).
  split_and!; [exact H1 | exact H2 | exact H3 |].
  exact (colorNumbers_dense_along_run sampleRun (worldOf [] threePages) H1 H2 H3).
Defined.

(** The scenario of the specification: two additions, a refused duplicate
    and the deletion of the first record leave one record numbered 1. *)
Example sampleRun_result :
  (storedColors ∘ storage) <$> trace sampleRun (worldOf [] threePages)
  = [Some [red];
     Some [red; green];
     Some [red; green];
     Some [mkColor "custom_101" "customColor" 1 "#00FF00"]].
Proof. vm_compute. reflexivity. Qed.

(** ** Deleting a colour *)

(** C4: in a collection [cs] with pairwise distinct ids and positional
    numbers, [deleteColor] on the id of the record at position [k] (counted
    from 1) leaves every record at a position below [k] as it was, and moves
    every record at a position [p] above [k] to position [p - 1] with its
    [colorNumber] decreased by one and its other fields unchanged; the
    mirror is replaced by the resulting collection. *)
Theorem deleteColor_shifts_numbers (now : Z) (w : World) (cs : list ColorRecord)
    (k : nat) (r : ColorRecord) :
  storedColors (storage w) = Some cs ->
  dense cs ->
  NoDup (id <$> cs) ->
  (1 <= k)%nat ->
  cs !! (k - 1)%nat = Some r ->
  id r <> "" ->
  exists cs',
    storedColors (storage (snd (Background.onMessage now (DeleteColor (Some (id r))) w)))
    = Some cs' /\
    currentColors (snd (Background.onMessage now (DeleteColor (Some (id r))) w)) = cs' /\
    S (length cs') = length cs /\
    (forall p c, (1 <= p < k)%nat -> cs !! (p - 1)%nat = Some c ->
                 cs' !! (p - 1)%nat = Some c) /\
    (forall p c, (k < p)%nat -> cs !! (p - 1)%nat = Some c ->
                 cs' !! (p - 2)%nat = Some (setColorNumber (colorNumber c - 1) c)).
Proof.
  intros Hst Hd Hnd Hk Hr Hid.
  rewrite (deleteColor_found now (id r) w cs (k - 1) r Hid Hst (find_by_id cs _ r Hnd Hr)).
  cbn [snd]. exists (renumber (delete (k - 1)%nat cs)).
  rewrite storedColors_committed.
  assert (Hlt : (k - 1 < length cs)%nat) by (eapply lookup_lt_Some; eauto).
  split_and!; [done|done| | |].
  - rewrite renumber_length, length_delete by eauto. lia.
  - intros p c Hp Hc.
    rewrite renumber_lookup, list_lookup_delete_lt by lia. rewrite Hc. simpl.
    rewrite <- (proj1 (dense_lookup cs) Hd _ c Hc). by rewrite setColorNumber_same.
  - intros p c Hp Hc.
    rewrite renumber_lookup, list_lookup_delete_ge by lia.
    replace (S (p - 2)) with (p - 1)%nat by lia. rewrite Hc. simpl.
    rewrite (proj1 (dense_lookup cs) Hd _ c Hc). do 2 f_equal. lia.
Qed.

Lemma deleteColor_shifts_numbers_witness :
  storedColors (storage (worldOf [red; green; blue] threePages)) = Some [red; green; blue] /\
  dense [red; green; blue] /\
  NoDup (id <$> [red; green; blue]) /\
  (1 <= 2)%nat /\
  [red; green; blue] !! (2 - 1)%nat = Some green /\
  id green <> "" /\
  exists cs',
    storedColors (storage (snd (Background.onMessage 9 (DeleteColor (Some (id green)))
                                  (worldOf [red; green; blue] threePages))))
    = Some cs' /\
    currentColors (snd (Background.onMessage 9 (DeleteColor (Some (id green)))
                          (worldOf [red; green; blue] threePages))) = cs' /\
    S (length cs') = length [red; green; blue] /\
    (forall p c, (1 <= p < 2)%nat -> [red; green; blue] !! (p - 1)%nat = Some c ->
                 cs' !! (p - 1)%nat = Some c) /\
    (forall p c, (2 < p)%nat -> [red; green; blue] !! (p - 1)%nat = Some c ->
                 cs' !! (p - 2)%nat = Some (setColorNumber (colorNumber c - 1) c)).
Proof.
  assert (H1 : storedColors (storage (worldOf [red; green; blue] threePages))
               = Some [red; green; blue]) by reflexivity.
  assert (H2 : dense [red; green; blue]) by reflexivity.
  assert (H3 : NoDup (id <$> [red; green; blue])).
  { apply (bool_decide_unpack _). vm_compute. exact I. }
  assert (H4 : (1 <= 2)%nat) by lia.
  assert (H5 : [red; green; blue] !! (2 - 1)%nat = Some green) by reflexivity.
  assert (H6 : id green <> "") by (simpl; discriminate).
  split_and!; [exact H1 | exact H2 | exact H3 | exact H4 | exact H5 | exact H6 |].
  exact (deleteColor_shifts_numbers 9 (worldOf [red; green; blue] threePages)
           [red; green; blue] 2 green H1 H2 H3 H4 H5 H6).
Defined.

Example deleteColor_sample :
  storedColors (storage (snd (Background.onMessage 9 (DeleteColor (Some "custom_101"))
                                (worldOf [red; green; blue] threePages))))
  = Some [red; mkColor "custom_102" "customColor" 2 "#0000FF"].
Proof. vm_compute. reflexivity. Qed.

(** ** Letter case of the stored colours *)

Lemma toUpperAscii_idem (a : ascii) : toUpperAscii (toUpperAscii a) = toUpperAscii a.
Proof.
  destruct a as [[] [] [] [] [] [] [] []]; vm_compute; reflexivity.
Qed.

Lemma toUpperCase_idem (s : string) : toUpperCase (toUpperCase s) = toUpperCase s.
Proof.
  unfold toUpperCase. induction s as [|a s IH]; simpl; [done|].
  by rewrite toUpperAscii_idem, IH.
Qed.

(** The options page stores the upper-case form of the value it is given. *)
Lemma picker_addColor_uppercase (now : Z) (v : string) (w : World)
    (cs : list ColorRecord) :
  storedColors (storage w) = Some cs ->
  Z.of_nat (length cs) < MAX_CUSTOM_COLORS ->
  colorExists v cs = false ->
  storedColors (storage (snd (ColorPicker.addColor now v w)))
  = Some (cs ++ [newColorObj now cs (toUpperCase v)]).
Proof.
  intros Hcs Hmax Hex.
  unfold ColorPicker.addColor, try_catch, bind, storage_get_customColors.
  rewrite Hcs, (proj2 (Z.leb_gt _ _) Hmax), Hex. simpl.
  unfold storedColors. by rewrite lookup_insert_eq.
Qed.

(** The background script stores the value as it is given. *)
Lemma background_addColor_verbatim (now : Z) (v : string) (w : World)
    (cs : list ColorRecord) :
  v <> "" ->
  storedColors (storage w) = Some cs ->
  Z.of_nat (length cs) < MAX_CUSTOM_COLORS ->
  colorExists v cs = false ->
  storedColors (storage (snd (Background.onMessage now (AddColor (Some v)) w)))
  = Some (cs ++ [newColorObj now cs v]).
Proof.
  intros Hv Hcs Hmax Hex. rewrite (addColor_fresh now v w cs) by done.
  cbn [snd]. apply storedColors_committed.
Qed.

(** C5 does not hold of the background script: [addColor] with [#ff0000] on
    an empty collection persists a record whose colour is [#ff0000], not its
    upper-case form [#FF0000], which the options page stores for the same
    value. *)
Theorem addColor_keeps_letter_case :
  storedColors (storage (snd (Background.onMessage 0 (AddColor (Some "#ff0000"))
                                (worldOf [] threePages))))
  = Some [mkColor "custom_0" "customColor" 1 "#ff0000"] /\
  toUpperCase "#ff0000" = "#FF0000" /\
  storedColors (storage (snd (ColorPicker.addColor 0 "#ff0000" (worldOf [] threePages))))
  = Some [mkColor "custom_0" "customColor" 1 "#FF0000"].
Proof. split_and!; vm_compute; reflexivity. Qed.

(** ** Shortcut commands *)

Lemma guarded_lookup (cs : list ColorRecord) (i : nat) :
  (if Z.of_nat i + 1 <=? Z.of_nat (length cs) then color <$> cs !! i else None)
  = color <$> cs !! i.
Proof.
  destruct (Z.leb_spec (Z.of_nat i + 1) (Z.of_nat (length cs))); [done|].
  rewrite (proj2 (lookup_ge_None cs i)) by lia. done.
Qed.

Lemma targetColor_position (command : string) (pos : nat) (cs : list ColorRecord) :
  resolvesTo command pos ->
  Background.targetColor command cs = color <$> cs !! pos.
Proof.
  intros [i name Hname | n Hn].
  - destruct i as [|[|[|[|[|i]]]]]; try done; injection Hname as <-.
    + exact (guarded_lookup cs 0).
    + exact (guarded_lookup cs 1).
    + exact (guarded_lookup cs 2).
    + exact (guarded_lookup cs 3).
    + exact (guarded_lookup cs 4).
  - assert (Hcases : n = 1%nat \/ n = 2%nat \/ n = 3%nat \/ n = 4%nat \/ n = 5%nat) by lia.
    destruct Hcases as [-> | [-> | [-> | [-> | ->]]]];
      unfold Background.targetColor; simpl;
      match goal with
      | |- (if ?a <? ?b then _ else _) = color <$> cs !! ?i =>
          destruct (Z.ltb_spec a b) as [Hlt|Hge];
          [done | by rewrite (proj2 (lookup_ge_None cs i)) by lia]
      end.
Qed.

Lemma onCommand_nothing (command : string) (w : World) :
  truthy (Background.targetColor command (currentColors w)) = false ->
  Background.onCommand command w = (Ok tt, w).
Proof.
  intros Hno. unfold Background.onCommand, bind, tabs_query_active, get_currentColors.
  destruct (head _); [|done]. by rewrite Hno.
Qed.

Lemma onCommand_dispatch (command : string) (w : World) (t : Tab) (c : string) :
  head (filter (fun t => tabActive t = true) (tabs w)) = Some t ->
  Background.targetColor command (currentColors w) = Some c ->
  c <> "" ->
  Background.onCommand command w
  = (Ok tt, with_deliveries
              (deliveries w ++ [mkDelivery (tabId t) (Highlight c None) (hasListener t)]) w).
Proof.
  intros Ht Hc Hne. unfold Background.onCommand, bind, tabs_query_active, get_currentColors.
  rewrite Ht, Hc, (truthy_Some c Hne). simpl.
  unfold try_catch, tabs_sendMessage, ret. by destruct (hasListener t).
Qed.

(** C6: a shortcut command resolves to the colour at its position in the
    mirror (legacy names: positions 0 to 4; [highlight_custom_N]: position
    [4 + N]); when the mirror has no record at that position, the command
    sends nothing and leaves the world unchanged; when it has one with a
    non-empty colour and a tab is active, exactly one [highlight] message
    with that colour is sent to the active tab. *)
Theorem shortcut_resolution (command : string) (pos : nat) (w : World) :
  resolvesTo command pos ->
  Background.targetColor command (currentColors w) = color <$> currentColors w !! pos /\
  ((length (currentColors w) <= pos)%nat ->
   Background.onCommand command w = (Ok tt, w)) /\
  (forall t c,
     head (filter (fun t => tabActive t = true) (tabs w)) = Some t ->
     currentColors w !! pos = Some c ->
     color c <> "" ->
     Background.onCommand command w
     = (Ok tt, with_deliveries
                 (deliveries w ++
                  [mkDelivery (tabId t) (Highlight (color c) None) (hasListener t)]) w)).
Proof.
  intros Hres. pose proof (targetColor_position command pos (currentColors w) Hres) as Ht.
  split_and!; [done| |].
  - intros Hshort. apply onCommand_nothing. rewrite Ht.
    by rewrite (proj2 (lookup_ge_None _ _) Hshort).
  - intros t c Hact Hc Hne. apply onCommand_dispatch; [done| |done].
    by rewrite Ht, Hc.
Qed.

(** The legacy second-position command on a collection of size 1. *)
Lemma shortcut_resolution_witness :
  resolvesTo "highlight_green" 1 /\
  Background.targetColor "highlight_green" (currentColors (worldOf [red] threePages)) = None /\
  Background.onCommand "highlight_green" (worldOf [red] threePages)
  = (Ok tt, worldOf [red] threePages).
Proof.
  assert (H1 : resolvesTo "highlight_green" 1) by (by apply (legacy_slot 1)).
  destruct (shortcut_resolution "highlight_green" 1 (worldOf [red] threePages) H1)
    as (Ha & Hb & _).
  split_and!; [exact H1 | exact Ha | apply Hb; simpl; lia].
Defined.

Example shortcut_custom_slot :
  snd (Background.onCommand "highlight_custom_2" (worldOf fullPalette threePages))
  = with_deliveries [mkDelivery 1 (Highlight "#000016" None) true]
                    (worldOf fullPalette threePages).
Proof. vm_compute. reflexivity. Qed.

(** ** Clean-up of the highlight storage *)

Lemma cleanup_run (url : string) (w : World) :
  url <> "" ->
  Background.cleanupEmptyHighlightData url w
  = (Ok tt, with_storage (delete url (delete (url +:+ "_meta") (storage w)))
                         (CallRemove [url; url +:+ "_meta"]) w).
Proof.
  intros Hurl. unfold Background.cleanupEmptyHighlightData.
  by rewrite (truthy_Some url Hurl).
Qed.

Lemma cleanup_without_url (w : World) :
  Background.cleanupEmptyHighlightData "" w = (Ok tt, w).
Proof. done. Qed.

Lemma keysRemoved_with_storage (url : string) (w : World) :
  keysRemoved url w
    (with_storage (delete url (delete (url +:+ "_meta") (storage w)))
                  (CallRemove [url; url +:+ "_meta"]) w).
Proof.
  unfold keysRemoved. simpl. split_and!; [done|done| |].
  - apply lookup_delete_eq.
  - apply lookup_delete_None. right. apply lookup_delete_eq.
Qed.

Lemma keysRemoved_with_deliveries (url : string) (w w' : World) (ds : list Delivery) :
  keysRemoved url w w' -> keysRemoved url w (with_deliveries ds w').
Proof. done. Qed.

Lemma notify_run (hs : list HighlightGroup) (url : string) (w : World) :
  exists ds, Background.notifyTabHighlightsRefresh hs url w = (Ok tt, with_deliveries ds w).
Proof.
  unfold Background.notifyTabHighlightsRefresh, bind, tabs_query_url, try_catch.
  destruct (head _) as [t|].
  - unfold tabs_sendMessage, ret. destruct (hasListener t); eexists; reflexivity.
  - exists (deliveries w). unfold throw, ret. by rewrite with_deliveries_same.
Qed.

Lemma optional_notify_run (notifyRefresh : bool) (hs : list HighlightGroup)
    (url : string) (w : World) :
  exists ds,
    (if notifyRefresh then Background.notifyTabHighlightsRefresh hs url else ret tt) w
    = (Ok tt, with_deliveries ds w).
Proof.
  destruct notifyRefresh; [apply notify_run|].
  exists (deliveries w). unfold ret. by rewrite with_deliveries_same.
Qed.

Lemma saveHighlights_empty (now : Z) (url : string) (w : World) :
  url <> "" ->
  keysRemoved url w (snd (Background.onMessage now (SaveHighlights url []) w)).
Proof.
  intros Hurl. unfold Background.onMessage, Background.handle, bind, tabs_query_active.
  simpl. rewrite (cleanup_run url _ Hurl). simpl. apply keysRemoved_with_storage.
Qed.

Lemma deleteHighlight_last (now : Z) (url group : string) (notifyRefresh : bool)
    (w : World) (hs : list HighlightGroup) :
  url <> "" ->
  storedHighlights url (storage w) = Some hs ->
  filter (fun g => groupId g <> group) hs = [] ->
  keysRemoved url w
    (snd (Background.onMessage now (DeleteHighlight url group notifyRefresh) w)).
Proof.
  intros Hurl Hst Hlast.
  unfold Background.onMessage, Background.handle.
  unfold bind at 1. unfold storage_get_highlights. rewrite Hst, Hlast. simpl.
  unfold bind at 1. rewrite (cleanup_run url _ Hurl).
  unfold bind at 1.
  destruct (optional_notify_run notifyRefresh [] url
              (with_storage (delete url (delete (url +:+ "_meta") (storage w)))
                            (CallRemove [url; url +:+ "_meta"]) w)) as [ds ->].
  simpl. apply keysRemoved_with_deliveries, keysRemoved_with_storage.
Qed.

Lemma clearAllHighlights_removes (now : Z) (url : string) (notifyRefresh : bool)
    (w : World) :
  url <> "" ->
  keysRemoved url w
    (snd (Background.onMessage now (ClearAllHighlights url notifyRefresh) w)).
Proof.
  intros Hurl.
  unfold Background.onMessage, Background.handle.
  unfold bind at 1. rewrite (cleanup_run url _ Hurl).
  unfold bind at 1.
  destruct (optional_notify_run notifyRefresh [] url
              (with_storage (delete url (delete (url +:+ "_meta") (storage w)))
                            (CallRemove [url; url +:+ "_meta"]) w)) as [ds ->].
  simpl. apply keysRemoved_with_deliveries, keysRemoved_with_storage.
Qed.

Lemma deleteHighlight_remaining (now : Z) (url group : string) (notifyRefresh : bool)
    (w : World) (hs : list HighlightGroup) :
  storedHighlights url (storage w) = Some hs ->
  filter (fun g => groupId g <> group) hs <> [] ->
  storage (snd (Background.onMessage now (DeleteHighlight url group notifyRefresh) w))
  = <[url := SHighlights (filter (fun g => groupId g <> group) hs)]> (storage w).
Proof.
  intros Hst Hrest.
  unfold Background.onMessage, Background.handle.
  unfold bind at 1. unfold storage_get_highlights. rewrite Hst.
  destruct (filter _ hs) as [|g rest] eqn:Hf; [done|].
  cbn [length]. replace (0 <? Z.of_nat (S (length rest))) with true
    by (symmetry; apply Z.ltb_lt; lia).
  unfold bind at 1. unfold storage_set at 1.
  unfold bind at 1.
  destruct (optional_notify_run notifyRefresh (g :: rest) url
              (with_storage (<[url := SHighlights (g :: rest)]> (storage w))
                            (CallSet url (SHighlights (g :: rest))) w)) as [ds ->].
  done.
Qed.

(** Without a URL the clean-up is skipped and the storage is left as it is. *)
Lemma removal_without_url (now : Z) (m : Message) (w : World) (hs : list HighlightGroup) :
  highlightRemoval "" m ->
  storedHighlights "" (storage w) = Some hs ->
  hs <> [] ->
  storedHighlights "" (storage (snd (Background.onMessage now m w))) <> Some [].
Proof.
  intros Hm Hst Hne. destruct Hm as [|group notifyRefresh|notifyRefresh].
  - unfold Background.onMessage, Background.handle, bind, tabs_query_active. simpl.
    rewrite Hst. congruence.
  - destruct (filter (fun g => groupId g <> group) hs) as [|g rest] eqn:Hf.
    + unfold Background.onMessage, Background.handle.
      unfold bind at 1. unfold storage_get_highlights. rewrite Hst, Hf. simpl.
      unfold bind at 1. rewrite cleanup_without_url.
      unfold bind at 1.
      destruct (optional_notify_run notifyRefresh [] "" w) as [ds ->].
      simpl. rewrite Hst. congruence.
    + rewrite (deleteHighlight_remaining now "" group notifyRefresh w hs Hst)
        by (rewrite Hf; done).
      unfold storedHighlights. rewrite lookup_insert_eq, Hf. congruence.
  - unfold Background.onMessage, Background.handle.
    unfold bind at 1. rewrite cleanup_without_url.
    unfold bind at 1.
    destruct (optional_notify_run notifyRefresh [] "" w) as [ds ->].
    simpl. rewrite Hst. congruence.
Qed.

(** The reading of the clean-up by its effect: whenever one of the three
    requests takes the stored collection of a URL from non-empty to empty,
    the two keys have left the storage in one [remove] call. *)
Lemma emptied_collection_keys_removed (now : Z) (url : string) (m : Message)
    (w : World) :
  highlightRemoval url m ->
  emptiesCollection url w (snd (Background.onMessage now m w)) ->
  keysRemoved url w (snd (Background.onMessage now m w)).
Proof.
  intros Hm [(hs & Hst & Hne) Hafter].
  destruct (decide (url = "")) as [->|Hurl].
  { by destruct (removal_without_url now m w hs Hm Hst Hne). }
  destruct Hm as [|group notifyRefresh|notifyRefresh].
  - by apply saveHighlights_empty.
  - destruct (filter (fun g => groupId g <> group) hs) as [|g rest] eqn:Hf.
    + by apply (deleteHighlight_last now url group notifyRefresh w hs).
    + rewrite (deleteHighlight_remaining now url group notifyRefresh w hs Hst) in Hafter
        by (rewrite Hf; done).
      unfold storedHighlights in Hafter. rewrite lookup_insert_eq, Hf in Hafter.
      done.
  - by apply clearAllHighlights_removes.
Qed.

(** Without a URL the three requests make no storage call at all. *)
Lemma emptying_without_url (now : Z) (m : Message) (w : World) :
  emptiesHighlights "" w m ->
  storage (snd (Background.onMessage now m w)) = storage w /\
  storageLog (snd (Background.onMessage now m w)) = storageLog w.
Proof.
  intros Hm.
  assert (Hrun : exists ds, snd (Background.onMessage now m w) = with_deliveries ds w).
  { destruct Hm as [|group notifyRefresh hs Hst Hlast|notifyRefresh].
    - exists (deliveries w). rewrite with_deliveries_same.
      unfold Background.onMessage, Background.handle, bind, tabs_query_active. done.
    - unfold Background.onMessage, Background.handle.
      unfold bind at 1. unfold storage_get_highlights. rewrite Hst, Hlast. simpl.
      unfold bind at 1. rewrite cleanup_without_url.
      unfold bind at 1.
      destruct (optional_notify_run notifyRefresh [] "" w) as [ds ->]. by exists ds.
    - unfold Background.onMessage, Background.handle.
      unfold bind at 1. rewrite cleanup_without_url.
      unfold bind at 1.
      destruct (optional_notify_run notifyRefresh [] "" w) as [ds ->]. by exists ds. }
  destruct Hrun as [ds ->]. done.
Qed.

(** C9: for every URL, each operation that leaves the URL without
    highlights ([saveHighlights] with an empty list, [deleteHighlight] of
    the last group, [clearAllHighlights]) removes the key of the URL and its
    [_meta] key from the storage together, in one [remove] call, and both
    keys are absent afterwards.  The empty string, which is no URL of a page,
    is the one value the clean-up skips: the storage is then not touched at
    all, so that no collection becomes empty. *)
Theorem highlight_keys_removed_together (now : Z) (url : string) (m : Message)
    (w : World) :
  emptiesHighlights url w m ->
  (url <> "" -> keysRemoved url w (snd (Background.onMessage now m w))) /\
  (url = "" ->
   storage (snd (Background.onMessage now m w)) = storage w /\
   storageLog (snd (Background.onMessage now m w)) = storageLog w).
Proof.
  intros Hm. split.
  - intros Hurl. destruct Hm as [|group notifyRefresh hs Hst Hlast|notifyRefresh].
    + by apply saveHighlights_empty.
    + by apply (deleteHighlight_last now url group notifyRefresh w hs).
    + by apply clearAllHighlights_removes.
  - intros ->. by apply emptying_without_url.
Qed.

Lemma highlight_keys_removed_together_witness :
  emptiesHighlights samplePage pageWorld (DeleteHighlight samplePage "g1" true) /\
  samplePage <> "" /\
  keysRemoved samplePage pageWorld
    (snd (Background.onMessage 9 (DeleteHighlight samplePage "g1" true) pageWorld)).
Proof.
  assert (H1 : emptiesHighlights samplePage pageWorld
                 (DeleteHighlight samplePage "g1" true)).
  { apply (empties_delete samplePage pageWorld "g1" true [mkGroup "g1" "first"]);
      vm_compute; reflexivity. }
  assert (H2 : samplePage <> "") by discriminate.
  split_and!; [exact H1 | exact H2 |].
  exact (proj1 (highlight_keys_removed_together 9 samplePage
                  (DeleteHighlight samplePage "g1" true) pageWorld H1) H2).
Defined.

Example deleteHighlight_last_sample :
  storage (snd (Background.onMessage 9 (DeleteHighlight samplePage "g1" true) pageWorld))
  = {[ "customColors" := SColors [red] ]}.
Proof. vm_compute. reflexivity. Qed.

(** ** Isolation of delivery failures *)

Section Agreement.

Context {A B : Type} (RA : A -> A -> Prop) (RB : B -> B -> Prop).

Lemma agree_ret (a1 a2 : A) : RA a1 a2 -> agree RA (ret a1) (ret a2).
Proof. intros Ha w1 w2 Hw. by split. Qed.

Lemma agree_throw (e : string) : agree RA (throw e) (throw e).
Proof. intros w1 w2 Hw. by split. Qed.

Lemma agree_bind (m1 m2 : M A) (k1 k2 : A -> M B) :
  agree RA m1 m2 ->
  (forall a1 a2, RA a1 a2 -> agree RB (k1 a1) (k2 a2)) ->
  agree RB (bind m1 k1) (bind m2 k2).
Proof.
  intros Hm Hk w1 w2 Hw. unfold bind.
  destruct (Hm w1 w2 Hw) as [Ho Hw'].
  destruct (m1 w1) as [[a1|e1] w1'], (m2 w2) as [[a2|e2] w2']; simpl in *; try done.
  by apply Hk.
Qed.

Lemma agree_try_catch (b1 b2 : M A) (h1 h2 : string -> M A) :
  agree RA b1 b2 ->
  (forall e, agree RA (h1 e) (h2 e)) ->
  agree RA (try_catch b1 h1) (try_catch b2 h2).
Proof.
  intros Hb Hh w1 w2 Hw. unfold try_catch.
  destruct (Hb w1 w2 Hw) as [Ho Hw'].
  destruct (b1 w1) as [[a1|e1] w1'], (b2 w2) as [[a2|e2] w2']; simpl in *; try done.
  subst e2. by apply Hh.
Qed.

End Agreement.

Lemma agree_seq {B} (RB : B -> B -> Prop) (m1 m2 : M unit) (k1 k2 : M B) :
  agree eq m1 m2 -> agree RB k1 k2 ->
  agree RB (bind m1 (fun _ => k1)) (bind m2 (fun _ => k2)).
Proof. intros Hm Hk. eapply agree_bind; [exact Hm|]. by intros. Qed.

Lemma agree_storage_get_customColors :
  agree eq storage_get_customColors storage_get_customColors.
Proof.
  intros w1 w2 Hw. unfold storage_get_customColors.
  destruct Hw as (Hs & ?). rewrite Hs.
  destruct (storedColors (storage w2)); simpl; split; try done; by split.
Qed.

Lemma agree_storage_get_highlights (url : string) :
  agree eq (storage_get_highlights url) (storage_get_highlights url).
Proof.
  intros w1 w2 Hw. unfold storage_get_highlights.
  destruct Hw as (Hs & ?). rewrite Hs.
  destruct (storedHighlights url (storage w2)); simpl; split; try done; by split.
Qed.

Lemma agree_storage_set (key : string) (v : StoredValue) :
  agree eq (storage_set key v) (storage_set key v).
Proof.
  intros w1 w2 (Hs & Hl & Hc & Hm & Ht & Hd). split; [done|].
  unfold sameButListeners. simpl. by rewrite Hs, Hl.
Qed.

Lemma agree_storage_remove (keys : list string) :
  agree eq (storage_remove keys) (storage_remove keys).
Proof.
  intros w1 w2 (Hs & Hl & Hc & Hm & Ht & Hd). split; [done|].
  unfold sameButListeners. simpl. by rewrite Hs, Hl.
Qed.

Lemma agree_get_currentColors : agree eq get_currentColors get_currentColors.
Proof. intros w1 w2 Hw. split; [|done]. simpl. apply Hw. Qed.

Lemma agree_set_currentColors (cs : list ColorRecord) :
  agree eq (set_currentColors cs) (set_currentColors cs).
Proof. intros w1 w2 (Hs & Hl & Hc & Hm & Ht & Hd). by split. Qed.

Lemma sameTab_filter (P : Tab -> Prop) `{!forall t, Decision (P t)} (l1 l2 : list Tab) :
  (forall t1 t2, sameTab t1 t2 -> P t1 <-> P t2) ->
  Forall2 sameTab l1 l2 ->
  Forall2 sameTab (filter P l1) (filter P l2).
Proof.
  intros HP Hl. induction Hl as [|t1 t2 l1 l2 Ht Hl IH]; [constructor|].
  rewrite !filter_cons. pose proof (HP t1 t2 Ht) as Hiff.
  destruct (decide (P t1)), (decide (P t2)); try tauto.
  by constructor.
Qed.

Lemma agree_tabs_query_active :
  agree (Forall2 sameTab) tabs_query_active tabs_query_active.
Proof.
  intros w1 w2 Hw. split; [|done]. simpl.
  apply sameTab_filter; [|apply Hw].
  intros t1 t2 (_ & _ & _ & Ha). by rewrite Ha.
Qed.

Lemma agree_tabs_query_url (url : string) :
  agree (Forall2 sameTab) (tabs_query_url url) (tabs_query_url url).
Proof.
  intros w1 w2 Hw. split; [|done]. simpl.
  apply sameTab_filter; [|apply Hw].
  intros t1 t2 (_ & Hu & _). by rewrite Hu.
Qed.

(** A rejected [sendMessage] inside its [try] ends like a delivered one. *)
Lemma agree_send_caught (t1 t2 : Tab) (msg : PageMessage) :
  sameTab t1 t2 ->
  agree eq (try_catch (tabs_sendMessage t1 msg) (fun _ => ret tt))
           (try_catch (tabs_sendMessage t2 msg) (fun _ => ret tt)).
Proof.
  intros (Hid & _) w1 w2 (Hs & Hl & Hc & Hm & Ht & Hd).
  unfold try_catch, tabs_sendMessage, ret.
  destruct (hasListener t1), (hasListener t2); simpl; (split; [done|]);
    unfold sameButListeners; simpl; split_and!; try done;
    (apply Forall2_app; [done|]); by repeat constructor.
Qed.

Lemma sameCall_broadcastLog (cs : list ColorRecord) (ts1 ts2 : list Tab) :
  Forall2 sameTab ts1 ts2 ->
  Forall2 sameCall (broadcastLog cs ts1) (broadcastLog cs ts2).
Proof.
  intros Hts. unfold broadcastLog. apply Forall2_fmap.
  eapply Forall2_impl; [exact Hts|]. intros t1 t2 (Hid & _). by split.
Qed.

Lemma agree_broadcastColors : agree eq Background.broadcastColors Background.broadcastColors.
Proof.
  intros w1 w2 (Hs & Hl & Hc & Hm & Ht & Hd).
  rewrite !broadcastColors_run. simpl. split; [done|].
  unfold sameButListeners. simpl. split_and!; try done.
  apply Forall2_app; [done|]. rewrite Hc. by apply sameCall_broadcastLog.
Qed.

Lemma agree_createOrUpdateContextMenus :
  agree eq Background.createOrUpdateContextMenus Background.createOrUpdateContextMenus.
Proof.
  intros w1 w2 (Hs & Hl & Hc & Hm & Ht & Hd).
  rewrite !createOrUpdateContextMenus_run. simpl. split; [done|].
  unfold sameButListeners. simpl. by rewrite Hc.
Qed.

Lemma agree_notifyTabHighlightsRefresh (hs : list HighlightGroup) (url : string) :
  agree eq (Background.notifyTabHighlightsRefresh hs url)
           (Background.notifyTabHighlightsRefresh hs url).
Proof.
  unfold Background.notifyTabHighlightsRefresh.
  eapply agree_bind; [apply agree_tabs_query_url|].
  intros ts1 ts2 Hts. destruct Hts as [|t1 t2 ts1 ts2 Ht Hts]; simpl.
  - apply agree_try_catch; [apply agree_throw|]. intros e. by apply agree_ret.
  - by apply agree_send_caught.
Qed.

Lemma agree_cleanupEmptyHighlightData (url : string) :
  agree eq (Background.cleanupEmptyHighlightData url)
           (Background.cleanupEmptyHighlightData url).
Proof.
  unfold Background.cleanupEmptyHighlightData. destruct (truthy _).
  - apply agree_try_catch; [apply agree_storage_remove|]. intros e. by apply agree_ret.
  - by apply agree_ret.
Qed.

Lemma agree_loadCustomColors :
  agree eq Background.loadCustomColors Background.loadCustomColors.
Proof.
  unfold Background.loadCustomColors.
  apply agree_try_catch; [|intros e; by apply agree_ret].
  eapply agree_bind; [apply agree_storage_get_customColors|].
  intros cs ? <-. apply agree_seq; [|apply agree_set_currentColors].
  destruct (existsb _ cs); [apply agree_storage_set | by apply agree_ret].
Qed.

Create HintDb agreement.
#[local] Hint Resolve agree_storage_get_customColors agree_storage_get_highlights
  agree_storage_set agree_storage_remove agree_get_currentColors
  agree_set_currentColors agree_broadcastColors agree_createOrUpdateContextMenus
  agree_notifyTabHighlightsRefresh agree_cleanupEmptyHighlightData
  agree_loadCustomColors agree_throw : agreement.

Ltac agree_step :=
  cbv zeta;
  first
    [ solve [auto with agreement]
    | match goal with
      | |- agree _ (ret _) (ret _) => apply agree_ret; reflexivity
      | |- agree _ (if ?b then _ else _) _ => destruct b
      | |- agree _ (match ?o with Some _ => _ | None => _ end) _ =>
          destruct o as [[? ?]|]
      | |- agree _ (bind (A:=unit) ?m (fun _ => ?k)) _ => simple apply agree_seq
      | |- agree _ (bind _ _) _ =>
          simple eapply agree_bind; [solve [auto with agreement] | intros ? ? <-]
      end ].

Ltac agree_steps := repeat agree_step.

Lemma agree_handle (now : Z) (m : Message) :
  agree eq (Background.handle now m) (Background.handle now m).
Proof.
  destruct m; unfold Background.handle; try solve [agree_steps].
  (* saveHighlights reads the title of the active tab *)
  eapply agree_bind; [apply agree_tabs_query_active|].
  intros ts1 ts2 Hts. destruct (0 <? _); [|agree_steps].
  apply agree_seq; [apply agree_storage_set|].
  destruct Hts as [|t1 t2 ts1 ts2 (_ & _ & Htitle & _) Hts]; simpl.
  - apply agree_throw.
  - rewrite Htitle. agree_steps.
Qed.

Lemma onMessage_agree (now : Z) (m : Message) (w1 w2 : World) :
  sameButListeners w1 w2 ->
  fst (Background.onMessage now m w1) = fst (Background.onMessage now m w2) /\
  sameButListeners (snd (Background.onMessage now m w1))
                   (snd (Background.onMessage now m w2)).
Proof.
  intros Hw. destruct (agree_handle now m w1 w2 Hw) as [Ho Hw'].
  unfold Background.onMessage.
  destruct (Background.handle now m w1) as [[r1|e1] w1'],
           (Background.handle now m w2) as [[r2|e2] w2']; simpl in *; try done.
  by subst.
Qed.

(** C7: a broadcast calls [sendMessage] once for every open tab, in order,
    whichever of them reject, and ends normally; and for every request, two
    worlds that differ only in which pages have a listener give the same
    response, the same storage and mirror and the same sequence of
    [sendMessage] calls (recipient and payload). *)
Theorem delivery_failures_isolated (now : Z) (m : Message) (w1 w2 : World) :
  sameButListeners w1 w2 ->
  Background.broadcastColors w1
  = (Ok tt, with_deliveries
              (deliveries w1 ++ broadcastLog (currentColors w1) (tabs w1)) w1) /\
  fst (Background.onMessage now m w1) = fst (Background.onMessage now m w2) /\
  sameButListeners (snd (Background.onMessage now m w1))
                   (snd (Background.onMessage now m w2)).
Proof.
  intros Hw. split; [apply broadcastColors_run|]. by apply onMessage_agree.
Qed.

Lemma delivery_failures_isolated_witness :
  sameButListeners (worldOf [] threePages) (worldOf [] allListening) /\
  Background.broadcastColors (worldOf [] threePages)
  = (Ok tt, with_deliveries
              (deliveries (worldOf [] threePages) ++
               broadcastLog (currentColors (worldOf [] threePages))
                            (tabs (worldOf [] threePages)))
              (worldOf [] threePages)) /\
  fst (Background.onMessage 100 (AddColor (Some "#FF0000")) (worldOf [] threePages))
  = fst (Background.onMessage 100 (AddColor (Some "#FF0000")) (worldOf [] allListening)) /\
  sameButListeners
    (snd (Background.onMessage 100 (AddColor (Some "#FF0000")) (worldOf [] threePages)))
    (snd (Background.onMessage 100 (AddColor (Some "#FF0000")) (worldOf [] allListening))).
Proof.
  assert (H1 : sameButListeners (worldOf [] threePages) (worldOf [] allListening)).
  { unfold sameButListeners. simpl. split_and!; try reflexivity.
    - repeat constructor.
    - constructor. }
  split; [exact H1|].
  exact (delivery_failures_isolated 100 (AddColor (Some "#FF0000"))
           (worldOf [] threePages) (worldOf [] allListening) H1).
Defined.

(** Three open pages, the second without a listener: the addition succeeds,
    all three are tried and the first and the third are notified. *)
Example broadcast_three_pages :
  success (fst (Background.onMessage 100 (AddColor (Some "#FF0000"))
                  (worldOf [] threePages))) = Some true /\
  deliveries (snd (Background.onMessage 100 (AddColor (Some "#FF0000"))
                     (worldOf [] threePages)))
  = [mkDelivery 1 (ColorsUpdated [mkColor "custom_100" "customColor" 1 "#FF0000"]) true;
     mkDelivery 2 (ColorsUpdated [mkColor "custom_100" "customColor" 1 "#FF0000"]) false;
     mkDelivery 3 (ColorsUpdated [mkColor "custom_100" "customColor" 1 "#FF0000"]) true].
Proof. split; vm_compute; reflexivity. Qed.

(** * Further properties of the colour handlers *)

Lemma colorExists_false (v : string) (cs : list ColorRecord) :
  colorExists v cs = false <->
  Forall (fun c => toLowerCase (color c) <> toLowerCase v) cs.
Proof.
  unfold colorExists. rewrite <- not_true_iff_false, existsb_exists, Forall_forall.
  split.
  - intros Hno c Hin Heq. apply Hno. exists c. split.
    + by apply list_elem_of_In.
    + by apply String.eqb_eq.
  - intros Hall (c & Hin & Heq). apply (Hall c).
    + by apply list_elem_of_In.
    + by apply String.eqb_eq.
Qed.

Lemma renumber_dense_same (cs : list ColorRecord) : dense cs -> renumber cs = cs.
Proof.
  intros Hd. apply list_eq. intros i. rewrite renumber_lookup.
  destruct (cs !! i) as [c|] eqn:Hc; simpl; [|done].
  rewrite <- (proj1 (dense_lookup cs) Hd i c Hc). by rewrite setColorNumber_same.
Qed.

Lemma idAt_nonempty (now : Z) : idAt now <> "".
Proof. done. Qed.

(** X1: a [deleteColor] request that names no stored record (the id is
    absent, empty, or carried by no record) is answered with
    [success: false] and the error [Color ID is required] or
    [Color not found], and changes nothing: no storage call, no menu
    rebuild, no message to any page. *)
Theorem deleteColor_no_such_record (now : Z) (colorId : option string) (w : World)
    (cs : list ColorRecord) :
  storedColors (storage w) = Some cs ->
  Forall (fun c => Some (id c) <> colorId) cs ->
  Background.onMessage now (DeleteColor colorId) w
  = (mkResponse (Some false)
                (Some (if truthy colorId then "Color not found" else "Color ID is required"))
                None None None None, w).
Proof.
  intros Hst Hnone. destruct (truthy colorId) eqn:Ht.
  - apply truthy_true in Ht as (s & -> & Hs).
    apply (deleteColor_not_found now s w cs Hs Hst).
    apply list_find_None. eapply Forall_impl; [exact Hnone|].
    intros c Hc Heq. apply Hc. by rewrite Heq.
  - by apply deleteColor_missing_id.
Qed.

Lemma deleteColor_no_such_record_witness :
  storedColors (storage (worldOf [red; green] threePages)) = Some [red; green] /\
  Forall (fun c => Some (id c) <> Some "custom_7") [red; green] /\
  Background.onMessage 5 (DeleteColor (Some "custom_7")) (worldOf [red; green] threePages)
  = (mkResponse (Some false) (Some "Color not found") None None None None,
     worldOf [red; green] threePages).
Proof.
  assert (H1 : storedColors (storage (worldOf [red; green] threePages))
               = Some [red; green]) by reflexivity.
  assert (H2 : Forall (fun c => Some (id c) <> Some "custom_7") [red; green])
    by (repeat constructor; discriminate).
  split_and!; [exact H1 | exact H2 |].
  exact (deleteColor_no_such_record 5 (Some "custom_7") (worldOf [red; green] threePages)
           [red; green] H1 H2).
Defined.

(** X2: an [addColor] request with a non-empty value that matches no stored
    colour, on a stored collection of fewer than 20 records, appends one
    record with id [custom_<now>], name key [customColor], number [N + 1]
    and the value as given, both to the stored collection (one [set] call)
    and to the mirror as it was; the menu is rebuilt from the new mirror,
    every open tab is sent the new mirror, and the response carries it.
    The value and the stored colours are strings of ASCII characters, for
    which the comparison letter case apart is the one of the source. *)
Theorem addColor_appends (now : Z) (v : string) (w : World) (cs : list ColorRecord) :
  v <> "" ->
  asciiOnly v ->
  storedColors (storage w) = Some cs ->
  Forall (fun c => asciiOnly (color c)) cs ->
  Z.of_nat (length cs) < MAX_CUSTOM_COLORS ->
  Forall (fun c => toLowerCase (color c) <> toLowerCase v) cs ->
  Background.onMessage now (AddColor (Some v)) w
  = (mkResponse (Some true) None
       (Some (currentColors w ++
              [mkColor (idAt now) "customColor" (Z.of_nat (length cs) + 1) v]))
       None None None,
     mkWorld
       (<["customColors" :=
            SColors (cs ++ [mkColor (idAt now) "customColor" (Z.of_nat (length cs) + 1) v])]>
          (storage w))
       (storageLog w ++
        [CallSet "customColors"
           (SColors (cs ++ [mkColor (idAt now) "customColor" (Z.of_nat (length cs) + 1) v]))])
       (currentColors w ++ [mkColor (idAt now) "customColor" (Z.of_nat (length cs) + 1) v])
       (menuTree (currentColors w ++
                  [mkColor (idAt now) "customColor" (Z.of_nat (length cs) + 1) v]))
       (tabs w)
       (deliveries w ++
        broadcastLog (currentColors w ++
                      [mkColor (idAt now) "customColor" (Z.of_nat (length cs) + 1) v])
                     (tabs w))).
Proof.
  intros Hv _ Hst _ Hmax Hnew.
  apply (addColor_fresh now v w cs Hv Hst Hmax). by apply colorExists_false.
Qed.

Lemma addColor_appends_witness :
  "#0000ff" <> "" /\
  asciiOnly "#0000ff" /\
  storedColors (storage (worldOf [red; green] threePages)) = Some [red; green] /\
  Forall (fun c => asciiOnly (color c)) [red; green] /\
  Z.of_nat (length [red; green]) < MAX_CUSTOM_COLORS /\
  Forall (fun c => toLowerCase (color c) <> toLowerCase "#0000ff") [red; green] /\
  storedColors (storage (snd (Background.onMessage 102 (AddColor (Some "#0000ff"))
                                (worldOf [red; green] threePages))))
  = Some [red; green; mkColor "custom_102" "customColor" 3 "#0000ff"].
Proof.
  assert (H1 : "#0000ff" <> "") by discriminate.
  assert (H2 : asciiOnly "#0000ff") by reflexivity.
  assert (H3 : storedColors (storage (worldOf [red; green] threePages))
               = Some [red; green]) by reflexivity.
  assert (H4 : Forall (fun c => asciiOnly (color c)) [red; green])
    by (repeat constructor).
  assert (H5 : Z.of_nat (length [red; green]) < MAX_CUSTOM_COLORS) by reflexivity.
  assert (H6 : Forall (fun c => toLowerCase (color c) <> toLowerCase "#0000ff") [red; green])
    by (repeat constructor; vm_compute; discriminate).
  split_and!; [exact H1 | exact H2 | exact H3 | exact H4 | exact H5 | exact H6 |].
  rewrite (addColor_appends 102 "#0000ff" (worldOf [red; green] threePages) [red; green]
             H1 H2 H3 H4 H5 H6).
  reflexivity.
Defined.

(** X3: on a non-empty stored collection, [clearCustomColors] writes the
    empty collection (one [set] call), empties the mirror, leaves the parent
    entry alone in the menu, sends the empty collection to every open tab
    and answers [success: true] without [noCustomColors]. *)
Theorem clearCustomColors_clears (now : Z) (w : World) (cs : list ColorRecord) :
  storedColors (storage w) = Some cs ->
  cs <> [] ->
  Background.onMessage now ClearCustomColors w
  = (mkResponse (Some true) None None None None None,
     mkWorld (<["customColors" := SColors []]> (storage w))
             (storageLog w ++ [CallSet "customColors" (SColors [])])
             []
             ["highlight-text"]
             (tabs w)
             (deliveries w ++ broadcastLog [] (tabs w))).
Proof. intros Hst Hne. by apply (clearCustomColors_nonempty now w cs). Qed.

Lemma clearCustomColors_clears_witness :
  storedColors (storage (worldOf [red; green] threePages)) = Some [red; green] /\
  [red; green] <> [] /\
  Background.onMessage 5 ClearCustomColors (worldOf [red; green] threePages)
  = (mkResponse (Some true) None None None None None,
     mkWorld (<["customColors" := SColors []]> (storage (worldOf [red; green] threePages)))
             (storageLog (worldOf [red; green] threePages) ++
              [CallSet "customColors" (SColors [])])
             []
             ["highlight-text"]
             (tabs (worldOf [red; green] threePages))
             (deliveries (worldOf [red; green] threePages) ++
              broadcastLog [] (tabs (worldOf [red; green] threePages)))).
Proof.
  assert (H1 : storedColors (storage (worldOf [red; green] threePages))
               = Some [red; green]) by reflexivity.
  assert (H2 : [red; green] <> []) by discriminate.
  split_and!; [exact H1 | exact H2 |].
  exact (clearCustomColors_clears 5 (worldOf [red; green] threePages) [red; green] H1 H2).
Defined.

(** X4: adding a colour and then deleting the record just added gives back
    the stored collection, and makes it the mirror: on a collection numbered
    by position, with fewer than 20 records, among which the new value and
    the new id do not occur.  The value and the stored colours are strings
    of ASCII characters, for which the comparison letter case apart is the
    one of the source. *)
Theorem addColor_then_deleteColor (now later : Z) (v : string) (w : World)
    (cs : list ColorRecord) :
  v <> "" ->
  asciiOnly v ->
  storedColors (storage w) = Some cs ->
  Forall (fun c => asciiOnly (color c)) cs ->
  dense cs ->
  Z.of_nat (length cs) < MAX_CUSTOM_COLORS ->
  Forall (fun c => toLowerCase (color c) <> toLowerCase v) cs ->
  Forall (fun c => id c <> idAt now) cs ->
  storedColors
    (storage (snd (Background.onMessage later (DeleteColor (Some (idAt now)))
                     (snd (Background.onMessage now (AddColor (Some v)) w)))))
  = Some cs /\
  currentColors (snd (Background.onMessage later (DeleteColor (Some (idAt now)))
                        (snd (Background.onMessage now (AddColor (Some v)) w))))
  = cs.
Proof.
  intros Hv _ Hst _ Hd Hmax Hnew Hid.
  rewrite (addColor_fresh now v w cs Hv Hst Hmax) by (by apply colorExists_false).
  cbn [snd].
  assert (Hfind : list_find (fun c => id c = idAt now) (cs ++ [newColorObj now cs v])
                  = Some (length cs, newColorObj now cs v)).
  { rewrite list_find_app_r by (by apply list_find_None).
    simpl. rewrite decide_True by done. simpl. do 2 f_equal. }
  rewrite (deleteColor_found later (idAt now) _ (cs ++ [newColorObj now cs v])
             (length cs) (newColorObj now cs v) (idAt_nonempty now)
             (storedColors_committed _ _ _) Hfind).
  cbn [snd]. rewrite storedColors_committed.
  rewrite delete_middle, app_nil_r, (renumber_dense_same cs Hd). done.
Qed.

Lemma addColor_then_deleteColor_witness :
  "#0000ff" <> "" /\
  asciiOnly "#0000ff" /\
  storedColors (storage (worldOf [red; green] threePages)) = Some [red; green] /\
  Forall (fun c => asciiOnly (color c)) [red; green] /\
  dense [red; green] /\
  Z.of_nat (length [red; green]) < MAX_CUSTOM_COLORS /\
  Forall (fun c => toLowerCase (color c) <> toLowerCase "#0000ff") [red; green] /\
  Forall (fun c => id c <> idAt 102) [red; green] /\
  storedColors
    (storage (snd (Background.onMessage 103 (DeleteColor (Some (idAt 102)))
                     (snd (Background.onMessage 102 (AddColor (Some "#0000ff"))
                             (worldOf [red; green] threePages))))))
  = Some [red; green] /\
  currentColors (snd (Background.onMessage 103 (DeleteColor (Some (idAt 102)))
                        (snd (Background.onMessage 102 (AddColor (Some "#0000ff"))
                                (worldOf [red; green] threePages)))))
  = [red; green].
Proof.
  assert (H1 : "#0000ff" <> "") by discriminate.
  assert (H2 : asciiOnly "#0000ff") by reflexivity.
  assert (H3 : storedColors (storage (worldOf [red; green] threePages))
               = Some [red; green]) by reflexivity.
  assert (H4 : Forall (fun c => asciiOnly (color c)) [red; green])
    by (repeat constructor).
  assert (H5 : dense [red; green]) by reflexivity.
  assert (H6 : Z.of_nat (length [red; green]) < MAX_CUSTOM_COLORS) by reflexivity.
  assert (H7 : Forall (fun c => toLowerCase (color c) <> toLowerCase "#0000ff") [red; green])
    by (repeat constructor; vm_compute; discriminate).
  assert (H8 : Forall (fun c => id c <> idAt 102) [red; green])
    by (repeat constructor; vm_compute; discriminate).
  split_and!;
    [exact H1 | exact H2 | exact H3 | exact H4 | exact H5 | exact H6 | exact H7
    | exact H8 | |];
    apply (addColor_then_deleteColor 102 103 "#0000ff" (worldOf [red; green] threePages)
             [red; green] H1 H2 H3 H4 H5 H6 H7 H8).
Defined.

(** ** Invariants along runs of colour requests *)

(** What one colour request does to a world whose mirror is the stored
    collection [cs]: nothing, an addition at the end, or a deletion followed
    by renumbering. *)
Lemma colorMutation_cases (now : Z) (m : Message) (w : World) (cs : list ColorRecord) :
  isColorMutation m = true ->
  storedColors (storage w) = Some cs ->
  currentColors w = cs ->
  snd (Background.onMessage now m w) = w \/
  (exists v, colorExists v cs = false /\
             snd (Background.onMessage now m w)
             = committed (cs ++ [newColorObj now cs v]) (cs ++ [newColorObj now cs v]) w) \/
  (exists i, (i < length cs)%nat /\
             snd (Background.onMessage now m w)
             = committed (renumber (delete i cs)) (renumber (delete i cs)) w).
Proof.
  intros Hm Hst Hmir. destruct m; try done.
  - destruct (truthy colorId) eqn:Ht.
    + apply truthy_true in Ht as (s & -> & Hs).
      destruct (list_find (fun c => id c = s) cs) as [[i c]|] eqn:Hfind.
      * right. right. exists i. split.
        -- apply list_find_Some in Hfind as (Hi & _). eapply lookup_lt_Some; eauto.
        -- by rewrite (deleteColor_found now s w cs i c).
      * left. by rewrite (deleteColor_not_found now s w cs).
    + left. by rewrite deleteColor_missing_id.
  - destruct (truthy newColorValue) eqn:Ht.
    + apply truthy_true in Ht as (s & -> & Hs).
      destruct (decide (MAX_CUSTOM_COLORS <= Z.of_nat (length cs))) as [Hfull|Hroom].
      * left. by rewrite (addColor_at_capacity now s w cs).
      * destruct (colorExists s cs) eqn:Hex.
        -- left. by rewrite (addColor_existing now s w cs) by (done || lia).
        -- right. left. exists s. split; [done|].
           rewrite (addColor_fresh now s w cs) by (done || lia). by rewrite Hmir.
    + left. by rewrite addColor_falsy.
Qed.

Lemma trace_invariant (P : World -> Prop) :
  (forall now m w, isColorMutation m = true -> P w ->
                   P (snd (Background.onMessage now m w))) ->
  forall requests w,
    Forall (fun rq => isColorMutation rq.2 = true) requests ->
    P w -> Forall P (trace requests w).
Proof.
  intros Hstep requests. induction requests as [|[now m] rest IH]; intros w Hall Hw; simpl.
  - constructor.
  - inversion Hall as [|? ? Hm Hrest]; subst. simpl in Hm.
    constructor; [by apply Hstep|]. apply IH; [done|]. by apply Hstep.
Qed.

Lemma renumber_colors (cs : list ColorRecord) :
  (fun c => toLowerCase (color c)) <$> renumber cs
  = (fun c => toLowerCase (color c)) <$> cs.
Proof.
  apply list_eq. intros i. rewrite !list_lookup_fmap, renumber_lookup.
  by destruct (cs !! i).
Qed.

Lemma renumber_ids (cs : list ColorRecord) : id <$> renumber cs = id <$> cs.
Proof.
  apply list_eq. intros i. rewrite !list_lookup_fmap, renumber_lookup.
  by destruct (cs !! i).
Qed.

Lemma distinctColors_step (now : Z) (m : Message) (w : World) :
  isColorMutation m = true ->
  (exists cs, storedColors (storage w) = Some cs /\ currentColors w = cs /\
              distinctColors cs) ->
  exists cs, storedColors (storage (snd (Background.onMessage now m w))) = Some cs /\
             currentColors (snd (Background.onMessage now m w)) = cs /\
             distinctColors cs.
Proof.
  intros Hm (cs & Hst & Hmir & Hd).
  destruct (colorMutation_cases now m w cs Hm Hst Hmir)
    as [-> | [(v & Hex & ->) | (i & Hi & ->)]].
  - by exists cs.
  - exists (cs ++ [newColorObj now cs v]). rewrite storedColors_committed.
    split_and!; [done|done|]. unfold distinctColors. rewrite fmap_app.
    apply NoDup_app. split_and!; [done| |apply NoDup_singleton].
    intros x Hx Hx'. apply list_elem_of_singleton in Hx'. simpl in Hx'. subst x.
    apply list_elem_of_fmap in Hx as (c & Heq & Hc).
    apply colorExists_false in Hex. rewrite Forall_forall in Hex.
    by apply (Hex c).
  - exists (renumber (delete i cs)). rewrite storedColors_committed.
    split_and!; [done|done|]. unfold distinctColors.
    rewrite renumber_colors, list_fmap_delete.
    eapply sublist_NoDup; [exact Hd|apply sublist_delete].
Qed.

(** X5: along every run of [addColor] and [deleteColor] requests that starts
    with an empty stored collection and an empty mirror, after each request
    the stored collection, which the mirror equals, holds colours that are
    pairwise distinct when letter case is ignored. *)
Theorem colors_distinct_along_run (requests : list (Z * Message)) (w0 : World) :
  storedColors (storage w0) = Some [] ->
  currentColors w0 = [] ->
  Forall (fun rq => isColorMutation rq.2 = true) requests ->
  Forall (fun w => exists cs,
            storedColors (storage w) = Some cs /\
            currentColors w = cs /\
            NoDup ((fun c => toLowerCase (color c)) <$> cs))
         (trace requests w0).
Proof.
  intros Hst Hmir Hreq.
  apply (trace_invariant _ distinctColors_step requests w0 Hreq).
  exists []. split_and!; [done|done|constructor].
Qed.

Lemma colors_distinct_along_run_witness :
  storedColors (storage (worldOf [] threePages)) = Some [] /\
  currentColors (worldOf [] threePages) = [] /\
  Forall (fun rq => isColorMutation rq.2 = true) sampleRun /\
  Forall (fun w => exists cs,
            storedColors (storage w) = Some cs /\
            currentColors w = cs /\
            NoDup ((fun c => toLowerCase (color c)) <$> cs))
         (trace sampleRun (worldOf [] threePages)).
Proof.
  assert (H1 : storedColors (storage (worldOf [] threePages)) = Some [])
    by reflexivity.
  assert (H2 : currentColors (worldOf [] threePages) = []) by reflexivity.
  assert (H3 : Forall (fun rq => isColorMutation rq.2 = true) sampleRun)
    by (repeat constructor).
  split_and!; [exact H1 | exact H2 | exact H3 |].
  exact (colors_distinct_along_run sampleRun (worldOf [] threePages) H1 H2 H3).
Defined.

Lemma numberToString_inj (a b : Z) : numberToString a = numberToString b -> a = b.
Proof.
  unfold numberToString. intros Heq.
  assert (Hnn : forall z, Z.to_int z <> Decimal.Pos Decimal.Nil /\
                          Z.to_int z <> Decimal.Neg Decimal.Nil).
  { intros [|p|p]; simpl; split; try discriminate;
      intros [= Hp]; by apply DecimalPos.Unsigned.to_uint_nonnil in Hp. }
  apply (f_equal NilZero.int_of_string) in Heq.
  rewrite !NilZero.isi in Heq by apply Hnn.
  injection Heq as Heq. by apply DecimalZ.to_int_inj.
Qed.

Lemma idAt_inj (a b : Z) : idAt a = idAt b -> a = b.
Proof.
  unfold idAt. intros Heq. apply numberToString_inj.
  revert Heq. generalize (numberToString a) (numberToString b). intros x y Heq.
  simpl in Heq. by simplify_eq.
Qed.

(** Distinct ids stay distinct along a run whose instants are pairwise
    distinct and are not the instants of the records already there. *)
Lemma ids_distinct_trace (requests : list (Z * Message)) (w : World)
    (cs : list ColorRecord) :
  Forall (fun rq => isColorMutation rq.2 = true) requests ->
  NoDup requests.*1 ->
  storedColors (storage w) = Some cs ->
  currentColors w = cs ->
  NoDup (id <$> cs) ->
  Forall (fun c => Forall (fun now => id c <> idAt now) requests.*1) cs ->
  Forall (fun w' => exists cs', storedColors (storage w') = Some cs' /\
                                currentColors w' = cs' /\ NoDup (id <$> cs'))
         (trace requests w).
Proof.
  revert w cs. induction requests as [|[now m] rest IH];
    intros w cs Hall Hnd Hst Hmir Hids Hfresh; simpl.
  - constructor.
  - inversion Hall as [|? ? Hm Hrest]; subst. simpl in Hm.
    simpl in Hnd. apply NoDup_cons in Hnd as [Hnow Hnd].
    assert (Hnext : exists cs',
               storedColors (storage (snd (Background.onMessage now m w))) = Some cs' /\
               currentColors (snd (Background.onMessage now m w)) = cs' /\
               NoDup (id <$> cs') /\
               Forall (fun c => Forall (fun t => id c <> idAt t) rest.*1) cs').
    { destruct (colorMutation_cases now m w (currentColors w) Hm Hst eq_refl)
        as [-> | [(v & Hex & ->) | (i & Hi & ->)]].
      - exists (currentColors w). split_and!; [done|done|done|].
        eapply Forall_impl; [exact Hfresh|]. intros c Hc. simpl in Hc.
        by apply Forall_cons in Hc as [_ Hc].
      - exists (currentColors w ++ [newColorObj now (currentColors w) v]).
        rewrite storedColors_committed. split_and!; [done|done| |].
        + rewrite fmap_app. apply NoDup_app. split_and!; [done| |apply NoDup_singleton].
          intros x Hx Hx'. apply list_elem_of_singleton in Hx'. simpl in Hx'. subst x.
          apply list_elem_of_fmap in Hx as (c & Heq & Hc).
          rewrite Forall_forall in Hfresh. specialize (Hfresh c Hc). simpl in Hfresh.
          apply Forall_cons in Hfresh as [Hne _]. by apply Hne.
        + apply Forall_app. split.
          * eapply Forall_impl; [exact Hfresh|]. intros c Hc. simpl in Hc.
            by apply Forall_cons in Hc as [_ Hc].
          * constructor; [|constructor]. simpl. apply Forall_forall.
            intros t Ht Heq. apply idAt_inj in Heq. by subst t.
      - exists (renumber (delete i (currentColors w))).
        rewrite storedColors_committed. split_and!; [done|done| |].
        + rewrite renumber_ids, list_fmap_delete.
          eapply sublist_NoDup; [exact Hids|apply sublist_delete].
        + apply Forall_forall. intros c Hc.
          apply list_elem_of_lookup in Hc as [j Hj]. rewrite renumber_lookup in Hj.
          destruct (delete i (currentColors w) !! j) as [c0|] eqn:Hc0; [|done].
          simpl in Hj. injection Hj as <-.
          assert (Hin : c0 ∈ currentColors w).
          { eapply list_elem_of_delete_inv, list_elem_of_lookup; eauto. }
          rewrite Forall_forall in Hfresh. specialize (Hfresh c0 Hin). simpl in Hfresh.
          by apply Forall_cons in Hfresh as [_ Hfresh]. }
    destruct Hnext as (cs' & Hst' & Hmir' & Hids' & Hfresh').
    constructor; [by exists cs'|].
    by apply (IH _ cs').
Qed.

(** X6: along every run of [addColor] and [deleteColor] requests made at
    pairwise distinct instants, from an empty stored collection and an
    empty mirror, the ids of the records are pairwise distinct after each
    request. *)
Theorem ids_distinct_along_run (requests : list (Z * Message)) (w0 : World) :
  storedColors (storage w0) = Some [] ->
  currentColors w0 = [] ->
  Forall (fun rq => isColorMutation rq.2 = true) requests ->
  NoDup requests.*1 ->
  Forall (fun w => exists cs,
            storedColors (storage w) = Some cs /\
            currentColors w = cs /\
            NoDup (id <$> cs))
         (trace requests w0).
Proof.
  intros Hst Hmir Hreq Hnd.
  apply (ids_distinct_trace requests w0 [] Hreq Hnd Hst Hmir); constructor.
Qed.

Lemma ids_distinct_along_run_witness :
  storedColors (storage (worldOf [] threePages)) = Some [] /\
  currentColors (worldOf [] threePages) = [] /\
  Forall (fun rq => isColorMutation rq.2 = true) sampleRun /\
  NoDup sampleRun.*1 /\
  Forall (fun w => exists cs,
            storedColors (storage w) = Some cs /\
            currentColors w = cs /\
            NoDup (id <$> cs))
         (trace sampleRun (worldOf [] threePages)).
Proof.
  assert (H1 : storedColors (storage (worldOf [] threePages)) = Some [])
    by reflexivity.
  assert (H2 : currentColors (worldOf [] threePages) = []) by reflexivity.
  assert (H3 : Forall (fun rq => isColorMutation rq.2 = true) sampleRun)
    by (repeat constructor).
  assert (H4 : NoDup sampleRun.*1).
  { apply (bool_decide_unpack _). vm_compute. exact I. }
  split_and!; [exact H1 | exact H2 | exact H3 | exact H4 |].
  exact (ids_distinct_along_run sampleRun (worldOf [] threePages) H1 H2 H3 H4).
Defined.

(** Two additions at the same instant give two records with the same id,
    and [deleteColor] on that id removes the first of them only. *)
Example same_instant_same_id :
  storedColors
    (storage (snd (Background.onMessage 100 (AddColor (Some "#00FF00"))
                     (snd (Background.onMessage 100 (AddColor (Some "#FF0000"))
                             (worldOf [] threePages))))))
  = Some [mkColor "custom_100" "customColor" 1 "#FF0000";
          mkColor "custom_100" "customColor" 2 "#00FF00"] /\
  storedColors
    (storage (snd (Background.onMessage 101 (DeleteColor (Some "custom_100"))
       (snd (Background.onMessage 100 (AddColor (Some "#00FF00"))
               (snd (Background.onMessage 100 (AddColor (Some "#FF0000"))
                       (worldOf [] threePages))))))))
  = Some [mkColor "custom_100" "customColor" 1 "#00FF00"].
Proof. split; vm_compute; reflexivity. Qed.

(** ** Reload of the collection and the options page *)

Lemma toLowerAscii_toUpperAscii (a : ascii) :
  toLowerAscii (toUpperAscii a) = toLowerAscii a.
Proof.
  destruct a as [[] [] [] [] [] [] [] []]; vm_compute; reflexivity.
Qed.

Lemma toLowerCase_toUpperCase (s : string) : toLowerCase (toUpperCase s) = toLowerCase s.
Proof.
  unfold toLowerCase, toUpperCase. induction s as [|a s IH]; simpl; [done|].
  by rewrite toLowerAscii_toUpperAscii, IH.
Qed.

Lemma toUpperCase_nonempty (s : string) : s <> "" -> toUpperCase s <> "".
Proof. by destruct s. Qed.

Lemma colorExists_toUpperCase (v : string) (cs : list ColorRecord) :
  colorExists (toUpperCase v) cs = colorExists v cs.
Proof. unfold colorExists. by rewrite toLowerCase_toUpperCase. Qed.

Lemma loadCustomColors_run (w : World) (cs : list ColorRecord) :
  storedColors (storage w) = Some cs ->
  Background.loadCustomColors w
  = (Ok tt,
     with_currentColors (numberMissing cs)
       (if existsb (fun c => colorNumber c =? 0) cs
        then with_storage (<["customColors" := SColors (numberMissing cs)]> (storage w))
                          (CallSet "customColors" (SColors (numberMissing cs))) w
        else w)).
Proof.
  intros Hst. unfold Background.loadCustomColors, try_catch, bind, storage_get_customColors.
  rewrite Hst. by destruct (existsb _ cs).
Qed.

Lemma existsb_zero_false (cs : list ColorRecord) :
  Forall (fun c => colorNumber c <> 0) cs ->
  existsb (fun c => colorNumber c =? 0) cs = false.
Proof.
  intros Hall. apply not_true_iff_false. rewrite existsb_exists.
  intros (c & Hin & Hz). apply list_elem_of_In in Hin.
  rewrite Forall_forall in Hall. apply (Hall c Hin). by apply Z.eqb_eq.
Qed.

Lemma numberMissing_same (cs : list ColorRecord) :
  Forall (fun c => colorNumber c <> 0) cs -> numberMissing cs = cs.
Proof.
  intros Hall. apply list_eq. intros i. unfold numberMissing. rewrite list_lookup_imap.
  destruct (cs !! i) as [c|] eqn:Hc; simpl; [|done].
  assert (Hin : c ∈ cs) by (apply list_elem_of_lookup; eauto).
  rewrite Forall_forall in Hall. specialize (Hall c Hin).
  by rewrite (proj2 (Z.eqb_neq _ _) Hall).
Qed.

Lemma customColorsUpdated_run (now : Z) (w : World) (cs : list ColorRecord) :
  storedColors (storage w) = Some cs ->
  Background.onMessage now CustomColorsUpdated w
  = (respond true,
     mkWorld
       (if existsb (fun c => colorNumber c =? 0) cs
        then <["customColors" := SColors (numberMissing cs)]> (storage w)
        else storage w)
       (if existsb (fun c => colorNumber c =? 0) cs
        then storageLog w ++ [CallSet "customColors" (SColors (numberMissing cs))]
        else storageLog w)
       (numberMissing cs)
       (menuTree (numberMissing cs))
       (tabs w)
       (deliveries w ++ broadcastLog (numberMissing cs) (tabs w))).
Proof.
  intros Hst. unfold Background.onMessage, Background.handle, bind.
  rewrite (loadCustomColors_run w cs Hst), createOrUpdateContextMenus_run,
    broadcastColors_run.
  destruct (existsb _ cs); by destruct w.
Qed.

(** X7: [customColorsUpdated] makes the mirror equal to the stored
    collection, in which every record that had no number (number 0) now has
    the number of its position and the others are as they were; the storage
    is written exactly when some record had no number; every open tab is
    sent the reloaded collection and the answer is [success: true]. *)
Theorem customColorsUpdated_reloads (now : Z) (w : World) (cs : list ColorRecord) :
  storedColors (storage w) = Some cs ->
  fst (Background.onMessage now CustomColorsUpdated w)
  = mkResponse (Some true) None None None None None /\
  exists cs',
    storedColors (storage (snd (Background.onMessage now CustomColorsUpdated w))) = Some cs' /\
    currentColors (snd (Background.onMessage now CustomColorsUpdated w)) = cs' /\
    length cs' = length cs /\
    (forall i c, cs !! i = Some c ->
       cs' !! i = Some (if colorNumber c =? 0 then setColorNumber (Z.of_nat i + 1) c else c)) /\
    Forall (fun c => colorNumber c <> 0) cs' /\
    (Forall (fun c => colorNumber c <> 0) cs ->
     cs' = cs /\
     storageLog (snd (Background.onMessage now CustomColorsUpdated w)) = storageLog w) /\
    (Exists (fun c => colorNumber c = 0) cs ->
     storageLog (snd (Background.onMessage now CustomColorsUpdated w))
     = storageLog w ++ [CallSet "customColors" (SColors cs')]) /\
    deliveries (snd (Background.onMessage now CustomColorsUpdated w))
    = deliveries w ++ broadcastLog cs' (tabs w).
Proof.
  intros Hst. rewrite (customColorsUpdated_run now w cs Hst).
  cbn [fst snd storage storageLog currentColors deliveries]. split; [done|].
  exists (numberMissing cs). split_and!.
  - destruct (existsb (fun c => colorNumber c =? 0) cs) eqn:Hex.
    + unfold storedColors. by rewrite lookup_insert_eq.
    + rewrite Hst. f_equal. symmetry. apply numberMissing_same.
      apply Forall_forall. intros c Hc Hz.
      apply not_true_iff_false in Hex. apply Hex, existsb_exists.
      exists c. split; [by apply list_elem_of_In | by apply Z.eqb_eq].
  - done.
  - apply length_imap.
  - intros i c Hc. unfold numberMissing. by rewrite list_lookup_imap, Hc.
  - apply Forall_forall. intros c Hc.
    apply list_elem_of_lookup in Hc as [i Hi]. unfold numberMissing in Hi.
    rewrite list_lookup_imap in Hi.
    destruct (cs !! i) as [c0|]; [|done]. simpl in Hi. injection Hi as <-.
    destruct (Z.eqb_spec (colorNumber c0) 0); simpl; lia.
  - intros Hall. split; [by apply numberMissing_same|].
    by rewrite (existsb_zero_false cs Hall).
  - intros Hsome.
    assert (Hex : existsb (fun c => colorNumber c =? 0) cs = true).
    { apply existsb_exists. apply Exists_exists in Hsome as (c & Hc & Hz).
      exists c. split; [by apply list_elem_of_In | by apply Z.eqb_eq]. }
    by rewrite Hex.
  - done.
Qed.

Lemma customColorsUpdated_reloads_witness :
  storedColors (storage legacyWorld) = Some [mkColor "a" "customColor" 0 "#111111"; green] /\
  fst (Background.onMessage 1 CustomColorsUpdated legacyWorld)
  = mkResponse (Some true) None None None None None /\
  exists cs',
    storedColors (storage (snd (Background.onMessage 1 CustomColorsUpdated legacyWorld)))
    = Some cs' /\
    currentColors (snd (Background.onMessage 1 CustomColorsUpdated legacyWorld)) = cs' /\
    length cs' = length [mkColor "a" "customColor" 0 "#111111"; green] /\
    (forall i c, [mkColor "a" "customColor" 0 "#111111"; green] !! i = Some c ->
       cs' !! i = Some (if colorNumber c =? 0 then setColorNumber (Z.of_nat i + 1) c else c)) /\
    Forall (fun c => colorNumber c <> 0) cs' /\
    (Forall (fun c => colorNumber c <> 0) [mkColor "a" "customColor" 0 "#111111"; green] ->
     cs' = [mkColor "a" "customColor" 0 "#111111"; green] /\
     storageLog (snd (Background.onMessage 1 CustomColorsUpdated legacyWorld))
     = storageLog legacyWorld) /\
    (Exists (fun c => colorNumber c = 0) [mkColor "a" "customColor" 0 "#111111"; green] ->
     storageLog (snd (Background.onMessage 1 CustomColorsUpdated legacyWorld))
     = storageLog legacyWorld ++ [CallSet "customColors" (SColors cs')]) /\
    deliveries (snd (Background.onMessage 1 CustomColorsUpdated legacyWorld))
    = deliveries legacyWorld ++ broadcastLog cs' (tabs legacyWorld).
Proof.
  assert (H1 : storedColors (storage legacyWorld)
               = Some [mkColor "a" "customColor" 0 "#111111"; green]) by reflexivity.
  split; [exact H1|].
  exact (customColorsUpdated_reloads 1 legacyWorld
           [mkColor "a" "customColor" 0 "#111111"; green] H1).
Defined.

Example customColorsUpdated_sample :
  currentColors (snd (Background.onMessage 1 CustomColorsUpdated legacyWorld))
  = [mkColor "a" "customColor" 1 "#111111"; green].
Proof. vm_compute. reflexivity. Qed.

Lemma filter_all (cs : list ColorRecord) (colorId : string) :
  Forall (fun c => id c <> colorId) cs ->
  filter (fun c => id c <> colorId) cs = cs.
Proof.
  induction 1 as [|c cs Hc Hall IH]; [done|].
  by rewrite filter_cons_True, IH.
Qed.

Lemma filter_id_delete (cs : list ColorRecord) (i : nat) (c : ColorRecord) :
  NoDup (id <$> cs) ->
  cs !! i = Some c ->
  filter (fun x => id x <> id c) cs = delete i cs.
Proof.
  revert i. induction cs as [|x cs IH]; intros i Hnd Hc; [done|].
  rewrite fmap_cons in Hnd. apply NoDup_cons in Hnd as [Hx Hnd].
  destruct i as [|i]; simpl in Hc.
  - injection Hc as ->. rewrite filter_cons_False by (intros Hne; by apply Hne).
    simpl. apply filter_all. apply Forall_forall. intros y Hy Heq.
    apply Hx. rewrite <- Heq. by apply list_elem_of_fmap_2.
  - assert (Hne : id x <> id c).
    { intros Heq. apply Hx. rewrite Heq. apply list_elem_of_fmap_2.
      apply list_elem_of_lookup. eauto. }
    rewrite filter_cons_True by done. simpl. f_equal. by apply IH.
Qed.

Lemma picker_deleteColor_run (colorId : string) (w : World) (cs : list ColorRecord) :
  storedColors (storage w) = Some cs ->
  ColorPicker.deleteColor colorId w
  = (Ok tt,
     with_storage
       (<["customColors" := SColors (renumber (filter (fun c => id c <> colorId) cs))]>
          (storage w))
       (CallSet "customColors" (SColors (renumber (filter (fun c => id c <> colorId) cs))))
       w).
Proof.
  intros Hst. unfold ColorPicker.deleteColor, try_catch, bind, storage_get_customColors.
  by rewrite Hst.
Qed.

Lemma picker_addColor_run (now : Z) (v : string) (w : World) (cs : list ColorRecord) :
  storedColors (storage w) = Some cs ->
  ColorPicker.addColor now v w
  = (Ok tt,
     if (MAX_CUSTOM_COLORS <=? Z.of_nat (length cs)) || colorExists v cs then w
     else with_storage
            (<["customColors" := SColors (cs ++ [newColorObj now cs (toUpperCase v)])]>
               (storage w))
            (CallSet "customColors" (SColors (cs ++ [newColorObj now cs (toUpperCase v)])))
            w).
Proof.
  intros Hst. unfold ColorPicker.addColor, try_catch, bind, storage_get_customColors.
  rewrite Hst. destruct (MAX_CUSTOM_COLORS <=? _); [done|].
  by destruct (colorExists v cs).
Qed.

(** X8: on a stored collection numbered by position, with pairwise distinct
    ids, [deleteColor] of the options page and the [deleteColor] request of
    the background script leave the same stored collection, for every
    non-empty id, carried by a record or not. *)
Theorem deleteColor_paths_agree (now : Z) (colorId : string) (w : World)
    (cs : list ColorRecord) :
  storedColors (storage w) = Some cs ->
  dense cs ->
  NoDup (id <$> cs) ->
  colorId <> "" ->
  storedColors (storage (snd (ColorPicker.deleteColor colorId w)))
  = storedColors (storage (snd (Background.onMessage now (DeleteColor (Some colorId)) w))).
Proof.
  intros Hst Hd Hnd Hid.
  rewrite (picker_deleteColor_run colorId w cs Hst). cbn [snd].
  unfold storedColors at 1. simpl. rewrite lookup_insert_eq.
  destruct (list_find (fun c => id c = colorId) cs) as [[i c]|] eqn:Hfind.
  - rewrite (deleteColor_found now colorId w cs i c Hid Hst Hfind). cbn [snd].
    rewrite storedColors_committed.
    apply list_find_Some in Hfind as (Hi & <- & _).
    by rewrite (filter_id_delete cs i c Hnd Hi).
  - rewrite (deleteColor_not_found now colorId w cs Hid Hst Hfind). cbn [snd].
    rewrite Hst. apply list_find_None in Hfind.
    rewrite filter_all by (eapply Forall_impl; [exact Hfind|]; by intros). 
    by rewrite (renumber_dense_same cs Hd).
Qed.

Lemma deleteColor_paths_agree_witness :
  storedColors (storage (worldOf [red; green; blue] threePages)) = Some [red; green; blue] /\
  dense [red; green; blue] /\
  NoDup (id <$> [red; green; blue]) /\
  "custom_101" <> "" /\
  storedColors (storage (snd (ColorPicker.deleteColor "custom_101"
                                (worldOf [red; green; blue] threePages))))
  = storedColors
      (storage (snd (Background.onMessage 9 (DeleteColor (Some "custom_101"))
                       (worldOf [red; green; blue] threePages)))).
Proof.
  assert (H1 : storedColors (storage (worldOf [red; green; blue] threePages))
               = Some [red; green; blue]) by reflexivity.
  assert (H2 : dense [red; green; blue]) by reflexivity.
  assert (H3 : NoDup (id <$> [red; green; blue])).
  { apply (bool_decide_unpack _). vm_compute. exact I. }
  assert (H4 : "custom_101" <> "") by discriminate.
  split_and!; [exact H1 | exact H2 | exact H3 | exact H4 |].
  exact (deleteColor_paths_agree 9 "custom_101" (worldOf [red; green; blue] threePages)
           [red; green; blue] H1 H2 H3 H4).
Defined.

(** With an id carried twice the two paths differ: the options page removes
    both records, the background script the first. *)
Example deleteColor_paths_differ :
  storedColors
    (storage (snd (ColorPicker.deleteColor "custom_100"
                     (worldOf [red; mkColor "custom_100" "customColor" 2 "#00FF00"]
                              threePages))))
  = Some [] /\
  storedColors
    (storage (snd (Background.onMessage 9 (DeleteColor (Some "custom_100"))
                     (worldOf [red; mkColor "custom_100" "customColor" 2 "#00FF00"]
                              threePages))))
  = Some [mkColor "custom_100" "customColor" 1 "#00FF00"].
Proof. split; vm_compute; reflexivity. Qed.

(** X9: [addColor] and [deleteColor] of the options page keep a stored
    collection numbered by position, within 20 records and without two
    equal colours (letter case apart); they change the storage only: the
    mirror, the menu and the messages sent are left as they were. *)
Theorem picker_keeps_invariant (op : PickerWrite) (w : World) (cs : list ColorRecord) :
  storedColors (storage w) = Some cs ->
  storedInv cs ->
  exists cs',
    storedColors (storage (snd (pickerWrite op w))) = Some cs' /\
    storedInv cs' /\
    currentColors (snd (pickerWrite op w)) = currentColors w /\
    menuIds (snd (pickerWrite op w)) = menuIds w /\
    deliveries (snd (pickerWrite op w)) = deliveries w.
Proof.
  intros Hst (Hd & Hmax & Hdist). destruct op as [now v|colorId]; simpl.
  - rewrite (picker_addColor_run now v w cs Hst). cbn [snd].
    destruct (Z.leb_spec MAX_CUSTOM_COLORS (Z.of_nat (length cs))) as [Hfull|Hroom]; simpl.
    { exists cs. by split_and!. }
    destruct (colorExists v cs) eqn:Hex.
    { exists cs. by split_and!. }
    exists (cs ++ [newColorObj now cs (toUpperCase v)]).
    split_and!; try done.
    + unfold storedColors. simpl. by rewrite lookup_insert_eq.
    + split_and!.
      * by apply dense_snoc.
      * rewrite length_app. simpl. unfold MAX_CUSTOM_COLORS in *. lia.
      * unfold distinctColors. rewrite fmap_app.
        apply NoDup_app. split_and!; [done| |apply NoDup_singleton].
        intros x Hx Hx'. apply list_elem_of_singleton in Hx'. simpl in Hx'. subst x.
        apply list_elem_of_fmap in Hx as (c & Heq & Hc).
        apply colorExists_false in Hex. rewrite Forall_forall in Hex.
        apply (Hex c Hc). by rewrite <- Heq, toLowerCase_toUpperCase.
  - rewrite (picker_deleteColor_run colorId w cs Hst). cbn [snd].
    exists (renumber (filter (fun c => id c <> colorId) cs)).
    split_and!; try done.
    + unfold storedColors. simpl. by rewrite lookup_insert_eq.
    + split_and!.
      * apply renumber_dense.
      * rewrite renumber_length. pose proof (length_filter (fun c => id c <> colorId) cs).
        lia.
      * unfold distinctColors. rewrite renumber_colors.
        eapply sublist_NoDup; [exact Hdist|]. apply fmap_sublist, sublist_filter.
Qed.

Lemma picker_keeps_invariant_witness :
  storedColors (storage (worldOf [red; green] threePages)) = Some [red; green] /\
  storedInv [red; green] /\
  exists cs',
    storedColors (storage (snd (pickerWrite (PickAdd 102 "#0000ff")
                                  (worldOf [red; green] threePages)))) = Some cs' /\
    storedInv cs' /\
    currentColors (snd (pickerWrite (PickAdd 102 "#0000ff")
                          (worldOf [red; green] threePages)))
    = currentColors (worldOf [red; green] threePages) /\
    menuIds (snd (pickerWrite (PickAdd 102 "#0000ff") (worldOf [red; green] threePages)))
    = menuIds (worldOf [red; green] threePages) /\
    deliveries (snd (pickerWrite (PickAdd 102 "#0000ff") (worldOf [red; green] threePages)))
    = deliveries (worldOf [red; green] threePages).
Proof.
  assert (H1 : storedColors (storage (worldOf [red; green] threePages))
               = Some [red; green]) by reflexivity.
  assert (H2 : storedInv [red; green]).
  { split_and!; [reflexivity | vm_compute; discriminate |].
    apply (bool_decide_unpack _). vm_compute. exact I. }
  split_and!; [exact H1 | exact H2 |].
  exact (picker_keeps_invariant (PickAdd 102 "#0000ff") (worldOf [red; green] threePages)
           [red; green] H1 H2).
Defined.

(** X10: when the mirror is the stored collection and every record has a
    number, adding a non-empty value on the options page and then handling
    its [customColorsUpdated] notice leaves the same storage, the same log
    of storage calls and the same mirror as the [addColor] request of the
    background script for the upper-case form of the value. *)
Theorem addColor_paths_agree (now later : Z) (v : string) (w : World)
    (cs : list ColorRecord) :
  v <> "" ->
  storedColors (storage w) = Some cs ->
  currentColors w = cs ->
  Forall (fun c => colorNumber c <> 0) cs ->
  storage (snd (Background.onMessage later CustomColorsUpdated
                  (snd (ColorPicker.addColor now v w))))
  = storage (snd (Background.onMessage now (AddColor (Some (toUpperCase v))) w)) /\
  storageLog (snd (Background.onMessage later CustomColorsUpdated
                     (snd (ColorPicker.addColor now v w))))
  = storageLog (snd (Background.onMessage now (AddColor (Some (toUpperCase v))) w)) /\
  currentColors (snd (Background.onMessage later CustomColorsUpdated
                        (snd (ColorPicker.addColor now v w))))
  = currentColors (snd (Background.onMessage now (AddColor (Some (toUpperCase v))) w)).
Proof.
  intros Hv Hst Hmir Hnum.
  pose proof (toUpperCase_nonempty v Hv) as Hup.
  rewrite (picker_addColor_run now v w cs Hst). cbn [snd].
  destruct (Z.leb_spec MAX_CUSTOM_COLORS (Z.of_nat (length cs))) as [Hfull|Hroom]; simpl.
  { rewrite (customColorsUpdated_run later w cs Hst).
    rewrite (addColor_at_capacity now _ w cs Hup Hst Hfull). cbn [snd].
    rewrite (existsb_zero_false cs Hnum), (numberMissing_same cs Hnum). by simpl. }
  destruct (colorExists v cs) eqn:Hex.
  { rewrite (customColorsUpdated_run later w cs Hst).
    rewrite (addColor_existing now _ w cs Hup Hst Hroom)
      by (by rewrite colorExists_toUpperCase).
    cbn [snd]. rewrite (existsb_zero_false cs Hnum), (numberMissing_same cs Hnum).
    by simpl. }
  rewrite (addColor_fresh now _ w cs Hup Hst Hroom)
    by (by rewrite colorExists_toUpperCase).
  assert (Hnum' : Forall (fun c => colorNumber c <> 0)
                    (cs ++ [newColorObj now cs (toUpperCase v)])).
  { apply Forall_app. split; [done|]. constructor; [simpl; lia|constructor]. }
  rewrite (customColorsUpdated_run later _ (cs ++ [newColorObj now cs (toUpperCase v)]))
    by (unfold storedColors; simpl; by rewrite lookup_insert_eq).
  cbn [snd]. rewrite (existsb_zero_false _ Hnum'), (numberMissing_same _ Hnum').
  simpl. by rewrite Hmir.
Qed.

Lemma addColor_paths_agree_witness :
  "#0000ff" <> "" /\
  storedColors (storage (worldOf [red; green] threePages)) = Some [red; green] /\
  currentColors (worldOf [red; green] threePages) = [red; green] /\
  Forall (fun c => colorNumber c <> 0) [red; green] /\
  storage (snd (Background.onMessage 103 CustomColorsUpdated
                  (snd (ColorPicker.addColor 102 "#0000ff"
                          (worldOf [red; green] threePages)))))
  = storage (snd (Background.onMessage 102 (AddColor (Some (toUpperCase "#0000ff")))
                    (worldOf [red; green] threePages))) /\
  storageLog (snd (Background.onMessage 103 CustomColorsUpdated
                     (snd (ColorPicker.addColor 102 "#0000ff"
                             (worldOf [red; green] threePages)))))
  = storageLog (snd (Background.onMessage 102 (AddColor (Some (toUpperCase "#0000ff")))
                       (worldOf [red; green] threePages))) /\
  currentColors (snd (Background.onMessage 103 CustomColorsUpdated
                        (snd (ColorPicker.addColor 102 "#0000ff"
                                (worldOf [red; green] threePages)))))
  = currentColors (snd (Background.onMessage 102 (AddColor (Some (toUpperCase "#0000ff")))
                          (worldOf [red; green] threePages))).
Proof.
  assert (H1 : "#0000ff" <> "") by discriminate.
  assert (H2 : storedColors (storage (worldOf [red; green] threePages))
               = Some [red; green]) by reflexivity.
  assert (H3 : currentColors (worldOf [red; green] threePages) = [red; green])
    by reflexivity.
  assert (H4 : Forall (fun c => colorNumber c <> 0) [red; green])
    by (repeat constructor; discriminate).
  split_and!; [exact H1 | exact H2 | exact H3 | exact H4 | | |];
    apply (addColor_paths_agree 102 103 "#0000ff" (worldOf [red; green] threePages)
             [red; green] H1 H2 H3 H4).
Defined.

(** * The command router and the menu *)

Lemma targetColor_from_mirror (command c : string) (cs : list ColorRecord) :
  Background.targetColor command cs = Some c ->
  exists r, r ∈ cs /\ color r = c.
Proof.
  assert (Hlook : forall i, color <$> cs !! i = Some c -> exists r, r ∈ cs /\ color r = c).
  { intros i Hi. destruct (cs !! i) as [r|] eqn:Hr; [|done].
    exists r. split; [apply list_elem_of_lookup; eauto|]. by injection Hi. }
  unfold Background.targetColor.
  repeat (match goal with
          | |- context [if ?b then _ else _] => destruct b
          | |- context [match ?o with Some _ => _ | None => _ end] => destruct o
          end; try done; try apply Hlook).
Qed.

Lemma targetColor_unknown (command : string) (cs : list ColorRecord) :
  command ∉ shortcutCommands ->
  Background.targetColor command cs = None.
Proof.
  intros Hout. unfold Background.targetColor.
  repeat (match goal with
          | |- context [String.eqb command ?s] =>
              destruct (String.eqb_spec command s) as [->|?];
              [exfalso; apply Hout; unfold shortcutCommands, LEGACY_COMMAND_NAMES;
               set_solver|]
          end).
  done.
Qed.

(** X11: a shortcut command never fails and changes neither the storage,
    the mirror nor the menu; it sends at most one message, and a message it
    sends goes to the active tab and is a highlight with the non-empty
    colour of a record of the mirror; a command outside the ten shortcut
    names sends nothing. *)
Theorem onCommand_frame (command : string) (w : World) :
  (exists ds,
     Background.onCommand command w = (Ok tt, with_deliveries (deliveries w ++ ds) w) /\
     (length ds <= 1)%nat /\
     forall d, d ∈ ds ->
       exists t r, head (filter (fun t => tabActive t = true) (tabs w)) = Some t /\
                   r ∈ currentColors w /\ color r <> "" /\
                   d = mkDelivery (tabId t) (Highlight (color r) None) (hasListener t)) /\
  (command ∉ shortcutCommands -> Background.onCommand command w = (Ok tt, w)).
Proof.
  split.
  - destruct (Background.targetColor command (currentColors w)) as [c|] eqn:Hc.
    + destruct (decide (c = "")) as [->|Hne].
      * exists []. rewrite app_nil_r, with_deliveries_same.
        split_and!; [|simpl; lia|intros d Hd; by apply elem_of_nil in Hd].
        apply onCommand_nothing. by rewrite Hc.
      * destruct (head (filter (fun t => tabActive t = true) (tabs w))) as [t|] eqn:Ht.
        -- exists [mkDelivery (tabId t) (Highlight c None) (hasListener t)].
           split_and!; [by apply onCommand_dispatch|simpl; lia|].
           intros d Hd. apply list_elem_of_singleton in Hd as ->.
           destruct (targetColor_from_mirror command c _ Hc) as (r & Hr & <-).
           by exists t, r.
        -- exists []. rewrite app_nil_r, with_deliveries_same.
           split_and!; [|simpl; lia|intros d Hd; by apply elem_of_nil in Hd].
           unfold Background.onCommand, bind, tabs_query_active. by rewrite Ht.
    + exists []. rewrite app_nil_r, with_deliveries_same.
      split_and!; [|simpl; lia|intros d Hd; by apply elem_of_nil in Hd].
      apply onCommand_nothing. by rewrite Hc.
  - intros Hout. apply onCommand_nothing. by rewrite targetColor_unknown.
Qed.

Lemma append_inj_r (p a b : string) : p +:+ a = p +:+ b -> a = b.
Proof. induction p as [|x p IH]; simpl; [done|]. intros [= Heq]. by apply IH. Qed.

Lemma replace_menu_prefix (s : string) : replace "highlight-" "" ("highlight-" +:+ s) = s.
Proof. simpl. by destruct s. Qed.

Lemma menu_prefix (s : string) : String.prefix "highlight-" ("highlight-" +:+ s) = true.
Proof. simpl. by destruct s. Qed.

Lemma menuIdOf_inj (c1 c2 : ColorRecord) : menuIdOf c1 = menuIdOf c2 -> id c1 = id c2.
Proof. unfold menuIdOf. apply append_inj_r. Qed.

(** X12: a click on the menu entry made for a record of the mirror, whose
    id is the first of its kind and is not [text], sends one highlight
    message with the colour of that record and the selected text to the tab
    of the click; a click on the parent entry, or on an entry whose id no
    record carries, sends nothing. *)
Theorem onClicked_resolves (text : option string) (tab : Tab) (w : World) :
  (forall i c,
     list_find (fun r => id r = id c) (currentColors w) = Some (i, c) ->
     id c <> "text" ->
     Background.onClicked (menuIdOf c) text tab w
     = (Ok tt, with_deliveries
                 (deliveries w ++
                  [mkDelivery (tabId tab) (Highlight (color c) text) (hasListener tab)]) w)) /\
  Background.onClicked "highlight-text" text tab w = (Ok tt, w) /\
  (forall colorId,
     Forall (fun r => id r <> colorId) (currentColors w) ->
     Background.onClicked ("highlight-" +:+ colorId) text tab w = (Ok tt, w)).
Proof.
  split_and!.
  - intros i c Hfind Htext. unfold Background.onClicked, menuIdOf.
    rewrite menu_prefix, replace_menu_prefix.
    assert (Hne : String.eqb ("highlight-" +:+ id c) "highlight-text" = false).
    { apply String.eqb_neq. intros Heq. apply Htext.
      by apply (append_inj_r "highlight-" (id c) "text"). }
    rewrite Hne. simpl. unfold bind, get_currentColors. rewrite Hfind.
    unfold try_catch, tabs_sendMessage, ret. by destruct (hasListener tab).
  - done.
  - intros colorId Hnone. unfold Background.onClicked.
    rewrite menu_prefix, replace_menu_prefix.
    destruct (negb _); simpl; [|done].
    unfold bind, get_currentColors.
    by rewrite (proj2 (list_find_None (fun r => id r = colorId) (currentColors w)) Hnone).
Qed.

Example onClicked_sample :
  snd (Background.onClicked "highlight-custom_100" (Some "some text") page3 pageWorld)
  = with_deliveries [mkDelivery 3 (Highlight "#FF0000" (Some "some text")) true] pageWorld.
Proof. vm_compute. reflexivity. Qed.

(** X13: the command whose shortcut the menu shows beside the record at
    index [i] is the command that highlights with the colour at index [i];
    from index 10 on the menu shows no command. *)
Theorem menu_command_matches_router (i : nat) (cs : list ColorRecord) :
  ((i < 10)%nat ->
   Background.targetColor (Shortcuts.commandNameAt i) cs = color <$> cs !! i) /\
  ((10 <= i)%nat -> Shortcuts.commandNameAt i = "").
Proof.
  split.
  - intros Hi.
    destruct i as [|[|[|[|[|[|[|[|[|[|i]]]]]]]]]]; try lia.
    + exact (targetColor_position _ 0 cs (legacy_slot 0 _ eq_refl)).
    + exact (targetColor_position _ 1 cs (legacy_slot 1 _ eq_refl)).
    + exact (targetColor_position _ 2 cs (legacy_slot 2 _ eq_refl)).
    + exact (targetColor_position _ 3 cs (legacy_slot 3 _ eq_refl)).
    + exact (targetColor_position _ 4 cs (legacy_slot 4 _ eq_refl)).
    + exact (targetColor_position _ 5 cs (custom_slot 1 ltac:(lia))).
    + exact (targetColor_position _ 6 cs (custom_slot 2 ltac:(lia))).
    + exact (targetColor_position _ 7 cs (custom_slot 3 ltac:(lia))).
    + exact (targetColor_position _ 8 cs (custom_slot 4 ltac:(lia))).
    + exact (targetColor_position _ 9 cs (custom_slot 5 ltac:(lia))).
  - intros Hi. unfold Shortcuts.commandNameAt.
    rewrite (proj2 (Nat.ltb_ge i 5)) by lia. by rewrite (proj2 (Nat.ltb_ge i 10)) by lia.
Qed.

Lemma foldl_addMenu_NoDup (ms : list string) (cs : list ColorRecord) :
  NoDup ms -> NoDup (foldl addMenu ms cs).
Proof.
  revert ms. induction cs as [|c cs IH]; intros ms Hms; simpl; [done|].
  apply IH. unfold addMenu. case_bool_decide; [done|].
  apply NoDup_app. split_and!; [done| |apply NoDup_singleton].
  intros x Hx Hx'. apply list_elem_of_singleton in Hx'. by subst.
Qed.

Lemma foldl_addMenu_keeps (ms : list string) (cs : list ColorRecord) (x : string) :
  x ∈ ms -> x ∈ foldl addMenu ms cs.
Proof.
  revert ms. induction cs as [|c cs IH]; intros ms Hx; simpl; [done|].
  apply IH. unfold addMenu. case_bool_decide; [done|]. set_solver.
Qed.

Lemma foldl_addMenu_child (ms : list string) (cs : list ColorRecord) (c : ColorRecord) :
  c ∈ cs -> menuIdOf c ∈ foldl addMenu ms cs.
Proof.
  revert ms. induction cs as [|x cs IH]; intros ms Hc; [by apply elem_of_nil in Hc|].
  apply elem_of_cons in Hc as [->|Hc]; simpl.
  - apply foldl_addMenu_keeps. unfold addMenu, menuIdOf. case_bool_decide; [done|].
    set_solver.
  - by apply IH.
Qed.

Lemma foldl_addMenu_distinct (ms : list string) (cs : list ColorRecord) :
  NoDup (ms ++ (menuIdOf <$> cs)) ->
  foldl addMenu ms cs = ms ++ (menuIdOf <$> cs).
Proof.
  revert ms. induction cs as [|c cs IH]; intros ms Hnd; simpl.
  - by rewrite app_nil_r.
  - assert (Hfresh : menuIdOf c ∉ ms).
    { apply NoDup_app in Hnd as (_ & Hdis & _). intros Hin.
      apply (Hdis _ Hin). rewrite fmap_cons. apply list_elem_of_here. }
    unfold addMenu at 2. fold (menuIdOf c). rewrite bool_decide_eq_false_2 by done.
    rewrite IH; [by rewrite <- app_assoc|].
    rewrite <- app_assoc. exact Hnd.
Qed.

(** X14: the menu rebuild never fails and changes the menu only; the ids it
    leaves are pairwise distinct, hold the parent entry and the entry of
    every record of the mirror, even when ids collide; with pairwise
    distinct ids, none of them [text], they are the parent entry followed by
    one entry per record, in order; a second rebuild changes nothing. *)
Theorem menu_rebuild (w : World) :
  exists ms,
    Background.createOrUpdateContextMenus w = (Ok tt, with_menuIds ms w) /\
    NoDup ms /\
    "highlight-text" ∈ ms /\
    (forall c, c ∈ currentColors w -> menuIdOf c ∈ ms) /\
    (NoDup (id <$> currentColors w) ->
     Forall (fun c => id c <> "text") (currentColors w) ->
     ms = "highlight-text" :: (menuIdOf <$> currentColors w)) /\
    Background.createOrUpdateContextMenus (with_menuIds ms w) = (Ok tt, with_menuIds ms w).
Proof.
  exists (menuTree (currentColors w)). split_and!.
  - apply createOrUpdateContextMenus_run.
  - apply foldl_addMenu_NoDup, NoDup_singleton.
  - apply foldl_addMenu_keeps, list_elem_of_here.
  - intros c Hc. by apply foldl_addMenu_child.
  - intros Hnd Htext. unfold menuTree. apply (foldl_addMenu_distinct ["highlight-text"]).
    simpl. apply NoDup_cons. split.
    + intros Hin. apply list_elem_of_fmap in Hin as (c & Heq & Hc).
      rewrite Forall_forall in Htext. apply (Htext c Hc).
      unfold menuIdOf in Heq. symmetry.
      by apply (append_inj_r "highlight-" "text" (id c)).
    + apply NoDup_fmap_2_strong; [|by apply NoDup_fmap_1 in Hnd].
      intros c1 c2 Hc1 Hc2 Heq. apply menuIdOf_inj in Heq.
      apply list_elem_of_lookup in Hc1 as [i1 Hi1].
      apply list_elem_of_lookup in Hc2 as [i2 Hi2].
      assert (i1 = i2).
      { eapply (NoDup_lookup (id <$> currentColors w)); [done| |].
        - by rewrite list_lookup_fmap, Hi1.
        - rewrite list_lookup_fmap, Hi2. simpl. by rewrite Heq. }
      subst. congruence.
  - rewrite createOrUpdateContextMenus_run. by destruct w.
Qed.

(** * The shortcut watcher *)

Lemma existsb_false (A : Type) (f : A -> bool) (l : list A) :
  existsb f l = false <-> forall x, x ∈ l -> f x = false.
Proof.
  rewrite <- not_true_iff_false, existsb_exists. split.
  - intros Hno x Hx. apply not_true_iff_false. intros Hf. apply Hno.
    exists x. split; [by apply list_elem_of_In | done].
  - intros Hall (x & Hx & Hf). apply list_elem_of_In in Hx.
    rewrite (Hall x Hx) in Hf. done.
Qed.

Lemma truthy_lookup (m : gmap string string) (k : string) :
  truthy (m !! k) = true <-> exists v, m !! k = Some v /\ v <> "".
Proof.
  split.
  - intros Ht. apply truthy_true in Ht as (s & Hs & Hne). by exists s.
  - intros (v & -> & Hne). by apply truthy_Some.
Qed.

(** The comparison of the watcher answers "unchanged" exactly when the two
    snapshots are equal, provided no current binding is the empty string. *)
Lemma hasChanged_false (stored current : gmap string string) :
  map_Forall (fun _ v => v <> "") current ->
  Shortcuts.hasChanged stored current = false <-> stored = current.
Proof.
  intros Hvals. unfold Shortcuts.hasChanged. rewrite orb_false_iff, !existsb_false.
  split.
  - intros [Hcur Hsto]. apply map_eq. intros k.
    destruct (current !! k) as [v|] eqn:Hk.
    + specialize (Hcur (k, v)). simpl in Hcur.
      rewrite elem_of_map_to_list in Hcur. specialize (Hcur Hk).
      apply negb_false_iff, bool_decide_eq_true in Hcur. done.
    + destruct (stored !! k) as [v|] eqn:Hs; [|done].
      specialize (Hsto (k, v)). simpl in Hsto.
      rewrite elem_of_map_to_list in Hsto. specialize (Hsto Hs).
      apply negb_false_iff, truthy_lookup in Hsto as (v' & Hv' & _). congruence.
  - intros ->. split.
    + intros [k v] Hkv. apply elem_of_map_to_list in Hkv. simpl.
      apply negb_false_iff, bool_decide_eq_true. done.
    + intros [k v] Hkv. apply elem_of_map_to_list in Hkv. simpl.
      apply negb_false_iff, truthy_lookup. exists v. split; [done|].
      by apply (Hvals k v).
Qed.

Lemma getCurrentShortcuts_foldl (commands : list Command) :
  Shortcuts.getCurrentShortcuts commands = foldl recordShortcut ∅ commands.
Proof. done. Qed.

Lemma recordShortcut_lookup (acc : gmap string string) (commands : list Command)
    (name v : string) :
  foldl recordShortcut acc commands !! name = Some v ->
  acc !! name = Some v \/
  exists s, mkCommand name s ∈ commands /\
            String.prefix "highlight_" name = true /\ s <> "" /\
            v = " (" +:+ s +:+ ")".
Proof.
  revert acc. induction commands as [|[n s] rest IH]; intros acc Hl; simpl in Hl.
  - by left.
  - apply IH in Hl as [Hacc | (s' & Hin & Hrest)].
    + unfold recordShortcut in Hacc. cbn [commandName commandShortcut] in Hacc.
      destruct (String.prefix "highlight_" n) eqn:Hp; [|by left].
      destruct (truthy (Some s)) eqn:Ht; [|by left].
      cbn [andb] in Hacc.
      destruct (decide (n = name)) as [->|Hne].
      * rewrite lookup_insert_eq in Hacc. injection Hacc as <-.
        right. exists s. split_and!; [apply list_elem_of_here|done| |done].
        by destruct s.
      * rewrite lookup_insert_ne in Hacc by done. by left.
    + right. exists s'. split; [by apply list_elem_of_further|done].
Qed.

Lemma recordShortcut_other (acc : gmap string string) (commands : list Command)
    (name : string) :
  name ∉ commandName <$> commands ->
  foldl recordShortcut acc commands !! name = acc !! name.
Proof.
  revert acc. induction commands as [|[n s] rest IH]; intros acc Hout; simpl; [done|].
  rewrite fmap_cons in Hout. apply not_elem_of_cons in Hout as [Hne Hout]. simpl in Hne.
  rewrite IH by done. unfold recordShortcut. cbn [commandName commandShortcut].
  destruct (_ && _); [|done]. by rewrite lookup_insert_ne.
Qed.

Lemma getCurrentShortcuts_nonempty (commands : list Command) :
  map_Forall (fun _ v => v <> "") (Shortcuts.getCurrentShortcuts commands).
Proof.
  intros k v Hkv. rewrite getCurrentShortcuts_foldl in Hkv.
  apply recordShortcut_lookup in Hkv as [Hempty | (s & _ & _ & _ & ->)]; [done|].
  done.
Qed.

(** X15: the comparison made on tab activation finds no change exactly when
    the stored snapshot equals the current bindings: a binding that
    appeared, disappeared or changed is always detected, and nothing else
    is. *)
Theorem shortcut_drift_exact (commands : list Command) (stored : gmap string string) :
  Shortcuts.hasChanged stored (Shortcuts.getCurrentShortcuts commands) = false
  <-> stored = Shortcuts.getCurrentShortcuts commands.
Proof. apply hasChanged_false, getCurrentShortcuts_nonempty. Qed.

(** X16: after a tab activation the snapshot is the current bindings; the
    menu is rebuilt when the snapshot differed and the world is untouched
    when it did not; a second activation under the same bindings changes
    nothing. *)
Theorem onActivated_reconciles (commands : list Command) (stored : gmap string string)
    (w : World) :
  fst (Shortcuts.onActivated commands stored w)
  = Ok (Shortcuts.getCurrentShortcuts commands) /\
  (stored = Shortcuts.getCurrentShortcuts commands ->
   snd (Shortcuts.onActivated commands stored w) = w) /\
  (stored <> Shortcuts.getCurrentShortcuts commands ->
   snd (Shortcuts.onActivated commands stored w)
   = with_menuIds (menuTree (currentColors w)) w) /\
  Shortcuts.onActivated commands (Shortcuts.getCurrentShortcuts commands)
    (snd (Shortcuts.onActivated commands stored w))
  = (Ok (Shortcuts.getCurrentShortcuts commands),
     snd (Shortcuts.onActivated commands stored w)).
Proof.
  pose proof (hasChanged_false stored _ (getCurrentShortcuts_nonempty commands)) as Hiff.
  assert (Hsame : forall w', Shortcuts.onActivated commands
                               (Shortcuts.getCurrentShortcuts commands) w'
                             = (Ok (Shortcuts.getCurrentShortcuts commands), w')).
  { intros w'. unfold Shortcuts.onActivated.
    by rewrite (proj2 (hasChanged_false _ _ (getCurrentShortcuts_nonempty commands)) eq_refl). }
  unfold Shortcuts.onActivated at 1 2 3.
  destruct (Shortcuts.hasChanged stored (Shortcuts.getCurrentShortcuts commands)) eqn:Hc.
  - unfold bind. rewrite createOrUpdateContextMenus_run. cbn [fst snd ret].
    split_and!; [done| |done|apply Hsame].
    intros Heq. by apply Hiff in Heq.
  - cbn [fst snd ret]. assert (Heq : stored = Shortcuts.getCurrentShortcuts commands)
      by (by apply Hiff).
    split_and!; [by rewrite Heq|done|done|apply Hsame].
Qed.

(** X17: when the commands have pairwise distinct names, the snapshot of
    [getCurrentShortcuts] binds a name exactly when the command of that name
    starts with [highlight_] and has a non-empty shortcut, and the value is
    that shortcut between [ (] and [)]. *)
Theorem getCurrentShortcuts_lookup (commands : list Command) (name v : string) :
  NoDup (commandName <$> commands) ->
  Shortcuts.getCurrentShortcuts commands !! name = Some v <->
  exists s, mkCommand name s ∈ commands /\
            String.prefix "highlight_" name = true /\ s <> "" /\
            v = " (" +:+ s +:+ ")".
Proof.
  intros Hnd. rewrite getCurrentShortcuts_foldl. split.
  - intros Hl. by apply recordShortcut_lookup in Hl as [Hempty|Hl].
  - intros (s & Hin & Hp & Hs & ->). generalize (∅ : gmap string string).
    induction commands as [|[n s'] rest IH]; intros acc; [by apply elem_of_nil in Hin|].
    rewrite fmap_cons in Hnd. apply NoDup_cons in Hnd as [Hn Hnd]. simpl in Hn.
    apply elem_of_cons in Hin as [Heq|Hin]; simpl.
    + injection Heq as <- <-. rewrite recordShortcut_other by done.
      unfold recordShortcut. cbn [commandName commandShortcut].
      rewrite Hp, (truthy_Some s Hs). cbn [andb].
      by rewrite lookup_insert_eq.
    + by apply IH.
Qed.

Lemma getCurrentShortcuts_lookup_witness :
  NoDup (commandName <$> sampleCommands) /\
  (Shortcuts.getCurrentShortcuts sampleCommands !! "highlight_yellow"
   = Some " (Ctrl+Shift+1)" <->
   exists s, mkCommand "highlight_yellow" s ∈ sampleCommands /\
             String.prefix "highlight_" "highlight_yellow" = true /\ s <> "" /\
             " (Ctrl+Shift+1)" = " (" +:+ s +:+ ")").
Proof.
  assert (H1 : NoDup (commandName <$> sampleCommands)).
  { apply (bool_decide_unpack _). vm_compute. exact I. }
  split; [exact H1|].
  exact (getCurrentShortcuts_lookup sampleCommands "highlight_yellow" " (Ctrl+Shift+1)" H1).
Defined.

Example getCurrentShortcuts_sample :
  map_to_list (Shortcuts.getCurrentShortcuts sampleCommands)
  ≡ₚ [("highlight_yellow", " (Ctrl+Shift+1)"); ("highlight_custom_1", " (Alt+6)")].
Proof. vm_compute. apply Permutation_swap || reflexivity. Qed.

(** * The highlight storage *)

Lemma string_length_append (a b : string) :
  String.length (a +:+ b) = (String.length a + String.length b)%nat.
Proof. induction a as [|x a IH]; simpl; [done|]. by rewrite IH. Qed.

Lemma dropString_append (a b : string) : dropString (String.length a) (a +:+ b) = b.
Proof. induction a as [|x a IH]; simpl; [done|]. exact IH. Qed.

Lemma meta_key_differs (url : string) : url <> url +:+ "_meta".
Proof.
  intros Heq. apply (f_equal String.length) in Heq.
  rewrite string_length_append in Heq. simpl in Heq. lia.
Qed.

Lemma endsWith_append (key suffix : string) : Pages.endsWith (key +:+ suffix) suffix = true.
Proof.
  unfold Pages.endsWith. rewrite string_length_append.
  replace (String.length key + String.length suffix - String.length suffix)%nat
    with (String.length key) by lia.
  rewrite dropString_append, String.eqb_refl, andb_true_r.
  apply Nat.leb_le. lia.
Qed.

Lemma notify_run_exact (hs : list HighlightGroup) (url : string) (w : World) :
  Background.notifyTabHighlightsRefresh hs url w
  = (Ok tt, with_deliveries (deliveries w ++ refreshLog hs url (tabs w)) w).
Proof.
  unfold Background.notifyTabHighlightsRefresh, refreshLog, bind, tabs_query_url, try_catch.
  destruct (head _) as [t|].
  - unfold tabs_sendMessage, ret. by destruct (hasListener t).
  - unfold throw, ret. by rewrite app_nil_r, with_deliveries_same.
Qed.




(** X19: [saveHighlights] with a non-empty list while no tab is active
    answers [success: false] with an error message, after the list has been
    stored under the URL: the [_meta] key is left as it was and the log
    holds the one [set] call. *)
Theorem saveHighlights_without_active_tab (now : Z) (url : string)
    (hs : list HighlightGroup) (w : World) :
  hs <> [] ->
  filter (fun t => tabActive t = true) (tabs w) = [] ->
  success (fst (Background.onMessage now (SaveHighlights url hs) w)) = Some false /\
  is_Some (error (fst (Background.onMessage now (SaveHighlights url hs) w))) /\
  storage (snd (Background.onMessage now (SaveHighlights url hs) w))
  = <[url := SHighlights hs]> (storage w) /\
  storage (snd (Background.onMessage now (SaveHighlights url hs) w)) !! (url +:+ "_meta")
  = storage w !! (url +:+ "_meta") /\
  storageLog (snd (Background.onMessage now (SaveHighlights url hs) w))
  = storageLog w ++ [CallSet url (SHighlights hs)].
Proof.
  intros Hne Hnone. unfold Background.onMessage, Background.handle, bind, tabs_query_active.
  destruct hs as [|g hs]; [done|]. cbn [length].
  replace (0 <? Z.of_nat (S (length hs))) with true by (symmetry; apply Z.ltb_lt; lia).
  unfold storage_set at 1. rewrite Hnone. simpl.
  split_and!; [done|by eexists|done| |done].
  rewrite lookup_insert_ne; [done|]. apply meta_key_differs.
Qed.

Lemma saveHighlights_without_active_tab_witness :
  [mkGroup "g9" "text"] <> [] /\
  filter (fun t => tabActive t = true) (tabs (worldOf [] [page2; page3])) = [] /\
  success (fst (Background.onMessage 7 (SaveHighlights "https://example.org/z"
                                          [mkGroup "g9" "text"])
                  (worldOf [] [page2; page3]))) = Some false /\
  storage (snd (Background.onMessage 7 (SaveHighlights "https://example.org/z"
                                          [mkGroup "g9" "text"])
                  (worldOf [] [page2; page3])))
  = <["https://example.org/z" := SHighlights [mkGroup "g9" "text"]]>
      (storage (worldOf [] [page2; page3])).
Proof.
  assert (H1 : [mkGroup "g9" "text"] <> []) by discriminate.
  assert (H2 : filter (fun t => tabActive t = true) (tabs (worldOf [] [page2; page3])) = [])
    by reflexivity.
  destruct (saveHighlights_without_active_tab 7 "https://example.org/z"
              [mkGroup "g9" "text"] (worldOf [] [page2; page3]) H1 H2)
    as (Ha & _ & Hb & _).
  split_and!; [exact H1 | exact H2 | exact Ha | exact Hb].
Defined.

Lemma deleteHighlight_remaining_run (now : Z) (url group : string) (notifyRefresh : bool)
    (w : World) (hs : list HighlightGroup) :
  storedHighlights url (storage w) = Some hs ->
  filter (fun g => groupId g <> group) hs <> [] ->
  Background.onMessage now (DeleteHighlight url group notifyRefresh) w
  = (respondHighlights true (filter (fun g => groupId g <> group) hs),
     mkWorld (<[url := SHighlights (filter (fun g => groupId g <> group) hs)]> (storage w))
             (storageLog w ++
              [CallSet url (SHighlights (filter (fun g => groupId g <> group) hs))])
             (currentColors w) (menuIds w) (tabs w)
             (deliveries w ++
              if notifyRefresh
              then refreshLog (filter (fun g => groupId g <> group) hs) url (tabs w)
              else [])).
Proof.
  intros Hst Hrest.
  unfold Background.onMessage, Background.handle.
  unfold bind at 1. unfold storage_get_highlights. rewrite Hst.
  destruct (filter _ hs) as [|g rest] eqn:Hf; [done|].
  cbn [length]. replace (0 <? Z.of_nat (S (length rest))) with true
    by (symmetry; apply Z.ltb_lt; lia).
  unfold bind, storage_set. destruct notifyRefresh.
  - rewrite notify_run_exact. by destruct w.
  - unfold ret. simpl. rewrite app_nil_r. by destruct w.
Qed.

Lemma filter_filter_same (group : string) (hs : list HighlightGroup) :
  filter (fun g => groupId g <> group) (filter (fun g => groupId g <> group) hs)
  = filter (fun g => groupId g <> group) hs.
Proof.
  induction hs as [|g hs IH]; [done|].
  rewrite (filter_cons _ g hs). case_decide; [|done].
  by rewrite filter_cons_True, IH.
Qed.

(** X20: [deleteHighlight] that leaves some group stores under the URL the
    groups whose [groupId] differs from the one named, in their order, and
    answers them; the [_meta] key is left as it was; a second
    [deleteHighlight] for the same group stores the same list again. *)
Theorem deleteHighlight_keeps_others (now later : Z) (url group : string)
    (notifyRefresh again : bool) (w : World) (hs : list HighlightGroup) :
  storedHighlights url (storage w) = Some hs ->
  filter (fun g => groupId g <> group) hs <> [] ->
  fst (Background.onMessage now (DeleteHighlight url group notifyRefresh) w)
  = mkResponse (Some true) None None None
               (Some (filter (fun g => groupId g <> group) hs)) None /\
  storage (snd (Background.onMessage now (DeleteHighlight url group notifyRefresh) w))
  = <[url := SHighlights (filter (fun g => groupId g <> group) hs)]> (storage w) /\
  storage (snd (Background.onMessage now (DeleteHighlight url group notifyRefresh) w))
    !! (url +:+ "_meta")
  = storage w !! (url +:+ "_meta") /\
  storage (snd (Background.onMessage later (DeleteHighlight url group again)
                  (snd (Background.onMessage now
                          (DeleteHighlight url group notifyRefresh) w))))
  = storage (snd (Background.onMessage now (DeleteHighlight url group notifyRefresh) w)).
Proof.
  intros Hst Hrest.
  rewrite (deleteHighlight_remaining_run now url group notifyRefresh w hs Hst Hrest).
  cbn [fst snd storage]. split_and!; [done|done| |].
  - rewrite lookup_insert_ne; [done|]. apply meta_key_differs.
  - rewrite (deleteHighlight_remaining_run later url group again _
               (filter (fun g => groupId g <> group) hs)).
    + cbn [snd storage]. rewrite filter_filter_same. apply insert_insert_eq.
    + unfold storedHighlights. cbn [storage]. by rewrite lookup_insert_eq.
    + by rewrite filter_filter_same.
Qed.

Lemma deleteHighlight_keeps_others_witness :
  storedHighlights "https://example.org/b" (storage twoPagesWorld)
  = Some [mkGroup "g2" "x"; mkGroup "g3" "y"] /\
  filter (fun g => groupId g <> "g2") [mkGroup "g2" "x"; mkGroup "g3" "y"] <> [] /\
  fst (Background.onMessage 7 (DeleteHighlight "https://example.org/b" "g2" true)
         twoPagesWorld)
  = mkResponse (Some true) None None None
               (Some (filter (fun g => groupId g <> "g2")
                             [mkGroup "g2" "x"; mkGroup "g3" "y"])) None.
Proof.
  assert (H1 : storedHighlights "https://example.org/b" (storage twoPagesWorld)
               = Some [mkGroup "g2" "x"; mkGroup "g3" "y"]) by (vm_compute; reflexivity).
  assert (H2 : filter (fun g => groupId g <> "g2") [mkGroup "g2" "x"; mkGroup "g3" "y"] <> [])
    by (vm_compute; discriminate).
  split_and!; [exact H1 | exact H2 |].
  apply (deleteHighlight_keeps_others 7 8 "https://example.org/b" "g2" true true
           twoPagesWorld [mkGroup "g2" "x"; mkGroup "g3" "y"] H1 H2).
Defined.

(** X21: [clearAllHighlights] always answers [success: true]; asked to
    notify, it makes one [sendMessage] call, an empty [refreshHighlights] to
    the first tab that shows the URL, and none when no tab shows it; not
    asked, it sends nothing; a page without listener does not change the
    answer. *)
Theorem clearAllHighlights_notifies (now : Z) (url : string) (notifyRefresh : bool)
    (w : World) :
  fst (Background.onMessage now (ClearAllHighlights url notifyRefresh) w)
  = mkResponse (Some true) None None None None None /\
  deliveries (snd (Background.onMessage now (ClearAllHighlights url notifyRefresh) w))
  = deliveries w ++ (if notifyRefresh then refreshLog [] url (tabs w) else []) /\
  currentColors (snd (Background.onMessage now (ClearAllHighlights url notifyRefresh) w))
  = currentColors w.
Proof.
  unfold Background.onMessage, Background.handle, bind.
  destruct (Background.cleanupEmptyHighlightData url w) as [[[]|e] w1] eqn:Hclean.
  - assert (Hw1 : deliveries w1 = deliveries w /\ currentColors w1 = currentColors w
                  /\ tabs w1 = tabs w).
    { unfold Background.cleanupEmptyHighlightData in Hclean.
      destruct (truthy (Some url)); injection Hclean as <-; done. }
    destruct Hw1 as (Hd & Hc & Ht).
    destruct notifyRefresh.
    + rewrite notify_run_exact. simpl. by rewrite Hd, Hc, Ht.
    + simpl. by rewrite app_nil_r, Hd, Hc.
  - unfold Background.cleanupEmptyHighlightData in Hclean.
    destruct (truthy (Some url)); discriminate.
Qed.

Lemma highlightedPageKeys_elem_of (s : gmap string StoredValue) (key : string) :
  key ∈ Pages.highlightedPageKeys s <->
  exists v, s !! key = Some v /\ Pages.isHighlightedPage key v = true.
Proof.
  unfold Pages.highlightedPageKeys. rewrite list_elem_of_fmap. split.
  - intros ([k v] & -> & Hin). apply list_elem_of_filter in Hin as [Hp Hin].
    apply elem_of_map_to_list in Hin. by exists v.
  - intros (v & Hv & Hp). exists (key, v). split; [done|].
    apply list_elem_of_filter. split; [done|]. by apply elem_of_map_to_list.
Qed.

Lemma keysToDelete_elem_of (keys : list string) (k : string) :
  k ∈ flat_map (fun key => [key; key +:+ "_meta"]) keys <->
  exists key, key ∈ keys /\ (k = key \/ k = key +:+ "_meta").
Proof.
  rewrite list_elem_of_In, in_flat_map. split.
  - intros (key & Hin & Hk). exists key. split; [by apply list_elem_of_In|].
    simpl in Hk. destruct Hk as [<-|[<-|[]]]; auto.
  - intros (key & Hin & Hk). exists key. split; [by apply list_elem_of_In|].
    simpl. destruct Hk as [->| ->]; auto.
Qed.

Lemma keysToDelete_length (keys : list string) :
  length (flat_map (fun key => [key; key +:+ "_meta"]) keys) = (2 * length keys)%nat.
Proof. induction keys as [|k keys IH]; simpl; lia. Qed.

Lemma deleteAllHighlightedPages_run (w : World) :
  Pages.deleteAllHighlightedPages w
  = (Ok (Z.of_nat (length (Pages.highlightedPageKeys (storage w)))),
     if decide (Pages.highlightedPageKeys (storage w) = []) then w
     else with_storage
            (foldr delete (storage w)
               (flat_map (fun key => [key; key +:+ "_meta"])
                         (Pages.highlightedPageKeys (storage w))))
            (CallRemove (flat_map (fun key => [key; key +:+ "_meta"])
                                  (Pages.highlightedPageKeys (storage w))))
            w).
Proof.
  unfold Pages.deleteAllHighlightedPages, bind.
  rewrite keysToDelete_length.
  replace (Z.of_nat (2 * length (Pages.highlightedPageKeys (storage w))) / 2)
    with (Z.of_nat (length (Pages.highlightedPageKeys (storage w))))
    by (rewrite Nat2Z.inj_mul, Z.mul_comm, Z.div_mul; lia).
  destruct (Pages.highlightedPageKeys (storage w)) as [|k keys] eqn:Hk.
  - by rewrite decide_True.
  - rewrite decide_False by done.
    replace (0 <? Z.of_nat (2 * length (k :: keys))) with true
      by (symmetry; apply Z.ltb_lt; simpl; lia).
    done.
Qed.

(** X22: [deleteAllHighlightedPages] makes one [remove] call, and no other
    storage call, which names the key and the [_meta] key of every entry
    other than [customColors] that holds a non-empty list under a key not
    ending in [_meta], and nothing else; it answers their number;
    [customColors] is left as it was and no such entry is left; when there
    is none, no storage call is made. *)
Theorem deleteAllHighlightedPages_removes (w : World) :
  fst (Pages.deleteAllHighlightedPages w)
  = Ok (Z.of_nat (length (Pages.highlightedPageKeys (storage w)))) /\
  (Pages.highlightedPageKeys (storage w) <> [] ->
   exists keysToDelete,
     storageLog (snd (Pages.deleteAllHighlightedPages w))
     = storageLog w ++ [CallRemove keysToDelete] /\
     length keysToDelete = (2 * length (Pages.highlightedPageKeys (storage w)))%nat /\
     (forall k, k ∈ keysToDelete <->
        exists key, key ∈ Pages.highlightedPageKeys (storage w) /\
                    (k = key \/ k = key +:+ "_meta")) /\
     storage (snd (Pages.deleteAllHighlightedPages w))
     = foldr delete (storage w) keysToDelete) /\
  (forall key, key ∈ Pages.highlightedPageKeys (storage w) ->
     storage (snd (Pages.deleteAllHighlightedPages w)) !! key = None /\
     storage (snd (Pages.deleteAllHighlightedPages w)) !! (key +:+ "_meta") = None) /\
  storage (snd (Pages.deleteAllHighlightedPages w)) !! "customColors"
  = storage w !! "customColors" /\
  Pages.highlightedPageKeys (storage (snd (Pages.deleteAllHighlightedPages w))) = [] /\
  (Pages.highlightedPageKeys (storage w) = [] -> snd (Pages.deleteAllHighlightedPages w) = w) /\
  currentColors (snd (Pages.deleteAllHighlightedPages w)) = currentColors w.
Proof.
  rewrite deleteAllHighlightedPages_run. cbn [fst snd].
  destruct (decide (Pages.highlightedPageKeys (storage w) = [])) as [Hnone|Hsome].
  - split_and!; try done. intros key Hkey. rewrite Hnone in Hkey.
    by apply elem_of_nil in Hkey.
  - cbn [storage storageLog with_storage currentColors]. split_and!; try done.
    + intros _. eexists. split_and!; [reflexivity | apply keysToDelete_length | | reflexivity].
      intros k. apply keysToDelete_elem_of.
    + intros key Hkey. split; apply lookup_foldr_delete, keysToDelete_elem_of;
        exists key; auto.
    + apply lookup_foldr_delete_not_elem_of. intros Hin.
      apply keysToDelete_elem_of in Hin as (key & Hkey & [Heq|Heq]).
      * apply highlightedPageKeys_elem_of in Hkey as (v & _ & Hp).
        unfold Pages.isHighlightedPage in Hp. rewrite <- Heq in Hp. done.
      * pose proof (endsWith_append key "_meta") as He. rewrite <- Heq in He. done.
    + apply elem_of_nil_inv. intros key Hkey.
      apply highlightedPageKeys_elem_of in Hkey as (v & Hv & Hp).
      destruct (decide (key ∈ flat_map (fun key => [key; key +:+ "_meta"])
                                       (Pages.highlightedPageKeys (storage w))))
        as [Hin|Hout].
      * by rewrite lookup_foldr_delete in Hv.
      * rewrite lookup_foldr_delete_not_elem_of in Hv by done.
        apply Hout, keysToDelete_elem_of. exists key. split; [|by left].
        apply highlightedPageKeys_elem_of. by exists v.
Qed.

Example deleteAllHighlightedPages_sample :
  fst (Pages.deleteAllHighlightedPages twoPagesWorld) = Ok 2 /\
  storage (snd (Pages.deleteAllHighlightedPages twoPagesWorld))
  = {[ "https://example.org/c" := SHighlights []; "customColors" := SColors [red] ]}.
Proof. split; vm_compute; reflexivity. Qed.

(** * The hex rendering of the picker *)

Lemma mapString_append (f : ascii -> ascii) (a b : string) :
  mapString f (a +:+ b) = mapString f a +:+ mapString f b.
Proof. induction a as [|x a IH]; simpl; [done|]. by rewrite IH. Qed.

Lemma rgbToHex_channels (r g b : Z) :
  PickerHex.rgbToHex r g b = "#" +:+ channelHex r +:+ channelHex g +:+ channelHex b.
Proof.
  unfold PickerHex.rgbToHex, channelHex, toUpperCase. simpl.
  by rewrite !mapString_append.
Qed.

Lemma append_inj_length (a1 a2 b1 b2 : string) :
  String.length a1 = String.length a2 ->
  a1 +:+ b1 = a2 +:+ b2 -> a1 = a2 /\ b1 = b2.
Proof.
  revert a2. induction a1 as [|x a1 IH]; intros [|y a2] Hlen Heq; simpl in *; try done.
  injection Heq as -> Heq. injection Hlen as Hlen.
  destruct (IH a2 Hlen Heq) as [-> ->]. done.
Qed.

Lemma allChars_append (p : ascii -> bool) (a b : string) :
  allChars p (a +:+ b) = allChars p a && allChars p b.
Proof. induction a as [|x a IH]; simpl; [done|]. by rewrite IH, andb_assoc. Qed.

Lemma channelHex_table :
  Forall (fun x => String.length (channelHex x) = 2%nat /\
                   allChars isUpperHexDigit (channelHex x) = true)
         (seqZ 0 256) /\
  NoDup (channelHex <$> seqZ 0 256).
Proof.
  split.
  - apply (bool_decide_unpack _). vm_compute. exact I.
  - apply (bool_decide_unpack _). vm_compute. exact I.
Qed.

Lemma channelHex_shape (x : Z) :
  0 <= x <= 255 ->
  String.length (channelHex x) = 2%nat /\ allChars isUpperHexDigit (channelHex x) = true.
Proof.
  intros Hx. destruct channelHex_table as [Hall _].
  rewrite Forall_forall in Hall. apply Hall, elem_of_seqZ. lia.
Qed.

Lemma channelHex_inj (x y : Z) :
  0 <= x <= 255 -> 0 <= y <= 255 -> channelHex x = channelHex y -> x = y.
Proof.
  intros Hx Hy Heq. destruct channelHex_table as [_ Hnd].
  assert (Hlx : seqZ 0 256 !! Z.to_nat x = Some x)
    by (rewrite lookup_seqZ; split; lia).
  assert (Hly : seqZ 0 256 !! Z.to_nat y = Some y)
    by (rewrite lookup_seqZ; split; lia).
  assert (Z.to_nat x = Z.to_nat y); [|lia].
  eapply (NoDup_lookup (channelHex <$> seqZ 0 256)); [done| |].
  - by rewrite list_lookup_fmap, Hlx.
  - rewrite list_lookup_fmap, Hly. simpl. by rewrite Heq.
Qed.

(** X23: for channels between 0 and 255, [rgbToHex] gives [#] followed by
    six upper-case hex digits, a string that [toUpperCase] leaves as it is;
    and two triples of channels with the same string are the same triple. *)
Theorem rgbToHex_canonical (r g b : Z) :
  0 <= r <= 255 -> 0 <= g <= 255 -> 0 <= b <= 255 ->
  (exists digits, PickerHex.rgbToHex r g b = String "#" digits /\
                  String.length digits = 6%nat /\
                  allChars isUpperHexDigit digits = true) /\
  toUpperCase (PickerHex.rgbToHex r g b) = PickerHex.rgbToHex r g b /\
  (forall r' g' b',
     0 <= r' <= 255 -> 0 <= g' <= 255 -> 0 <= b' <= 255 ->
     PickerHex.rgbToHex r g b = PickerHex.rgbToHex r' g' b' ->
     r = r' /\ g = g' /\ b = b').
Proof.
  intros Hr Hg Hb.
  destruct (channelHex_shape r Hr) as [Hlr Hcr].
  destruct (channelHex_shape g Hg) as [Hlg Hcg].
  destruct (channelHex_shape b Hb) as [Hlb Hcb].
  split_and!.
  - exists (channelHex r +:+ channelHex g +:+ channelHex b). split_and!.
    + by rewrite rgbToHex_channels.
    + rewrite !string_length_append. lia.
    + by rewrite !allChars_append, Hcr, Hcg, Hcb.
  - unfold PickerHex.rgbToHex, toUpperCase. simpl. f_equal. apply toUpperCase_idem.
  - intros r' g' b' Hr' Hg' Hb' Heq. rewrite !rgbToHex_channels in Heq.
    apply append_inj_length in Heq as [_ Heq]; [|done].
    destruct (channelHex_shape r' Hr') as [Hlr' _].
    destruct (channelHex_shape g' Hg') as [Hlg' _].
    apply append_inj_length in Heq as [Her Heq]; [|congruence].
    apply append_inj_length in Heq as [Heg Heb]; [|congruence].
    split_and!; by apply channelHex_inj.
Qed.

Lemma rgbToHex_canonical_witness :
  0 <= 204 <= 255 /\ 0 <= 41 <= 255 /\ 0 <= 10 <= 255 /\
  toUpperCase (PickerHex.rgbToHex 204 41 10) = PickerHex.rgbToHex 204 41 10.
Proof.
  assert (H1 : 0 <= 204 <= 255) by lia.
  assert (H2 : 0 <= 41 <= 255) by lia.
  assert (H3 : 0 <= 10 <= 255) by lia.
  refine (conj H1 (conj H2 (conj H3 _))).
  apply (rgbToHex_canonical 204 41 10 H1 H2 H3).
Defined.

Example rgbToHex_sample : PickerHex.rgbToHex 204 41 10 = "#CC290A".
Proof. reflexivity. Qed.

(** * What a request leaves alone *)

Section Frames.

Context {A B : Type} (ks : list string).

Lemma writesWithin_ret (a : A) : writesWithin ks (ret a).
Proof. by intros w k Hk. Qed.

Lemma writesWithin_throw (e : string) : writesWithin ks (throw e : M A).
Proof. by intros w k Hk. Qed.

Lemma writesWithin_bind (m : M A) (f : A -> M B) :
  writesWithin ks m -> (forall a, writesWithin ks (f a)) -> writesWithin ks (bind m f).
Proof.
  intros Hm Hf w k Hk. unfold bind. specialize (Hm w k Hk).
  destruct (m w) as [[a|e] w1]; simpl in *; [|done].
  by rewrite (Hf a w1 k Hk).
Qed.

Lemma writesWithin_try_catch (m : M A) (h : string -> M A) :
  writesWithin ks m -> (forall e, writesWithin ks (h e)) -> writesWithin ks (try_catch m h).
Proof.
  intros Hm Hh w k Hk. unfold try_catch. specialize (Hm w k Hk).
  destruct (m w) as [[a|e] w1]; simpl in *; [done|].
  by rewrite (Hh e w1 k Hk).
Qed.

Lemma keepsMirror_ret (a : A) : keepsMirror (ret a).
Proof. by intros w. Qed.

Lemma keepsMirror_throw (e : string) : keepsMirror (throw e : M A).
Proof. by intros w. Qed.

Lemma keepsMirror_bind (m : M A) (f : A -> M B) :
  keepsMirror m -> (forall a, keepsMirror (f a)) -> keepsMirror (bind m f).
Proof.
  intros Hm Hf w. unfold bind. specialize (Hm w).
  destruct (m w) as [[a|e] w1]; simpl in *; [|done].
  destruct (Hf a w1) as [-> ->]. done.
Qed.

Lemma keepsMirror_try_catch (m : M A) (h : string -> M A) :
  keepsMirror m -> (forall e, keepsMirror (h e)) -> keepsMirror (try_catch m h).
Proof.
  intros Hm Hh w. unfold try_catch. specialize (Hm w).
  destruct (m w) as [[a|e] w1]; simpl in *; [done|].
  destruct (Hh e w1) as [-> ->]. done.
Qed.

End Frames.

Lemma writesWithin_storage_set (ks : list string) (key : string) (v : StoredValue) :
  key ∈ ks -> writesWithin ks (storage_set key v).
Proof.
  intros Hkey w k Hk. simpl. apply lookup_insert_ne. intros ->. done.
Qed.

Lemma writesWithin_storage_remove (ks keys : list string) :
  keys ⊆ ks -> writesWithin ks (storage_remove keys).
Proof.
  intros Hsub w k Hk. simpl. apply lookup_foldr_delete_not_elem_of.
  intros Hin. by apply Hk, Hsub.
Qed.

Lemma writesWithin_storage_get_customColors (ks : list string) :
  writesWithin ks storage_get_customColors.
Proof. intros w k Hk. unfold storage_get_customColors. by destruct (storedColors _). Qed.

Lemma writesWithin_storage_get_highlights (ks : list string) (url : string) :
  writesWithin ks (storage_get_highlights url).
Proof. intros w k Hk. unfold storage_get_highlights. by destruct (storedHighlights _ _). Qed.

Lemma writesWithin_get_currentColors (ks : list string) : writesWithin ks get_currentColors.
Proof. by intros w k Hk. Qed.

Lemma writesWithin_set_currentColors (ks : list string) (cs : list ColorRecord) :
  writesWithin ks (set_currentColors cs).
Proof. by intros w k Hk. Qed.

Lemma writesWithin_tabs_query_active (ks : list string) : writesWithin ks tabs_query_active.
Proof. by intros w k Hk. Qed.

Lemma writesWithin_menus (ks : list string) :
  writesWithin ks Background.createOrUpdateContextMenus.
Proof. intros w k Hk. by rewrite createOrUpdateContextMenus_run. Qed.

Lemma writesWithin_broadcast (ks : list string) : writesWithin ks Background.broadcastColors.
Proof. intros w k Hk. by rewrite broadcastColors_run. Qed.

Lemma writesWithin_notify (ks : list string) (hs : list HighlightGroup) (url : string) :
  writesWithin ks (Background.notifyTabHighlightsRefresh hs url).
Proof. intros w k Hk. by rewrite notify_run_exact. Qed.

Lemma writesWithin_cleanup (ks : list string) (url : string) :
  url ∈ ks -> url +:+ "_meta" ∈ ks ->
  writesWithin ks (Background.cleanupEmptyHighlightData url).
Proof.
  intros H1 H2. unfold Background.cleanupEmptyHighlightData. destruct (truthy _).
  - apply writesWithin_try_catch; [|intros; apply writesWithin_ret].
    apply writesWithin_storage_remove. intros x Hx.
    apply elem_of_cons in Hx as [->|Hx]; [done|].
    by apply list_elem_of_singleton in Hx as ->.
  - apply writesWithin_ret.
Qed.

Lemma writesWithin_loadCustomColors (ks : list string) :
  "customColors" ∈ ks -> writesWithin ks Background.loadCustomColors.
Proof.
  intros Hin. unfold Background.loadCustomColors.
  apply writesWithin_try_catch; [|intros; apply writesWithin_ret].
  apply writesWithin_bind; [apply writesWithin_storage_get_customColors|].
  intros cs. apply writesWithin_bind; [|intros; apply writesWithin_set_currentColors].
  destruct (existsb _ cs); [by apply writesWithin_storage_set | apply writesWithin_ret].
Qed.

Lemma keepsMirror_storage_set (key : string) (v : StoredValue) :
  keepsMirror (storage_set key v).
Proof. by intros w. Qed.

Lemma keepsMirror_storage_remove (keys : list string) : keepsMirror (storage_remove keys).
Proof. by intros w. Qed.

Lemma keepsMirror_storage_get_highlights (url : string) :
  keepsMirror (storage_get_highlights url).
Proof. intros w. unfold storage_get_highlights. by destruct (storedHighlights _ _). Qed.

Lemma keepsMirror_get_currentColors : keepsMirror get_currentColors.
Proof. by intros w. Qed.

Lemma keepsMirror_tabs_query_active : keepsMirror tabs_query_active.
Proof. by intros w. Qed.

Lemma keepsMirror_notify (hs : list HighlightGroup) (url : string) :
  keepsMirror (Background.notifyTabHighlightsRefresh hs url).
Proof. intros w. by rewrite notify_run_exact. Qed.

Lemma keepsMirror_cleanup (url : string) :
  keepsMirror (Background.cleanupEmptyHighlightData url).
Proof.
  unfold Background.cleanupEmptyHighlightData. destruct (truthy _).
  - apply keepsMirror_try_catch; [apply keepsMirror_storage_remove|].
    intros; apply keepsMirror_ret.
  - apply keepsMirror_ret.
Qed.

Create HintDb frames.
#[local] Hint Resolve writesWithin_storage_get_customColors
  writesWithin_storage_get_highlights writesWithin_get_currentColors
  writesWithin_set_currentColors writesWithin_tabs_query_active writesWithin_menus
  writesWithin_broadcast writesWithin_notify writesWithin_ret writesWithin_throw
  keepsMirror_storage_set keepsMirror_storage_remove keepsMirror_storage_get_highlights
  keepsMirror_get_currentColors keepsMirror_tabs_query_active keepsMirror_notify
  keepsMirror_cleanup keepsMirror_ret keepsMirror_throw : frames.

Ltac frame_step :=
  cbv zeta;
  first
    [ solve [auto with frames]
    | apply writesWithin_storage_set; set_solver
    | apply writesWithin_cleanup; set_solver
    | apply writesWithin_loadCustomColors; set_solver
    | match goal with
      | |- writesWithin _ (if ?b then _ else _) => destruct b
      | |- keepsMirror (if ?b then _ else _) => destruct b
      | |- writesWithin _ (match ?o with Some _ => _ | None => _ end) => destruct o as [?|]
      | |- keepsMirror (match ?o with Some _ => _ | None => _ end) => destruct o as [?|]
      | |- writesWithin _ (let (_, _) := ?p in _) => destruct p
      | |- writesWithin _ (bind _ _) => simple apply writesWithin_bind; [|intros ?]
      | |- keepsMirror (bind _ _) => simple apply keepsMirror_bind; [|intros ?]
      end ].

Lemma handle_writesWithin (now : Z) (m : Message) :
  writesWithin (keysOf m) (Background.handle now m).
Proof. destruct m; unfold Background.handle, keysOf; repeat frame_step. Qed.

Lemma handle_keepsMirror (now : Z) (m : Message) :
  isColorRequest m = false -> keepsMirror (Background.handle now m).
Proof. destruct m; try done; intros _; unfold Background.handle; repeat frame_step. Qed.

(** X24: each request of the listener, [getAllHighlightedPages] apart,
    writes the storage under its own keys at most: a colour request
    ([addColor], [deleteColor], [clearCustomColors], [customColorsUpdated])
    under [customColors]; [saveHighlights], [deleteHighlight] and
    [clearAllHighlights] for a URL under the URL and its [_meta] key;
    [getDebugMode], [getColors] and [getHighlights] under none;
    [deleteAllHighlightedPages] under the keys of the highlighted pages and
    their [_meta] keys.  Every other key holds afterwards what it held
    before. *)
Theorem request_writes_own_keys (now : Z) (m : Message) (w : World) (k : string) :
  (k ∉ keysOf m ->
   storage (snd (Background.onMessage now m w)) !! k = storage w !! k) /\
  (k ∉ pageKeysOf (storage w) ->
   storage (snd (Pages.deleteAllHighlightedPages w)) !! k = storage w !! k).
Proof.
  split.
  - intros Hk. pose proof (handle_writesWithin now m w k Hk) as Hw.
    unfold Background.onMessage. by destruct (Background.handle now m w) as [[r|e] w1].
  - intros Hk. rewrite deleteAllHighlightedPages_run. cbn [snd].
    destruct (decide (Pages.highlightedPageKeys (storage w) = [])); [done|].
    cbn [storage with_storage]. by apply lookup_foldr_delete_not_elem_of.
Qed.

Lemma request_writes_own_keys_witness :
  ("customColors" ∉ keysOf (ClearAllHighlights samplePage true)) /\
  storage (snd (Background.onMessage 3 (ClearAllHighlights samplePage true) twoPagesWorld))
    !! "customColors"
  = storage twoPagesWorld !! "customColors" /\
  ("https://example.org/c" ∉ pageKeysOf (storage twoPagesWorld)) /\
  storage (snd (Pages.deleteAllHighlightedPages twoPagesWorld)) !! "https://example.org/c"
  = storage twoPagesWorld !! "https://example.org/c".
Proof.
  assert (H1 : "customColors" ∉ keysOf (ClearAllHighlights samplePage true)).
  { apply (bool_decide_unpack _). vm_compute. exact I. }
  assert (H2 : "https://example.org/c" ∉ pageKeysOf (storage twoPagesWorld)).
  { apply (bool_decide_unpack _). vm_compute. exact I. }
  split_and!; [exact H1 | | exact H2 |].
  - exact (proj1 (request_writes_own_keys 3 (ClearAllHighlights samplePage true)
                    twoPagesWorld "customColors") H1).
  - exact (proj2 (request_writes_own_keys 3 (ClearAllHighlights samplePage true)
                    twoPagesWorld "https://example.org/c") H2).
Defined.

(** X25: a request that is not a colour request ([getColors],
    [getHighlights], [saveHighlights], [deleteHighlight],
    [clearAllHighlights], [getDebugMode]) leaves the mirror and the menu as
    they were. *)
Theorem other_requests_keep_mirror (now : Z) (m : Message) (w : World) :
  isColorRequest m = false ->
  currentColors (snd (Background.onMessage now m w)) = currentColors w /\
  menuIds (snd (Background.onMessage now m w)) = menuIds w.
Proof.
  intros Hm. pose proof (handle_keepsMirror now m Hm w) as Hw.
  unfold Background.onMessage. by destruct (Background.handle now m w) as [[r|e] w1].
Qed.

Lemma other_requests_keep_mirror_witness :
  isColorRequest (DeleteHighlight samplePage "g1" true) = false /\
  currentColors (snd (Background.onMessage 3 (DeleteHighlight samplePage "g1" true)
                        pageWorld))
  = currentColors pageWorld /\
  menuIds (snd (Background.onMessage 3 (DeleteHighlight samplePage "g1" true) pageWorld))
  = menuIds pageWorld.
Proof.
  assert (H1 : isColorRequest (DeleteHighlight samplePage "g1" true) = false)
    by reflexivity.
  split; [exact H1|].
  exact (other_requests_keep_mirror 3 (DeleteHighlight samplePage "g1" true) pageWorld H1).
Defined.

(** A highlight request for the URL [customColors] does write the colour
    key: the collection is replaced by the highlight list. *)
Example saveHighlights_over_colors :
  storedColors
    (storage (snd (Background.onMessage 3 (SaveHighlights "customColors" [mkGroup "g" "x"])
                     pageWorld)))
  = None /\
  storedHighlights "customColors"
    (storage (snd (Background.onMessage 3 (SaveHighlights "customColors" [mkGroup "g" "x"])
                     pageWorld)))
  = Some [mkGroup "g" "x"].
Proof. split; vm_compute; reflexivity. Qed.
